(** * Adaptive learning agent: domain model, quiz evaluation, plan
      progression and profile persistence.

    A shallow embedding of [models/schemas.py], [tools/quiz_generator.py]
    ([QuizEvaluator]), [tools/knowledge_manager.py] (the profile store),
    [tools/resource_search.py] and [app.py] ([generate_learning_plan], the
    callback handler).

    Conventions.
    - A Python number is a [Py.num]: an [int] of any size ([Z]) or a
      [float], an IEEE 754 binary64 value ([PrimFloat.float]).  The
      arithmetic on them ([+], [/], [*], [sum], comparisons) is CPython's:
      rounding to nearest-even, [OverflowError] when an [int] does not fit
      a [float], [ZeroDivisionError] on a zero divisor.
    - The two float fields that the code only stores and compares with
      bounds, [Module.mastery_score] and [ResourceLink.relevance_score],
      hold the rational the float denotes ([Q]).
    - Model instances are values: a plan owns its module objects and a
      profile its skill entries, no object is shared between two places.
    - A call that may raise is a value of [Py.res]: [Ret v] or [Raise e].
      A method that changes its object before it raises is a [Py.mut]:
      the object as the call leaves it, and how the call ended.
    - [sum] adds from left to right, as CPython does up to version 3.11.
    - The interpreter's limit on the length of the decimal text of an
      [int] (4300 digits by default) is left out: [str], [json.dump] and
      [json.load] take an [int] of any size.
    - [datetime.now()] is an explicit clock reading passed by the caller.
    - pydantic models are records; a constructor [mk_X] runs the field
      constraints of the class and returns the record or a
      [ValidationError] listing the offending fields. *)

From Stdlib Require Import PrimFloat.
From Stdlib Require Import ZArith QArith Qabs String Ascii DecimalString Bool Lia
  List Permutation.
From Stdlib Require Uint63 SpecFloat FloatOps FloatAxioms.
Import ListNotations.
Open Scope string_scope.
Open Scope Z_scope.
Set Warnings "-inexact-float".

(* ------------------------------------------------------------------ *)
(** ** The Python runtime pieces the sources rely on *)

Module Py.

(** Exceptions that the modelled code paths can raise. *)
Inductive exn : Type :=
| ValidationError (fields : list string)   (* pydantic, with offending fields *)
| ValueError
| OverflowError
| ZeroDivisionError
| IndexError
| KeyError (key : string)
| TypeError
| FileNotFoundError
| FileExistsError
| NotADirectoryError
| IsADirectoryError
| NotModelled (what : string).
(* [NotModelled]: the real code continues, but with a value that has no
   counterpart in the record types used here. *)

Inductive res (A : Type) : Type :=
| Ret (a : A)
| Raise (e : exn).
Arguments Ret {A} a.
Arguments Raise {A} e.

Definition bind {A B : Type} (m : res A) (k : A -> res B) : res B :=
  match m with
  | Ret a => k a
  | Raise e => Raise e
  end.

(** [chr(i)]: the one-character string of code point [i], represented by
    the code point.  CPython converts the argument to a C [int] first
    ([OverflowError] outside 32 bits) and then checks
    [0 <= i < 0x110000] ([ValueError]). *)
Definition chr (i : Z) : res Z :=
  if (i <? - 2147483648) || (2147483647 <? i) then Raise OverflowError
  else if (i <? 0) || (1114111 <? i) then Raise ValueError
  else Ret i.

(** *** Numbers *)

Inductive num : Type :=
| Int (z : Z)
| Float (f : float).

(** A correctly rounded result as a [float]; a result beyond the largest
    finite [float] is an [OverflowError]. *)
Definition to_float (x : SpecFloat.spec_float) : res float :=
  match x with
  | SpecFloat.S754_infinity _ => Raise OverflowError
  | _ => Ret (FloatOps.SF2Prim x)
  end.

(** [float(z)] for an [int]: the nearest [float], ties to even. *)
Definition float_of_int (z : Z) : res float :=
  to_float (SpecFloat.binary_normalize FloatOps.prec FloatOps.emax z 0 false).

(** The operand conversion of the mixed operations. *)
Definition as_float (x : num) : res float :=
  match x with
  | Int z => float_of_int z
  | Float f => Ret f
  end.

(** [x + y] *)
Definition add (x y : num) : res num :=
  match x, y with
  | Int a, Int b => Ret (Int (a + b))
  | _, _ =>
      match as_float x with
      | Raise e => Raise e
      | Ret f =>
          match as_float y with
          | Raise e => Raise e
          | Ret g => Ret (Float (f + g))
          end
      end
  end.

(** [x * y] *)
Definition mul (x y : num) : res num :=
  match x, y with
  | Int a, Int b => Ret (Int (a * b))
  | _, _ =>
      match as_float x with
      | Raise e => Raise e
      | Ret f =>
          match as_float y with
          | Raise e => Raise e
          | Ret g => Ret (Float (f * g))
          end
      end
  end.

(** An [int] as an exact operand of the [int / int] division. *)
Definition exact_int (z : Z) : SpecFloat.spec_float :=
  match z with
  | Z0 => SpecFloat.S754_zero false
  | Zpos p => SpecFloat.S754_finite false p 0
  | Zneg p => SpecFloat.S754_finite true p 0
  end.

(** [a / b] on two [int]s: the exact quotient, rounded once. *)
Definition int_truediv (a b : Z) : res float :=
  if b =? 0 then Raise ZeroDivisionError
  else to_float (SpecFloat.SFdiv FloatOps.prec FloatOps.emax
                   (exact_int a) (exact_int b)).

(** [x / y]: true division, always a [float]. *)
Definition truediv (x y : num) : res float :=
  match x, y with
  | Int a, Int b => int_truediv a b
  | _, _ =>
      match as_float x with
      | Raise e => Raise e
      | Ret f =>
          match as_float y with
          | Raise e => Raise e
          | Ret g =>
              if is_zero g then Raise ZeroDivisionError else Ret (f / g)%float
          end
      end
  end.

(** What a number is on the extended real line; a NaN is nowhere. *)
Inductive xreal : Type :=
| MinusInf
| Real (q : Q)
| PlusInf.

Definition xvalue (x : num) : option xreal :=
  match x with
  | Int z => Some (Real (inject_Z z))
  | Float f =>
      match FloatOps.Prim2SF f with
      | SpecFloat.S754_nan => None
      | SpecFloat.S754_infinity s => Some (if s then MinusInf else PlusInf)
      | SpecFloat.S754_zero _ => Some (Real 0)
      | SpecFloat.S754_finite s m e =>
          let v := if s then Zneg m else Zpos m in
          Some (Real (if 0 <=? e then inject_Z (v * 2 ^ e)
                      else Qmake v (Z.to_pos (2 ^ (- e)))))
      end
  end.

Definition xcompare (a b : xreal) : comparison :=
  match a, b with
  | MinusInf, MinusInf | PlusInf, PlusInf => Eq
  | MinusInf, _ | _, PlusInf => Lt
  | _, MinusInf | PlusInf, _ => Gt
  | Real p, Real q => Qcompare p q
  end.

(** Comparison of two numbers: by what they are, also between an [int]
    and a [float]; [None] when one of them is a NaN. *)
Definition compare (x y : num) : option comparison :=
  match xvalue x, xvalue y with
  | Some a, Some b => Some (xcompare a b)
  | _, _ => None
  end.

(** [x >= y] and [x > y] *)
Definition ge (x y : num) : bool :=
  match compare x y with
  | Some (Gt | Eq) => true
  | _ => false
  end.

Definition gt (x y : num) : bool :=
  match compare x y with
  | Some Gt => true
  | _ => false
  end.

(** [sum(xs)]: the additions from left to right, starting from the
    [int] 0 (CPython up to 3.11; from 3.12 on a sum of floats carries a
    compensation term). *)
Fixpoint sum_from (acc : num) (xs : list num) : res num :=
  match xs with
  | [] => Ret acc
  | x :: rest =>
      match add acc x with
      | Raise e => Raise e
      | Ret acc' => sum_from acc' rest
      end
  end.

Definition sum (xs : list num) : res num := sum_from (Int 0) xs.

(** [sum(xs) / len(xs)] *)
Definition mean (xs : list num) : res float :=
  match sum xs with
  | Raise e => Raise e
  | Ret s => truediv s (Int (Z.of_nat (length xs)))
  end.

(** A method that assigns to its object: the object as the call leaves
    it, after a return or after an exception. *)
Inductive mut (S : Type) : Type :=
| Returned (self : S)
| Raised (self : S) (e : exn).
Arguments Returned {S} self.
Arguments Raised {S} self e.

(** The value of a call for a caller that drops the object when the
    call raises. *)
Definition result {S : Type} (m : mut S) : res S :=
  match m with
  | Returned self => Ret self
  | Raised _ e => Raise e
  end.

(** A step of such a method that may raise: the exception leaves the
    object as the steps before made it. *)
Definition attempt {A S : Type} (m : res A) (self : S) (k : A -> mut S)
  : mut S :=
  match m with
  | Ret a => k a
  | Raise e => Raised self e
  end.

(** A list comprehension or loop whose body may raise: the first
    exception ends it. *)
Fixpoint mapM {A B : Type} (f : A -> res B) (l : list A) : res (list B) :=
  match l with
  | [] => Ret []
  | x :: rest =>
      match f x with
      | Raise e => Raise e
      | Ret y =>
          match mapM f rest with
          | Raise e => Raise e
          | Ret ys => Ret (y :: ys)
          end
      end
  end.

End Py.

Import Py.

Declare Scope py_scope.
Delimit Scope py_scope with py.
Notation "x <- m ;; k" := (bind m (fun x => k))
  (at level 61, m at next level, right associativity) : py_scope.
Notation "x <-[ self ] m ;; k" := (attempt m self (fun x => k))
  (at level 61, m at next level, right associativity) : py_scope.
Open Scope py_scope.

(* ------------------------------------------------------------------ *)
(** ** Insertion-ordered dictionaries with string keys *)

Module Dict.

Definition t (V : Type) : Type := list (string * V).

Section Ops.
Context {V : Type}.

(** [k in d] *)
Fixpoint contains (k : string) (d : t V) : bool :=
  match d with
  | [] => false
  | (k', _) :: rest => if String.eqb k k' then true else contains k rest
  end.

(** [d.get(k)] *)
Fixpoint get (k : string) (d : t V) : option V :=
  match d with
  | [] => None
  | (k', v) :: rest => if String.eqb k k' then Some v else get k rest
  end.

(** [d[k]] *)
Definition getitem (k : string) (d : t V) : res V :=
  match get k d with
  | Some v => Ret v
  | None => Raise (KeyError k)
  end.

(** [d[k] = v]: an existing key keeps its position, a new key goes last. *)
Fixpoint set (k : string) (v : V) (d : t V) : t V :=
  match d with
  | [] => [(k, v)]
  | (k', v') :: rest =>
      if String.eqb k k' then (k', v) :: rest else (k', v') :: set k v rest
  end.

(** [d.values()] *)
Definition values (d : t V) : list V := map snd d.

End Ops.

End Dict.

(* ------------------------------------------------------------------ *)
(** ** The [datetime] library, as far as the sources use it *)

(** [isoformat d] is [d.isoformat()], [datetime_str d] is [str(d)] (what
    [json.dump(..., default=str)] writes), [parse_datetime] is pydantic's
    validation of a string for a [datetime] field.  The laws assumed:
    pydantic can read back what [str] wrote, and [str] writes what was
    read back as the same text, to the microsecond (a time zone may come
    back as a fixed offset, which is written alike). *)
Class DatetimeLib : Type := {
  datetime : Type;
  isoformat : datetime -> string;
  datetime_str : datetime -> string;
  parse_datetime : string -> option datetime;
  parse_datetime_str :
    forall d : datetime, parse_datetime (datetime_str d) <> None;
  parse_datetime_text :
    forall d d' : datetime,
      parse_datetime (datetime_str d) = Some d' ->
      datetime_str d' = datetime_str d
}.

(* ------------------------------------------------------------------ *)
(** ** Text rendering done by the Python runtime and its libraries *)

(** [format_1f x] is [f"{x:.1f}"] for a [float], [str_exn e] is [str(e)]
    for a caught exception, [strftime fmt d] is [d.strftime(fmt)].
    Nothing is assumed about them. *)
Class TextLib `{DatetimeLib} : Type := {
  format_1f : float -> string;
  str_exn : exn -> string;
  strftime : string -> datetime -> string
}.

(** [f"{x:.1f}"] for a number: an [int] is made a [float] first. *)
Definition format_num `{TextLib} (x : num) : res string :=
  f <- as_float x ;; Ret (format_1f f).

(** The newline character, [sep.join(lines)] and [c * n]. *)
Definition nl : string := String (ascii_of_nat 10) EmptyString.

Fixpoint join (sep : string) (lines : list string) : string :=
  match lines with
  | [] => ""
  | [l] => l
  | l :: rest => l ++ sep ++ join sep rest
  end.

Fixpoint repeat_str (c : string) (n : nat) : string :=
  match n with
  | O => ""
  | S k => c ++ repeat_str c k
  end.

(** [s[:n]] for [n >= 0] *)
Fixpoint take (n : nat) (s : string) : string :=
  match n, s with
  | O, _ => EmptyString
  | S k, EmptyString => EmptyString
  | S k, String c rest => String c (take k rest)
  end.

(** [str(n)] for an [int]. *)
Definition str_int (n : Z) : string := NilZero.string_of_int (Z.to_int n).

(* ------------------------------------------------------------------ *)
(** ** [models/schemas.py] *)

Module Schemas.

(** [class QuizQuestion(BaseModel)] *)
Record QuizQuestion : Type := Build_QuizQuestion {
  question : string;
  options : list string;
  correct_index : Z;
  explanation : option string
}.

(** Field constraints of [QuizQuestion]:
    [options] has [min_items=2, max_items=4]; [correct_index] has
    [ge=0, lt=4].  There is no validator relating the two fields. *)
Definition options_ok (opts : list string) : bool :=
  (2 <=? length opts)%nat && (length opts <=? 4)%nat.

Definition correct_index_ok (ci : Z) : bool :=
  (0 <=? ci) && (ci <? 4).

Definition failed_fields (checks : list (string * bool)) : list string :=
  map fst (filter (fun c => negb (snd c)) checks).

Definition validated {A : Type} (checks : list (string * bool)) (v : A)
  : res A :=
  match failed_fields checks with
  | [] => Ret v
  | bad => Raise (ValidationError bad)
  end.

Definition mk_QuizQuestion (q : string) (opts : list string) (ci : Z)
  (expl : option string) : res QuizQuestion :=
  validated [("options", options_ok opts);
             ("correct_index", correct_index_ok ci)]
            (Build_QuizQuestion q opts ci expl).

Definition QuizQuestion_valid (qq : QuizQuestion) : bool :=
  options_ok (options qq) && correct_index_ok (correct_index qq).

(** [class Quiz(BaseModel)] *)
Record Quiz : Type := Build_Quiz {
  module_id : Z;
  topic : string;
  difficulty : string;
  questions : list QuizQuestion
}.

(** [questions] has [min_items=3, max_items=10]. *)
Definition questions_ok (qs : list QuizQuestion) : bool :=
  (3 <=? length qs)%nat && (length qs <=? 10)%nat.

Definition mk_Quiz (mid : Z) (tp df : string) (qs : list QuizQuestion)
  : res Quiz :=
  validated [("questions", questions_ok qs)] (Build_Quiz mid tp df qs).

(** A quiz as the model class hands it out: built by [mk_Quiz] from
    questions built by [mk_QuizQuestion]. *)
Definition Quiz_valid (q : Quiz) : bool :=
  questions_ok (questions q) && forallb QuizQuestion_valid (questions q).

(** [Quiz.calculate_score]:
    [sum(1 for i, answer in enumerate(user_answers)
           if answer == self.questions[i].correct_index)] *)
Fixpoint count_correct_from (qs : list QuizQuestion) (i : nat)
  (answers : list Z) : res Z :=
  match answers with
  | [] => Ret 0
  | answer :: rest =>
      match nth_error qs i with
      | None => Raise IndexError
      | Some qi =>
          n <- count_correct_from qs (S i) rest ;;
          Ret ((if answer =? correct_index qi then 1 else 0) + n)
      end
  end.

Definition calculate_score (self : Quiz) (user_answers : list Z)
  : res num :=
  match user_answers with
  | [] => Ret (Float 0)
  | _ =>
      if negb (length user_answers =? length (questions self))%nat
      then Ret (Float 0)
      else
        correct <- count_correct_from (questions self) 0 user_answers ;;
        r <- truediv (Int correct)
                     (Int (Z.of_nat (length (questions self)))) ;;
        mul (Float r) (Float 100)
  end.

(** [class ModuleStatus(str, Enum)] *)
Inductive ModuleStatus : Type := LOCKED | ACTIVE | COMPLETED.

Definition ModuleStatus_eqb (a b : ModuleStatus) : bool :=
  match a, b with
  | LOCKED, LOCKED | ACTIVE, ACTIVE | COMPLETED, COMPLETED => true
  | _, _ => false
  end.

(** [class Module(BaseModel)] ([Module] is a reserved word here). *)
Record Module_ : Type := Build_Module {
  id : Z;
  title : string;
  status : ModuleStatus;
  topics : list string;
  estimated_hours : Z;
  mastery_score : Q
}.

(** [estimated_hours] has [ge=1, le=20]; [mastery_score] has
    [ge=0.0, le=100.0]. *)
Definition estimated_hours_ok (h : Z) : bool := (1 <=? h) && (h <=? 20).

Definition mastery_score_ok (m : Q) : bool :=
  Qle_bool 0 m && Qle_bool m 100.

Definition mk_Module (i : Z) (t : string) (st : ModuleStatus)
  (tps : list string) (h : Z) (m : Q) : res Module_ :=
  validated [("estimated_hours", estimated_hours_ok h);
             ("mastery_score", mastery_score_ok m)]
            (Build_Module i t st tps h m).

(** Attribute assignment on a model instance; pydantic does not
    re-validate on assignment unless asked to, and [Module] does not ask. *)
Definition set_status (st : ModuleStatus) (m : Module_) : Module_ :=
  Build_Module (id m) (title m) st (topics m) (estimated_hours m)
               (mastery_score m).

Definition set_mastery_score (sc : Q) (m : Module_) : Module_ :=
  Build_Module (id m) (title m) (status m) (topics m) (estimated_hours m) sc.

(** [l[i] = f(l[i])] for an index known to be in range. *)
Fixpoint update_at {A : Type} (i : nat) (f : A -> A) (l : list A) : list A :=
  match l, i with
  | [], _ => []
  | x :: rest, O => f x :: rest
  | x :: rest, S j => x :: update_at j f rest
  end.

(** The index at which the [for idx, module in enumerate(...)] loop of
    [complete_module] takes its [if] branch (and then [break]s). *)
Fixpoint first_index (module_id : Z) (ms : list Module_) (idx : nat)
  : option nat :=
  match ms with
  | [] => None
  | m :: rest =>
      if id m =? module_id then Some idx
      else first_index module_id rest (S idx)
  end.

(** The records kept under [UserProfile.skills]:
    [{"title": ..., "score": ..., "completed_at": ...}] and
    [{"modules": [...], "avg_score": ...}]. *)
Module Completion.
Record t : Type := Build {
  title : string;
  score : num;
  completed_at : string
}.
End Completion.

Module SkillData.
Record t : Type := Build {
  modules : list Completion.t;
  avg_score : num
}.
Definition scores (sd : t) : list num := map Completion.score (modules sd).
End SkillData.

Section WithDatetime.
Context `{DatetimeLib}.

(** [class LearningPlan(BaseModel)] *)
Record LearningPlan : Type := Build_LearningPlan {
  skill : string;
  level : string;
  modules : list Module_;
  created : datetime
}.

Definition with_modules (ms : list Module_) (p : LearningPlan)
  : LearningPlan :=
  Build_LearningPlan (skill p) (level p) ms (created p).

(** [LearningPlan.get_active_module] *)
Definition get_active_module (self : LearningPlan) : option Module_ :=
  find (fun m => ModuleStatus_eqb (status m) ACTIVE) (modules self).

(** [LearningPlan.complete_module] *)
Definition complete_module (self : LearningPlan) (module_id : Z) (score : Q)
  : LearningPlan :=
  match first_index module_id (modules self) 0 with
  | None => self
  | Some idx =>
      let ms1 :=
        update_at idx
          (fun m => set_mastery_score score (set_status COMPLETED m))
          (modules self) in
      if (idx + 1 <? length (modules self))%nat
      then with_modules (update_at (idx + 1) (set_status ACTIVE) ms1) self
      else with_modules ms1 self
  end.

(** [class UserProfile(BaseModel)] *)
Record UserProfile : Type := Build_UserProfile {
  user_id : string;
  skills : Dict.t SkillData.t;
  total_modules_completed : Z;
  overall_avg_score : float;
  last_updated : datetime
}.

(** [UserProfile(user_id=...)]: the field defaults. *)
Definition new_UserProfile (uid : string) (now : datetime) : UserProfile :=
  Build_UserProfile uid [] 0 0%float now.

(** Attribute and item assignments on a profile. *)
Definition set_skills (sk : Dict.t SkillData.t) (p : UserProfile)
  : UserProfile :=
  Build_UserProfile (user_id p) sk (total_modules_completed p)
                    (overall_avg_score p) (last_updated p).

Definition set_total_modules_completed (n : Z) (p : UserProfile)
  : UserProfile :=
  Build_UserProfile (user_id p) (skills p) n (overall_avg_score p)
                    (last_updated p).

Definition set_last_updated (d : datetime) (p : UserProfile)
  : UserProfile :=
  Build_UserProfile (user_id p) (skills p) (total_modules_completed p)
                    (overall_avg_score p) d.

Definition set_overall_avg_score (x : float) (p : UserProfile)
  : UserProfile :=
  Build_UserProfile (user_id p) (skills p) (total_modules_completed p) x
                    (last_updated p).

(** Every score held by the profile, in the order of the
    [for skill_data in self.skills.values()] loop. *)
Definition all_scores (sk : Dict.t SkillData.t) : list num :=
  flat_map SkillData.scores (Dict.values sk).

(** [UserProfile.update_skill_progress].  [t_completed] and [t_updated]
    are the two readings of [datetime.now()], in program order.  Each
    statement works on the profile as the statements before it left it;
    when one raises, that profile is what the caller is left with. *)
Definition update_skill_progress (self : UserProfile)
  (skill module_title : string) (score : num)
  (t_completed t_updated : datetime) : mut UserProfile :=
  let self0 :=
    if negb (Dict.contains skill (skills self))
    then set_skills (Dict.set skill (SkillData.Build [] (Float 0))
                       (skills self)) self
    else self in
  sd <-[self0] Dict.getitem skill (skills self0) ;;
  let entry := Completion.Build module_title score (isoformat t_completed) in
  let self1 :=
    set_skills
      (Dict.set skill
         (SkillData.Build (SkillData.modules sd ++ [entry])
                          (SkillData.avg_score sd))
         (skills self0))
      self0 in
  sd1 <-[self1] Dict.getitem skill (skills self1) ;;
  avg <-[self1] mean (SkillData.scores sd1) ;;
  let self2 :=
    set_skills
      (Dict.set skill (SkillData.Build (SkillData.modules sd1) (Float avg))
         (skills self1))
      self1 in
  let self3 :=
    set_total_modules_completed (total_modules_completed self2 + 1) self2 in
  let self4 := set_last_updated t_updated self3 in
  match all_scores (skills self4) with
  | [] => Returned self4
  | xs =>
      overall <-[self4] mean xs ;;
      Returned (set_overall_avg_score overall self4)
  end.

End WithDatetime.

(** [class ResourceLink(BaseModel)]: [relevance_score] has
    [ge=0.0, le=1.0] and defaults to 1.0, [description] to [None]. *)
Module ResourceLink.
Record t : Type := Build {
  title : string;
  url : string;
  description : option string;
  relevance_score : Q
}.

Definition relevance_score_ok (r : Q) : bool :=
  Qle_bool 0 r && Qle_bool r 1.

Definition valid (l : t) : bool := relevance_score_ok (relevance_score l).

Definition mk (ti u : string) (d : option string) (r : Q) : res t :=
  validated [("relevance_score", relevance_score_ok r)] (Build ti u d r).
End ResourceLink.

Section Resources.
Context `{DatetimeLib}.

(** [class ResourceSearchResult(BaseModel)]: [resources] has
    [max_items=5]. *)
Record ResourceSearchResult : Type := Build_ResourceSearchResult {
  query : string;
  resources : list ResourceLink.t;
  search_timestamp : datetime
}.

Definition resources_ok (rs : list ResourceLink.t) : bool :=
  (length rs <=? 5)%nat.

Definition mk_ResourceSearchResult (q : string)
  (rs : list ResourceLink.t) (now : datetime) : res ResourceSearchResult :=
  validated [("resources", resources_ok rs)]
            (Build_ResourceSearchResult q rs now).

End Resources.

End Schemas.

Import Schemas.

(* ------------------------------------------------------------------ *)
(** ** [tools/quiz_generator.py]: [QuizEvaluator] *)

Module QuizGenerator.

(** One entry of the ["results"] list. [user_answer] and [correct_answer]
    hold the code point of the one-character string [chr] returned. *)
Module Row.
Record t : Type := Build {
  question_num : Z;
  question : string;
  user_answer : Z;
  correct_answer : Z;
  is_correct : bool;
  explanation : option string
}.
End Row.

(** The two dictionaries [evaluate_answers] can return.  The
    ["percentage"] entry of the second is [f"{score:.1f}%"], a display
    rendering of ["score"], and is not represented. *)
Inductive evaluation : Type :=
| Mismatch (error : string) (score : num)
| Evaluated (score : num) (correct : Z) (total : Z) (feedback : string)
            (results : list Row.t).

(** The [if score >= 90: ... elif ... else] chain. *)
Definition feedback_for (score : num) : string :=
  if ge score (Int 90) then "Excellent! You've mastered this topic."
  else if ge score (Int 80)
  then "Great work! You have a strong understanding."
  else if ge score (Int 70) then "Good job! You're on the right track."
  else if ge score (Int 60)
  then "Fair performance. Review the material and try again."
  else "More study needed. Don't worry, practice makes perfect!".

(** The body of
    [for idx, (question, user_answer) in enumerate(zip(...))],
    threading [results] and [correct_count]. *)
Fixpoint eval_loop (idx : Z) (pairs : list (QuizQuestion * Z))
  (results : list Row.t) (correct_count : Z) : res (list Row.t * Z) :=
  match pairs with
  | [] => Ret (results, correct_count)
  | (q, user_answer) :: rest =>
      let is_correct := user_answer =? correct_index q in
      let correct_count :=
        if is_correct then correct_count + 1 else correct_count in
      ua <- chr (65 + user_answer) ;;
      ca <- chr (65 + correct_index q) ;;
      eval_loop (idx + 1) rest
        (results ++
           [Row.Build (idx + 1) (Schemas.question q) ua ca is_correct
                      (Schemas.explanation q)])
        correct_count
  end.

(** [QuizEvaluator.evaluate_answers] *)
Definition evaluate_answers (quiz : Quiz) (user_answers : list Z)
  : res evaluation :=
  if negb (length user_answers =? length (questions quiz))%nat
  then Ret (Mismatch "Number of answers doesn't match number of questions"
                     (Float 0))
  else
    out <- eval_loop 0 (combine (questions quiz) user_answers) [] 0 ;;
    let (results, correct_count) := out in
    r <- truediv (Int correct_count)
                 (Int (Z.of_nat (length (questions quiz)))) ;;
    score <- mul (Float r) (Int 100) ;;
    Ret (Evaluated score correct_count
                   (Z.of_nat (length (questions quiz)))
                   (feedback_for score) results).

End QuizGenerator.

(* ------------------------------------------------------------------ *)
(** ** [app.py]: [generate_learning_plan] *)

Module App.

(** [str(n)] for an [int]. *)
Definition str_of_int (n : Z) : string := NilZero.string_of_int (Z.to_int n).

(** [range(n)] and [enumerate(l)]. *)
Definition range (n : nat) : list Z := map Z.of_nat (seq 0 n).

Definition enumerate {A : Type} (l : list A) : list (Z * A) :=
  combine (range (length l)) l.

(** The three f-string title lists. *)
Definition module_titles (target_skill starting_level : string)
  : list string :=
  if String.eqb starting_level "beginner" then
    ["Foundations of " ++ target_skill;
     "Core Concepts in " ++ target_skill;
     "Practical Applications of " ++ target_skill]
  else if String.eqb starting_level "intermediate" then
    ["Advanced Concepts in " ++ target_skill;
     "Real-World " ++ target_skill ++ " Projects";
     "Mastering " ++ target_skill]
  else
    ["Expert-Level " ++ target_skill;
     "Cutting-Edge " ++ target_skill ++ " Research";
     target_skill ++ " Innovation & Leadership"].

Section WithDatetime.
Context `{DatetimeLib}.

Definition generate_learning_plan (target_skill starting_level : string)
  (now : datetime) : res LearningPlan :=
  modules <-
    mapM (fun it : Z * string =>
            let (idx, title) := it in
            mk_Module (idx + 1) title
              (if idx =? 0 then ACTIVE else LOCKED)
              (map (fun i => "Topic " ++ str_of_int (i + 1)) (range 3))
              (4 + idx * 2) 0%Q)
         (enumerate (module_titles target_skill starting_level)) ;;
  Ret (Build_LearningPlan target_skill starting_level modules now).

End WithDatetime.

(** [class StreamlitCallbackHandler]: an entry of [trace_log]; the
    [output] key is absent until [on_tool_end] sets it. *)
Module TraceEntry.
Record t : Type := Build {
  timestamp : string;
  type_ : string;
  tool : string;
  input : string;
  output : option string
}.

Definition set_output (e : t) (o : string) : t :=
  Build (timestamp e) (type_ e) (tool e) (input e) (Some o).
End TraceEntry.

Section Trace.
Context `{TextLib}.

(** [on_tool_start]: [name] is [serialized.get("name")], [input_text] is
    [str(input_str)], [now] the clock reading. *)
Definition on_tool_start (trace_log : list TraceEntry.t)
  (name : option string) (input_text : string) (now : datetime)
  : list TraceEntry.t :=
  (trace_log
   ++ [TraceEntry.Build (strftime "%H:%M:%S" now) "tool_start"
         (match name with Some n => n | None => "unknown" end)
         (take 200 input_text) None])%list.

(** [trace_log[-1]["output"] = o] on a list that is not empty. *)
Fixpoint set_last_output (trace_log : list TraceEntry.t) (o : string)
  : list TraceEntry.t :=
  match trace_log with
  | [] => []
  | [e] => [TraceEntry.set_output e o]
  | e :: rest => e :: set_last_output rest o
  end.

(** [on_tool_end]: [output_text] is [str(output)]. *)
Definition on_tool_end (trace_log : list TraceEntry.t)
  (output_text : string) : list TraceEntry.t :=
  match trace_log with
  | [] => trace_log
  | _ => set_last_output trace_log (take 200 output_text)
  end.

End Trace.

End App.

(* ------------------------------------------------------------------ *)
(** ** [pathlib] on POSIX, as far as [_get_profile_path] uses it *)

Module Pathlib.

(** [s.split("/")] *)
Fixpoint split_slash (s : string) : list string :=
  match s with
  | EmptyString => [""]
  | String c rest =>
      if Ascii.eqb c "/" then "" :: split_slash rest
      else match split_slash rest with
           | [] => [String c ""]
           | w :: ws => String c w :: ws
           end
  end.

(** ["/".join(l)] *)
Fixpoint join_slash (l : list string) : string :=
  match l with
  | [] => ""
  | [w] => w
  | w :: rest => w ++ "/" ++ join_slash rest
  end.

(** The root of a POSIX path: none, ["/"] or ["//"]. *)
Inductive anchor : Type := Relative | Root | DoubleRoot.

Record Path : Type := Build_Path {
  root : anchor;
  parts : list string
}.

(** [posixpath.splitroot]: exactly two leading slashes are kept as the
    root ["//"], any other number collapses to ["/"]. *)
Definition splitroot (s : string) : anchor * string :=
  match s with
  | String "/" (String "/" (String "/" r)) =>
      (Root, String "/" (String "/" r))
  | String "/" (String "/" r) => (DoubleRoot, r)
  | String "/" r => (Root, r)
  | _ => (Relative, s)
  end.

(** [PurePath._parse_path]: split on the separator and drop empty and
    ["."] components; [".."] is kept. *)
Definition keep_part (x : string) : bool :=
  negb (String.eqb x "") && negb (String.eqb x ".").

Definition parse_path (s : string) : Path :=
  let (rt, rel) := splitroot s in
  Build_Path rt (filter keep_part (split_slash rel)).

(** [str(path)] *)
Definition str_of_path (p : Path) : string :=
  match root p, parts p with
  | Relative, [] => "."
  | Relative, ps => join_slash ps
  | Root, ps => "/" ++ join_slash ps
  | DoubleRoot, ps => "//" ++ join_slash ps
  end.

(** [posixpath.join(a, b)] *)
Definition ends_with_slash (a : string) : bool :=
  match split_slash a with
  | [] => false
  | ws => String.eqb (last ws "x") ""
  end.

Definition posix_join (a b : string) : string :=
  match b with
  | String "/" _ => b
  | _ =>
      if String.eqb a "" || ends_with_slash a then a ++ b
      else a ++ "/" ++ b
  end.

(** [path / other] *)
Definition joinpath (p : Path) (other : string) : Path :=
  parse_path (posix_join (str_of_path p) other).

(** Where a path leads from the directory [cwd], resolving [".."]
    lexically (the parent of the root is the root). *)
Fixpoint resolve_from (cur : list string) (comps : list string)
  : list string :=
  match comps with
  | [] => cur
  | c :: rest =>
      resolve_from
        (if String.eqb c ".." then removelast cur else (cur ++ [c])%list)
                   rest
  end.

Definition resolve (cwd : list string) (p : Path) : list string :=
  match root p with
  | Relative => resolve_from cwd (parts p)
  | _ => resolve_from [] (parts p)
  end.

Fixpoint is_prefix (a b : list string) : bool :=
  match a, b with
  | [], _ => true
  | x :: a', y :: b' => String.eqb x y && is_prefix a' b'
  | _ :: _, [] => false
  end.

(** The file named by [p] lies below the directory named by [dir]. *)
Definition inside (cwd : list string) (dir p : Path) : bool :=
  is_prefix (resolve cwd dir) (resolve cwd p)
  && (length (resolve cwd dir) <? length (resolve cwd p))%nat.

Fixpoint has_char (c : ascii) (s : string) : bool :=
  match s with
  | EmptyString => false
  | String c' rest => Ascii.eqb c c' || has_char c rest
  end.

End Pathlib.

(* ------------------------------------------------------------------ *)
(** ** JSON values, and the values [model_dump] produces *)

Module Json.

(* No induction over documents is needed: the functions below are
   structural on the profile, not on the document. *)
Unset Elimination Schemes.

Inductive json : Type :=
| JNull
| JBool (b : bool)
| JInt (z : Z)
| JFloat (f : float)
| JStr (s : string)
| JArr (items : list json)
| JObj (entries : list (string * json)).

Section WithDatetime.
Context `{DatetimeLib}.

(** Python values as [model_dump()] returns them: JSON-like data plus
    [datetime] objects. *)
Inductive pyval : Type :=
| PInt (z : Z)
| PFloat (f : float)
| PStr (s : string)
| PList (items : list pyval)
| PDict (entries : list (string * pyval))
| PDatetime (d : datetime).

Set Elimination Schemes.

(** A Python number as such a value. *)
Definition PNum (x : num) : pyval :=
  match x with
  | Int z => PInt z
  | Float f => PFloat f
  end.

(** [json.dump(v, f, default=str)] followed by [json.load(f)]: what the
    reader gets back.  An [int] is written in full and a [float] by its
    shortest text that reads back as the same [float] ([NaN] and the
    infinities by their names), so numbers come back as they were.
    Objects the encoder does not know go through [default], here
    [str]. *)
Fixpoint to_json (v : pyval) : json :=
  match v with
  | PInt z => JInt z
  | PFloat f => JFloat f
  | PStr s => JStr s
  | PList items => JArr (map to_json items)
  | PDict entries => JObj (map (fun kv => (fst kv, to_json (snd kv))) entries)
  | PDatetime d => JStr (datetime_str d)
  end.

End WithDatetime.

End Json.

(* ------------------------------------------------------------------ *)
(** ** A file system: directories and JSON files under resolved paths *)

Module FS.

Import Pathlib Json.

Record t : Type := Build {
  cwd : list string;
  dirs : list (list string);
  files : list (list string * json)
}.

Definition path_eqb (a b : list string) : bool :=
  if list_eq_dec string_dec a b then true else false.

(** The root always exists. *)
Definition is_dir (fs : t) (p : list string) : bool :=
  match p with
  | [] => true
  | _ => existsb (path_eqb p) (dirs fs)
  end.

Fixpoint lookup (p : list string) (fl : list (list string * json))
  : option json :=
  match fl with
  | [] => None
  | (p', c) :: rest => if path_eqb p p' then Some c else lookup p rest
  end.

Definition is_file (fs : t) (p : list string) : bool :=
  match lookup p (files fs) with
  | Some _ => true
  | None => false
  end.

(** Path resolution by the kernel: every component but the last must
    lead to an existing directory. *)
Fixpoint walk (fs : t) (cur : list string) (comps : list string)
  : res (list string) :=
  match comps with
  | [] => Ret cur
  | c :: rest =>
      let nxt := if String.eqb c ".." then removelast cur else (cur ++ [c])%list in
      match rest with
      | [] => Ret nxt
      | _ =>
          if is_dir fs nxt then walk fs nxt rest
          else if is_file fs nxt then Raise NotADirectoryError
          else Raise FileNotFoundError
      end
  end.

Definition locate (fs : t) (p : Path) : res (list string) :=
  if has_char Ascii.zero (str_of_path p) then Raise ValueError
  else
    match root p with
    | Relative => walk fs (cwd fs) (parts p)
    | _ => walk fs [] (parts p)
    end.

(** [path.exists()]: errors while looking count as absent. *)
Definition exists_ (fs : t) (p : Path) : bool :=
  match locate fs p with
  | Ret tgt => is_dir fs tgt || is_file fs tgt
  | Raise _ => false
  end.

Fixpoint store (p : list string) (c : json)
  (fl : list (list string * json)) : list (list string * json) :=
  match fl with
  | [] => [(p, c)]
  | (p', c') :: rest =>
      if path_eqb p p' then (p', c) :: rest else (p', c') :: store p c rest
  end.

(** [with open(path, "w") as f: json.dump(doc, f, ...)] *)
Definition write (fs : t) (p : Path) (doc : json) : res t :=
  tgt <- locate fs p ;;
  if is_dir fs tgt then Raise IsADirectoryError
  else if negb (is_dir fs (removelast tgt)) then Raise FileNotFoundError
  else Ret (Build (cwd fs) (dirs fs) (store tgt doc (files fs))).

(** [with open(path, "r") as f: json.load(f)] *)
Definition read (fs : t) (p : Path) : res json :=
  tgt <- locate fs p ;;
  if is_dir fs tgt then Raise IsADirectoryError
  else match lookup tgt (files fs) with
       | Some doc => Ret doc
       | None => Raise FileNotFoundError
       end.

(** The medium accepts a write at [p]. *)
Definition writable (fs : t) (p : Path) : bool :=
  match locate fs p with
  | Ret tgt => negb (is_dir fs tgt) && is_dir fs (removelast tgt)
  | Raise _ => false
  end.

(** [path.mkdir(parents=True, exist_ok=True)] *)
Fixpoint mkdir_from (fs : t) (cur : list string) (comps : list string)
  : res t :=
  match comps with
  | [] => Ret fs
  | c :: rest =>
      let nxt := if String.eqb c ".." then removelast cur else (cur ++ [c])%list in
      if is_file fs nxt then
        Raise (match rest with [] => FileExistsError | _ => NotADirectoryError end)
      else
        mkdir_from
          (if is_dir fs nxt then fs
           else Build (cwd fs) (nxt :: dirs fs) (files fs))
          nxt rest
  end.

Definition mkdir_p (fs : t) (p : Path) : res t :=
  if has_char Ascii.zero (str_of_path p) then Raise ValueError
  else
    match root p with
    | Relative => mkdir_from fs (cwd fs) (parts p)
    | _ => mkdir_from fs [] (parts p)
    end.

End FS.

(* ------------------------------------------------------------------ *)
(** ** [tools/knowledge_manager.py]: the profile store *)

Module KnowledgeManager.

Import Pathlib Json.

(** [self.storage_path = Path("data/user_profiles")] *)
Definition storage_path : Path := parse_path "data/user_profiles".

(** [KnowledgeProfileManager.__init__]: create the storage directory. *)
Definition init (fs : FS.t) : res FS.t := FS.mkdir_p fs storage_path.

(** [_get_profile_path]: [self.storage_path / f"{user_id}.json"] *)
Definition _get_profile_path (user_id : string) : Path :=
  joinpath storage_path (user_id ++ ".json").

Section WithDatetime.
Context `{DatetimeLib}.

(** [profile.model_dump()] *)
Definition dump_completion (c : Completion.t) : pyval :=
  PDict [("title", PStr (Completion.title c));
         ("score", PNum (Completion.score c));
         ("completed_at", PStr (Completion.completed_at c))].

Definition dump_skill (sd : SkillData.t) : pyval :=
  PDict [("modules", PList (map dump_completion (SkillData.modules sd)));
         ("avg_score", PNum (SkillData.avg_score sd))].

Definition model_dump (p : UserProfile) : pyval :=
  PDict [("user_id", PStr (user_id p));
         ("skills",
          PDict (map (fun kv => (fst kv, dump_skill (snd kv))) (skills p)));
         ("total_modules_completed", PInt (total_modules_completed p));
         ("overall_avg_score", PFloat (overall_avg_score p));
         ("last_updated", PDatetime (last_updated p))].

(** [_save_profile] *)
Definition _save_profile (fs : FS.t) (profile : UserProfile) : res FS.t :=
  let profile_path := _get_profile_path (user_id profile) in
  FS.write fs profile_path (to_json (model_dump profile)).

(** *** [UserProfile] from the keyword arguments [data]: validation of
    a loaded document

    Field by field, as pydantic (version 2, which [model_dump] belongs
    to) does in its default, lax mode.  A [float] field takes a number
    or a boolean; an [int] too large for a [float] is invalid.  An
    [int] field takes an [int], a boolean, or a [float] that is a whole
    number of less than 64 bits.  What lax mode would make of a string
    for a number or of a number for a timestamp is reported as
    [NotModelled]; so is a skill entry that is a dictionary but not of
    the documented [{modules, avg_score}] shape, which pydantic keeps as
    it is. *)

(** The whole number a [float] is, if it is one. *)
Definition whole_number (f : float) : option Z :=
  match FloatOps.Prim2SF f with
  | SpecFloat.S754_zero _ => Some 0
  | SpecFloat.S754_finite s m e =>
      let v := if s then Zneg m else Zpos m in
      if 0 <=? e then Some (v * 2 ^ e)
      else if v mod 2 ^ (- e) =? 0 then Some (v / 2 ^ (- e))
      else None
  | _ => None
  end.

Definition as_number (j : json) : res float :=
  match j with
  | JInt z =>
      match float_of_int z with
      | Ret f => Ret f
      | Raise _ => Raise (ValidationError [])
      end
  | JFloat f => Ret f
  | JBool b => Ret (if b then 1%float else 0%float)
  | JStr _ => Raise (NotModelled "lax coercion")
  | _ => Raise (ValidationError [])
  end.

Definition as_int (j : json) : res Z :=
  match j with
  | JInt z => Ret z
  | JBool b => Ret (if b then 1 else 0)
  | JFloat f =>
      match whole_number f with
      | Some z =>
          if (- 2 ^ 63 <? z) && (z <? 2 ^ 63) then Ret z
          else Raise (ValidationError [])
      | None => Raise (ValidationError [])
      end
  | JStr _ => Raise (NotModelled "lax coercion")
  | _ => Raise (ValidationError [])
  end.

Definition as_str (j : json) : res string :=
  match j with
  | JStr s => Ret s
  | _ => Raise (ValidationError [])
  end.

Definition as_datetime (j : json) : res datetime :=
  match j with
  | JStr s =>
      match parse_datetime s with
      | Some d => Ret d
      | None => Raise (ValidationError [])
      end
  | JInt _ | JFloat _ => Raise (NotModelled "unix timestamp")
  | _ => Raise (ValidationError [])
  end.

Definition shape_error {A : Type} : res A :=
  Raise (NotModelled "skill entry shape").

(** A number inside a skill entry: kept as [json.load] made it. *)
Definition loaded_number (j : json) : res num :=
  match j with
  | JInt z => Ret (Int z)
  | JFloat f => Ret (Float f)
  | _ => shape_error
  end.

Definition load_completion (j : json) : res Completion.t :=
  match j with
  | JObj [("title", JStr t); ("score", sc); ("completed_at", JStr c)] =>
      x <- loaded_number sc ;;
      Ret (Completion.Build t x c)
  | _ => shape_error
  end.

Definition load_skill (j : json) : res SkillData.t :=
  match j with
  | JObj [("modules", JArr ms); ("avg_score", av)] =>
      cs <- mapM load_completion ms ;;
      x <- loaded_number av ;;
      Ret (SkillData.Build cs x)
  | JObj _ => shape_error
  | _ => Raise (ValidationError [])
  end.

Definition as_skills (j : json) : res (Dict.t SkillData.t) :=
  match j with
  | JObj entries =>
      mapM (fun kv : string * json =>
                  sd <- load_skill (snd kv) ;; Ret (fst kv, sd))
               entries
  | _ => Raise (ValidationError [])
  end.

(** A field with a default: absent keys take the default. *)
Definition field {A : Type} (name : string) (conv : json -> res A)
  (default : res A) (data : list (string * json)) : res A :=
  match Dict.get name data with
  | Some j => conv j
  | None => default
  end.

Definition field_failed {A : Type} (name : string) (r : res A)
  : list string :=
  match r with
  | Raise (ValidationError _) => [name]
  | _ => []
  end.

Definition validate_UserProfile (data : json) (now : datetime)
  : res UserProfile :=
  match data with
  | JObj kv =>
      let r1 := field "user_id" as_str (Raise (ValidationError [])) kv in
      let r2 := field "skills" as_skills (Ret []) kv in
      let r3 := field "total_modules_completed" as_int (Ret 0) kv in
      let r4 :=
        field "overall_avg_score" as_number (Ret 0%float) kv in
      let r5 := field "last_updated" as_datetime (Ret now) kv in
      match (field_failed "user_id" r1 ++ field_failed "skills" r2
             ++ field_failed "total_modules_completed" r3
             ++ field_failed "overall_avg_score" r4
             ++ field_failed "last_updated" r5)%list with
      | [] =>
          uid <- r1 ;; sk <- r2 ;; tot <- r3 ;; ov <- r4 ;; lu <- r5 ;;
          Ret (Build_UserProfile uid sk tot ov lu)
      | bad => Raise (ValidationError bad)
      end
  | _ => Raise TypeError
  end.

(** [_load_profile]; [now] is the clock reading a default
    [last_updated] would take. *)
Definition _load_profile (fs : FS.t) (user_id : string) (now : datetime)
  : res UserProfile :=
  let profile_path := _get_profile_path user_id in
  if FS.exists_ fs profile_path then
    data <- FS.read fs profile_path ;;
    validate_UserProfile data now
  else Ret (new_UserProfile user_id now).

End WithDatetime.

(** *** The tool entry point and its formatters *)

Section Tool.
Context `{TextLib}.

(** [l[-3:]] *)
Definition last_three {A : Type} (l : list A) : list A :=
  skipn (length l - 3) l.

(** [max(items, key=...)] on the [avg_score] of the entries: an entry
    replaces the best so far when its key is greater. *)
Fixpoint max_from (best : string * SkillData.t)
  (rest : list (string * SkillData.t)) : string * SkillData.t :=
  match rest with
  | [] => best
  | x :: rest' =>
      if gt (SkillData.avg_score (snd x)) (SkillData.avg_score (snd best))
      then max_from x rest'
      else max_from best rest'
  end.

Definition best_skill (sk : Dict.t SkillData.t)
  : option (string * SkillData.t) :=
  match sk with
  | [] => None
  | first :: rest => Some (max_from first rest)
  end.

(** The [output] list of [_format_profile_read]. *)
Definition module_line (c : Completion.t) : res string :=
  sc <- format_num (Completion.score c) ;;
  Ret ("    - " ++ Completion.title c ++ ": " ++ sc ++ "%").

Definition skill_lines (kv : string * SkillData.t) : res (list string) :=
  avg <- format_num (SkillData.avg_score (snd kv)) ;;
  lines <- mapM module_line (last_three (SkillData.modules (snd kv))) ;;
  Ret (app ["Skill: " ++ fst kv;
            "  Average Score: " ++ avg ++ "%";
            "  Modules Completed: "
            ++ str_int (Z.of_nat (length (SkillData.modules (snd kv))))]
           lines).

Definition profile_read_lines (profile : UserProfile)
  : res (list string) :=
  blocks <- mapM skill_lines (skills profile) ;;
  Ret (app ["User Profile: " ++ user_id profile;
            "Total Modules Completed: "
            ++ str_int (total_modules_completed profile);
            "Overall Average Score: "
            ++ format_1f (overall_avg_score profile) ++ "%" ++ nl]
           (concat blocks)).

(** [_format_profile_read] *)
Definition _format_profile_read (profile : UserProfile) : res string :=
  match skills profile with
  | [] =>
      Ret "No learning history found for this user. This is a new learner!"
  | _ => lines <- profile_read_lines profile ;; Ret (join nl lines)
  end.

(** [_format_summary]; the continuation lines of the triple-quoted
    string keep the eight blanks of the source indentation. *)
Definition _format_summary (profile : UserProfile) : res string :=
  match best_skill (skills profile) with
  | None => Ret "No progress yet. Let's start learning!"
  | Some best =>
      avg <- format_num (SkillData.avg_score (snd best)) ;;
      Ret ("Progress Summary:" ++ nl
           ++ "        Skills in progress: "
           ++ str_int (Z.of_nat (length (skills profile))) ++ nl
           ++ "        Total modules completed: "
           ++ str_int (total_modules_completed profile) ++ nl
           ++ "        Overall average: "
           ++ format_1f (overall_avg_score profile) ++ "%" ++ nl
           ++ "        Best skill: " ++ fst best ++ " (" ++ avg ++ "%)")
  end.

(** Truth value of an optional string: [None] and [""] are false. *)
Definition truthy (s : option string) : bool :=
  match s with
  | Some (String _ _) => true
  | _ => false
  end.

(** The message of a successful update (sixteen blanks of source
    indentation on the continuation lines). *)
Definition update_message (module_title : string) (score : num)
  (profile : UserProfile) : res string :=
  sc <- format_num score ;;
  Ret ("Profile updated successfully!" ++ nl
       ++ "                Module: " ++ module_title ++ nl
       ++ "                Score: " ++ sc ++ "%" ++ nl
       ++ "                Total modules completed: "
       ++ str_int (total_modules_completed profile) ++ nl
       ++ "                Overall average: "
       ++ format_1f (overall_avg_score profile) ++ "%").

(** The body of the [try] block of [_run]: the file system as the body
    leaves it, and the text it returns or the exception it raises. *)
Definition _run_body (fs : FS.t) (action user_id : string)
  (skill module_title : option string) (score : option num)
  (t_load t_completed t_updated : datetime) : FS.t * res string :=
  match _load_profile fs user_id t_load with
  | Raise e => (fs, Raise e)
  | Ret profile =>
      if String.eqb action "read" then (fs, _format_profile_read profile)
      else if String.eqb action "update" then
        match skill, module_title, score with
        | Some sk, Some mt, Some sc =>
            if truthy skill && truthy module_title then
              match result (update_skill_progress profile sk mt sc
                              t_completed t_updated) with
              | Raise e => (fs, Raise e)
              | Ret profile' =>
                  match _save_profile fs profile' with
                  | Raise e => (fs, Raise e)
                  | Ret fs' => (fs', update_message mt sc profile')
                  end
              end
            else
              (fs,
               Ret "Error: update action requires skill, module_title, and score")
        | _, _, _ =>
            (fs,
             Ret "Error: update action requires skill, module_title, and score")
        end
      else if String.eqb action "get_summary"
      then (fs, _format_summary profile)
      else (fs, Ret ("Error: Unknown action '" ++ action
                     ++ "'. Use 'read', 'update', or 'get_summary'"))
  end.

(** [_run]: [except Exception as e] turns every exception into a text.
    [NotModelled] is no Python exception and is passed on. *)
Definition _run (fs : FS.t) (action user_id : string)
  (skill module_title : option string) (score : option num)
  (t_load t_completed t_updated : datetime) : res (string * FS.t) :=
  match _run_body fs action user_id skill module_title score
                  t_load t_completed t_updated with
  | (fs', Ret text) => Ret (text, fs')
  | (_, Raise (NotModelled what)) => Raise (NotModelled what)
  | (fs', Raise e) =>
      Ret ("Error managing knowledge profile: " ++ str_exn e, fs')
  end.

End Tool.

End KnowledgeManager.

(* ------------------------------------------------------------------ *)
(** ** [tools/resource_search.py]

    Strings stand for Python strings whose characters are below U+0100,
    one character per [ascii]. *)

Module ResourceSearch.

(** [s.lower()] *)
Definition lower_char (c : ascii) : ascii :=
  let n := nat_of_ascii c in
  if ((65 <=? n) && (n <=? 90) || (192 <=? n) && (n <=? 214)
      || (216 <=? n) && (n <=? 222))%nat
  then ascii_of_nat (n + 32)
  else c.

Fixpoint lower (s : string) : string :=
  match s with
  | EmptyString => EmptyString
  | String c rest => String (lower_char c) (lower rest)
  end.

(** [s.startswith(k)] and [k in s] *)
Fixpoint starts_with (k s : string) : bool :=
  match k, s with
  | EmptyString, _ => true
  | String a k', String b s' => Ascii.eqb a b && starts_with k' s'
  | String _ _, EmptyString => false
  end.

Fixpoint contains (k s : string) : bool :=
  starts_with k s
  || match s with
     | EmptyString => false
     | String _ s' => contains k s'
     end.

(** [s.replace(" ", by)] *)
Fixpoint replace_blank (by_ : string) (s : string) : string :=
  match s with
  | EmptyString => EmptyString
  | String c rest =>
      (if Ascii.eqb c " " then by_ else String c EmptyString)
      ++ replace_blank by_ rest
  end.

(** [int(x)]: truncation towards zero. *)
Definition int_trunc (x : Q) : Z := Z.quot (Qnum x) (Z.pos (Qden x)).

(** What a call into a search backend gives: its value, or the text
    [str(e)] of the exception it raised. *)
Inductive outcome (A : Type) : Type :=
| Got (a : A)
| Failed (message : string).
Arguments Got {A} a.
Arguments Failed {A} message.

(** The [ddgs] package: not installed ([ImportError] on import), or the
    outcome of [DDGS().text(...)], a list of string dictionaries. *)
Inductive ddgs_package : Type :=
| NotInstalled
| Installed (text : outcome (list (Dict.t string))).

Definition get_default (k : string) (d : Dict.t string) (default : string)
  : string :=
  match Dict.get k d with
  | Some v => v
  | None => default
  end.

(** [ResourceLink(title=..., url=..., description=...)]: the three
    entries of a curated list. *)
Definition curated (entries : list (string * string * string))
  : res (list ResourceLink.t) :=
  mapM (fun e : string * string * string =>
          let '(ti, u, d) := e in ResourceLink.mk ti u (Some d) 1%Q)
       entries.

(** [_get_fallback_resources] *)
Definition _get_fallback_resources (query : string)
  : res (list ResourceLink.t) :=
  let query_lower := lower query in
  if contains "python" query_lower then
    curated
      [("Official Python Tutorial", "https://docs.python.org/3/tutorial/",
        "Comprehensive guide to Python from python.org");
       ("Real Python Tutorials", "https://realpython.com/",
        "In-depth Python tutorials and articles");
       ("Python on W3Schools", "https://www.w3schools.com/python/",
        "Interactive Python tutorial with examples")]
  else if contains "machine learning" query_lower
          || contains "ml" query_lower then
    curated
      [("Machine Learning Crash Course",
        "https://developers.google.com/machine-learning/crash-course",
        "Google's fast-paced, practical introduction to ML");
       ("Scikit-learn Documentation", "https://scikit-learn.org/stable/",
        "Official scikit-learn user guide and tutorials");
       ("Towards Data Science", "https://towardsdatascience.com/",
        "Medium publication with ML articles and tutorials")]
  else if contains "javascript" query_lower
          || contains "js" query_lower then
    curated
      [("MDN JavaScript Guide",
        "https://developer.mozilla.org/en-US/docs/Web/JavaScript/Guide",
        "Comprehensive JavaScript documentation");
       ("JavaScript.info", "https://javascript.info/",
        "Modern JavaScript tutorial from basics to advanced");
       ("freeCodeCamp JavaScript",
        "https://www.freecodecamp.org/learn/javascript-algorithms-and-data-structures/",
        "Interactive JavaScript curriculum")]
  else
    curated
      [(query ++ " - Khan Academy",
        "https://www.khanacademy.org/search?page_search_query="
        ++ replace_blank "+" query,
        "Free online courses and lessons");
       (query ++ " - Coursera",
        "https://www.coursera.org/search?query="
        ++ replace_blank "%20" query,
        "Online courses from top universities");
       (query ++ " - YouTube",
        "https://www.youtube.com/results?search_query="
        ++ replace_blank "+" query ++ "+tutorial",
        "Video tutorials and explanations")].

(** One entry of the "results" list of a Tavily response, with the keys
    the code reads; a key may be absent. *)
Module TavilyResult.
Record t : Type := Build {
  title : option string;
  url : option string;
  content : option string;
  score : option Q
}.
End TavilyResult.

(** [d.get(k, default)] on a key that may be absent. *)
Definition or_default {A : Type} (o : option A) (default : A) : A :=
  match o with
  | Some v => v
  | None => default
  end.

(** [l[:n]]: a negative [n] counts from the end. *)
Definition slice_to {A : Type} (n : Z) (l : list A) : list A :=
  if n <? 0 then firstn (length l - Z.to_nat (- n)) l
  else firstn (Z.to_nat n) l.

(** The loop of [_search_with_tavily] over the results. *)
Definition tavily_link (result : TavilyResult.t) : res ResourceLink.t :=
  ResourceLink.mk
    (or_default (TavilyResult.title result) "Untitled")
    (or_default (TavilyResult.url result) "")
    (Some (take 200 (or_default (TavilyResult.content result) "")))
    (or_default (TavilyResult.score result) (1 # 2)%Q).

(** [_search_with_tavily].  [http] is the outcome of the POST request
    with [raise_for_status] and [response.json()]: the "results" list
    of the response, if it has one. *)
Definition _search_with_tavily
  (http : outcome (option (list TavilyResult.t))) (max_results : Z)
  : outcome (res (list ResourceLink.t)) :=
  match http with
  | Failed message => Failed message
  | Got data =>
      Got (mapM tavily_link (slice_to max_results (or_default data [])))
  end.

(** The loop of [_search_with_duckduckgo] over the results. *)
Definition ddg_link (result : Dict.t string) : res ResourceLink.t :=
  ResourceLink.mk
    (get_default "title" result "Untitled")
    (get_default "href" result (get_default "link" result ""))
    (Some (take 200 (get_default "body" result "")))
    (7 # 10)%Q.

(** [_search_with_duckduckgo]: exceptions other than [ImportError] are
    not caught here. *)
Definition _search_with_duckduckgo (pkg : ddgs_package) (query : string)
  : outcome (res (list ResourceLink.t)) :=
  match pkg with
  | NotInstalled => Got (_get_fallback_resources query)
  | Installed (Failed message) => Failed message
  | Installed (Got results) => Got (mapM ddg_link results)
  end.

Section WithText.
Context `{TextLib}.

(** The [output] list of [_format_results]. *)
Definition stars (l : ResourceLink.t) : string :=
  repeat_str "*"
    (Z.to_nat (int_trunc (ResourceLink.relevance_score l * 5))).

Definition truthy_text (s : option string) : bool :=
  match s with
  | Some (String _ _) => true
  | _ => false
  end.

Definition resource_lines (it : Z * ResourceLink.t) : list string :=
  let (idx, resource) := it in
  [str_int idx ++ ". " ++ ResourceLink.title resource;
   "   URL: " ++ ResourceLink.url resource]
  ++ (match ResourceLink.description resource with
      | Some d =>
          if truthy_text (Some d) then ["   Description: " ++ d] else []
      | None => []
      end)
  ++ ["   Relevance: " ++ stars resource; ""].

Fixpoint numbered_from {A : Type} (start : Z) (l : list A)
  : list (Z * A) :=
  match l with
  | [] => []
  | x :: rest => (start, x) :: numbered_from (start + 1) rest
  end.

(** [_format_results] *)
Definition _format_results (result : ResourceSearchResult) : string :=
  match resources result with
  | [] => "No resources found for query: '" ++ query result ++ "'"
  | _ =>
      join nl
        (["Found " ++ str_int (Z.of_nat (length (resources result)))
          ++ " learning resources for: '" ++ query result ++ "'";
          "Search performed at: "
          ++ strftime "%Y-%m-%d %H:%M:%S" (search_timestamp result);
          nl ++ repeat_str "=" 60 ++ nl]
         ++ flat_map resource_lines (numbered_from 1 (resources result))
         ++ [repeat_str "=" 60;
             nl
             ++ "Present these resources to the user in a friendly, helpful way."])
  end.

(** [_run].  [http] is what the Tavily request gives, [pkg] the state
    of the [ddgs] package, [now] the clock reading taken for
    [search_timestamp]. *)
Definition _run (use_tavily : bool)
  (http : outcome (option (list TavilyResult.t))) (pkg : ddgs_package)
  (query : string) (max_results : Z) (now : datetime) : res string :=
  let searched :=
    if use_tavily then _search_with_tavily http max_results
    else _search_with_duckduckgo pkg query in
  match searched with
  | Failed message => Ret ("Error searching for resources: " ++ message)
  | Got found =>
      match (resources <- found ;;
             result <- mk_ResourceSearchResult query resources now ;;
             Ret (_format_results result)) with
      | Ret text => Ret text
      | Raise (NotModelled what) => Raise (NotModelled what)
      | Raise e => Ret ("Error searching for resources: " ++ str_exn e)
      end
  end.

End WithText.

End ResourceSearch.

(* ------------------------------------------------------------------ *)
(** ** Vocabulary of the properties *)

Module Spec.

Import QuizGenerator App Pathlib Json KnowledgeManager.

(** The number of positions at which the submitted answer equals the
    question's [correct_index]. *)
Definition matching_positions (qs : list QuizQuestion) (a : list Z) : Z :=
  Z.of_nat
    (length (filter (fun qa : QuizQuestion * Z =>
                       snd qa =? correct_index (fst qa))
                    (combine qs a))).

(** Answers for which [chr(65 + answer)] is defined. *)
Definition printable_answer (x : Z) : Prop := -65 <= x <= 1114046.

(** The rational a finite [float] is (0 for an infinity or a NaN). *)
Definition value (f : float) : Q :=
  match xvalue (Float f) with
  | Some (Real q) => q
  | _ => 0%Q
  end.

(** [float(n)] for an [int] from 0 to 2^63 - 1. *)
Definition of_int (n : Z) : float := PrimFloat.of_uint63 (Uint63.of_Z n).

(** The percentage as the scorers compute it in binary64: the quotient
    is rounded, then its product with 100 is. *)
Definition percentage (correct total : Z) : float :=
  (of_int correct / of_int total * 100)%float.

(** The percentage as the specification writes it, exactly. *)
Definition exact_percentage (correct total : Z) : Q :=
  (100 * inject_Z correct / inject_Z total)%Q.

(** The sample quiz of [demo.py]: three four-option questions, each with
    [correct_index = 1]. *)
Definition sample_quiz : Quiz :=
  Build_Quiz 1 "Python Functions" "beginner"
    [Build_QuizQuestion
       "What keyword is used to define a function in Python?"
       ["func"; "def"; "function"; "define"] 1
       (Some "The 'def' keyword is used to define functions in Python.");
     Build_QuizQuestion
       "What does a function return if no return statement is specified?"
       ["0"; "None"; "Empty string"; "Error"] 1
       (Some "Functions return None by default when no return statement is present.");
     Build_QuizQuestion
       "Which of these is correct function call syntax?"
       ["function_name[]"; "function_name()"; "function_name{}";
        "call function_name"] 1
       (Some "Functions are called using parentheses: function_name()")].

(** The answers the demo submits: correct, wrong, correct. *)
Definition demo_answers : list Z := [1; 0; 1].

(** The records kept under [skill] before a call, and the [avg_score]
    its entry holds then: 0.0 for an entry the call creates. *)
Definition recorded (skill : string) (sk : Dict.t SkillData.t)
  : list Completion.t :=
  match Dict.get skill sk with
  | Some sd => SkillData.modules sd
  | None => []
  end.

Definition held_avg (skill : string) (sk : Dict.t SkillData.t) : num :=
  match Dict.get skill sk with
  | Some sd => SkillData.avg_score sd
  | None => Float 0
  end.

(** A number that is a [float]. *)
Definition is_float (x : num) : Prop :=
  match x with
  | Float _ => True
  | Int _ => False
  end.

Section WithDatetime.
Context `{DatetimeLib}.

(** What the call leaves in place of the completed module, and of the
    modules after it. *)
Definition completed_with (score : Q) (m : Module_) : Module_ :=
  Build_Module (id m) (title m) COMPLETED (topics m) (estimated_hours m)
               score.

Definition unlock_first (post : list Module_) : list Module_ :=
  match post with
  | [] => []
  | nxt :: rest => set_status ACTIVE nxt :: rest
  end.

Definition other_id (module_id : Z) (m : Module_) : Prop :=
  id m <> module_id.

(** The placeholder topics every generated module gets. *)
Definition placeholder_topics : list string :=
  ["Topic 1"; "Topic 2"; "Topic 3"].

(** The plan [generate_learning_plan] builds from three titles. *)
Definition plan_of_titles (target_skill starting_level : string)
  (t1 t2 t3 : string) (now : datetime) : LearningPlan :=
  Build_LearningPlan target_skill starting_level
    [Build_Module 1 t1 ACTIVE placeholder_topics 4 0%Q;
     Build_Module 2 t2 LOCKED placeholder_topics 6 0%Q;
     Build_Module 3 t3 LOCKED placeholder_topics 8 0%Q]
    now.

Definition is_active (m : Module_) : bool :=
  ModuleStatus_eqb (status m) ACTIVE.

Definition is_completed (m : Module_) : bool :=
  ModuleStatus_eqb (status m) COMPLETED.

Definition count_active (p : LearningPlan) : nat :=
  length (filter is_active (modules p)).

Definition count_completed (ms : list Module_) : nat :=
  length (filter is_completed ms).

(** The last module of the sequence has been completed. *)
Definition final_completed (ms : list Module_) : bool :=
  match rev ms with
  | m :: _ => is_completed m
  | [] => false
  end.

(** A sequence of [complete_module] calls, each naming the id of the
    module that is active when the call is made.  [None] when some call
    does not (in particular when no module is active any more). *)
Fixpoint progress (p : LearningPlan) (calls : list (Z * Q))
  : option LearningPlan :=
  match calls with
  | [] => Some p
  | (module_id, score) :: rest =>
      match get_active_module p with
      | Some m =>
          if id m =? module_id
          then progress (complete_module p module_id score) rest
          else None
      | None => None
      end
  end.

(** The shape of a plan under normal progression: completed modules,
    then either one active module followed by locked ones, or nothing. *)
Inductive stage : list Module_ -> Prop :=
| in_progress (done : list Module_) (cur : Module_) (todo : list Module_) :
    Forall (fun m => status m = COMPLETED) done ->
    status cur = ACTIVE ->
    Forall (fun m => status m = LOCKED) todo ->
    NoDup (map id (done ++ cur :: todo)) ->
    stage (done ++ cur :: todo)
| all_done (ms : list Module_) :
    ms <> [] ->
    Forall (fun m => status m = COMPLETED) ms ->
    stage ms.

End WithDatetime.

(** A [datetime] library for closed examples: an instant is represented
    by its text, which every function returns as it is. *)
Definition text_datetime : DatetimeLib :=
  Build_DatetimeLib string (fun d => d) (fun d => d) (fun s => Some s)
    (fun (d : string) (E : Some d = None) =>
       match E in _ = o return match o with Some _ => True | None => False end
       with eq_refl => I end)
    (fun (d d' : string) (E : Some d = Some d') =>
       match E in _ = o return match o with Some x => x = d | None => True end
       with eq_refl => eq_refl end).

Definition demo_plan : @LearningPlan text_datetime :=
  @plan_of_titles text_datetime "Python" "beginner"
    "Foundations of Python"
    "Core Concepts in Python" "Practical Applications of Python"
    "2024-01-01 09:00:00".

Definition demo_calls : list (Z * Q) := [(1, 80%Q); (2, 85%Q); (3, 90%Q)].

Definition demo_plan_finished : @LearningPlan text_datetime :=
  complete_module
    (complete_module (complete_module demo_plan 1 80%Q) 2 85%Q) 3 90%Q.

Definition demo_profile : @UserProfile text_datetime :=
  @Build_UserProfile text_datetime "alice"
    [("python",
      SkillData.Build
        [Completion.Build "Foundations of Python" (Float 80)
                          "2024-01-02T10:00:00";
         Completion.Build "Core Concepts in Python" (Float 90)
                          "2024-01-03T10:00:00"]
        (Float 85))]
    2 85%float "2024-01-03 10:00:00".

(** A file system in which the storage directory exists and is empty. *)
Definition demo_fs : FS.t :=
  FS.Build ["srv"; "app"]
    [["srv"]; ["srv"; "app"]; ["srv"; "app"; "data"];
     ["srv"; "app"; "data"; "user_profiles"]]
    [].

End Spec.

(* ------------------------------------------------------------------ *)
(** ** Vocabulary of the further properties *)

Module Props.

Import QuizGenerator App Pathlib Json KnowledgeManager Spec.

(** The per-question entries of an evaluation report, read off the quiz
    and the answers: numbered from 1, with the letters as code points. *)
Definition report_row (it : Z * (QuizQuestion * Z)) : Row.t :=
  let (i, qa) := it in
  let (q, x) := qa in
  Row.Build (i + 1) (Schemas.question q) (65 + x) (65 + correct_index q)
            (x =? correct_index q) (Schemas.explanation q).

Definition report_rows (qs : list QuizQuestion) (a : list Z) : list Row.t :=
  map report_row (enumerate (combine qs a)).

(** The submitted answer of a (question, answer) pair is the right one. *)
Definition matches (qa : QuizQuestion * Z) : bool :=
  snd qa =? correct_index (fst qa).

(** The field constraints of [Module], on a record. *)
Definition Module_valid (m : Module_) : bool :=
  estimated_hours_ok (estimated_hours m)
  && mastery_score_ok (mastery_score m).

Section WithDatetime.
Context `{DatetimeLib}.

(** One call of [update_skill_progress], with its two clock readings. *)
Record progress_update : Type := Build_progress_update {
  upd_skill : string;
  upd_title : string;
  upd_score : num;
  upd_completed : datetime;
  upd_updated : datetime
}.

(** A sequence of [update_skill_progress] calls on one profile. *)
Fixpoint run_updates (p : UserProfile) (us : list progress_update)
  : res UserProfile :=
  match us with
  | [] => Ret p
  | u :: rest =>
      p' <- result (update_skill_progress p (upd_skill u) (upd_title u)
                      (upd_score u) (upd_completed u) (upd_updated u)) ;;
      run_updates p' rest
  end.

(** A profile whose statistics describe its records: skill names are
    distinct, every skill has at least one record and its [avg_score] is
    what [sum(scores) / len(scores)] gives on its scores,
    [total_modules_completed] counts the records, and
    [overall_avg_score] is what the quotient gives on all scores when
    there are any. *)
Definition consistent (p : UserProfile) : Prop :=
  NoDup (map fst (skills p))
  /\ Forall (fun kv : string * SkillData.t =>
               SkillData.modules (snd kv) <> []
               /\ exists avg : float,
                    mean (SkillData.scores (snd kv)) = Ret avg
                    /\ SkillData.avg_score (snd kv) = Float avg)
            (skills p)
  /\ total_modules_completed p
     = Z.of_nat (length (all_scores (skills p)))
  /\ (skills p <> [] ->
      mean (all_scores (skills p)) = Ret (overall_avg_score p)).

End WithDatetime.

(** The example file system after the example profile has been saved. *)
Definition stored_fs : FS.t :=
  FS.Build (FS.cwd demo_fs) (FS.dirs demo_fs)
    [(["srv"; "app"; "data"; "user_profiles"; "alice.json"],
      @to_json text_datetime (@model_dump text_datetime demo_profile))].


(** A stored profile whose one record holds an [int] score beyond the
    range of a [float], as [json.load] reads it from a document. *)
Definition huge_profile : @UserProfile text_datetime :=
  @Build_UserProfile text_datetime "alice"
    [("python",
      SkillData.Build
        [Completion.Build "Foundations" (Int (10 ^ 400))
                          "2024-01-02T10:00:00"]
        (Float 0))]
    1 0%float "2024-01-02 10:00:01".

Definition huge_fs : FS.t :=
  FS.Build (FS.cwd demo_fs) (FS.dirs demo_fs)
    [(["srv"; "app"; "data"; "user_profiles"; "alice.json"],
      @to_json text_datetime (@model_dump text_datetime huge_profile))].

(** [k] halvings of a mantissa with its two rounding bits, as [shr]
    does them: the mantissa becomes [m / 2^k], and a bit is set
    afterwards only if something was lost or a bit was set before. *)
Definition shifted (k : Z) (a b : SpecFloat.shr_record) : Prop :=
  SpecFloat.shr_m b = SpecFloat.shr_m a / 2 ^ k
  /\ (SpecFloat.shr_r b || SpecFloat.shr_s b = true ->
      SpecFloat.shr_m a mod 2 ^ k <> 0
      \/ SpecFloat.shr_r a || SpecFloat.shr_s a = true).

(** The [avg_score] of an item of [skills.items()]. *)
Definition avg_of (kv : string * SkillData.t) : num :=
  SkillData.avg_score (snd kv).

(** A text library for closed examples: one decimal with ties to even
    on the exact value, and the class name for an exception. *)
Definition round_half_even (q : Q) : Z :=
  let n := Qnum q in
  let d := Z.pos (Qden q) in
  let fl := n / d in
  let r := n mod d in
  if 2 * r <? d then fl
  else if d <? 2 * r then fl + 1
  else if Z.even fl then fl else fl + 1.

Definition demo_format_1f (f : float) : string :=
  match xvalue (Float f) with
  | None => "nan"
  | Some PlusInf => "inf"
  | Some MinusInf => "-inf"
  | Some (Real q) =>
      let t := round_half_even (Qabs q * 10) in
      (if get_sign f then "-" else "")
      ++ str_int (t / 10) ++ "." ++ str_int (t mod 10)
  end.

Definition demo_str_exn (e : exn) : string :=
  match e with
  | ValidationError _ => "ValidationError"
  | ValueError => "ValueError"
  | OverflowError => "OverflowError"
  | ZeroDivisionError => "ZeroDivisionError"
  | IndexError => "IndexError"
  | KeyError _ => "KeyError"
  | TypeError => "TypeError"
  | FileNotFoundError => "FileNotFoundError"
  | FileExistsError => "FileExistsError"
  | NotADirectoryError => "NotADirectoryError"
  | IsADirectoryError => "IsADirectoryError"
  | NotModelled what => what
  end.

Definition demo_text : @TextLib text_datetime :=
  @Build_TextLib text_datetime demo_format_1f demo_str_exn
    (fun (fmt : string) (d : string) => d).

(** A text without blank. *)
Definition no_blank (s : string) : Prop :=
  ~ In " "%char (list_ascii_of_string s).

(** A link as the fallback lists hold them: described, with the default
    relevance, at an https address without blank. *)
Definition curated_link (l : ResourceLink.t) : Prop :=
  ResourceLink.relevance_score l = 1%Q
  /\ ResourceLink.valid l = true
  /\ ResourceSearch.truthy_text (ResourceLink.description l) = true
  /\ ResourceSearch.starts_with "https://" (ResourceLink.url l) = true
  /\ no_blank (ResourceLink.url l).

(** A link built from one result of the [ddgs] package: the title of
    the result (or "Untitled"), its "href" (or its "link", or the empty
    text), the relevance 0.7, and as description the first 200
    characters of its body: the start of the body, of the length of the
    body or of 200 if the body is longer. *)
Definition ddg_link_of (result : Dict.t string) (l : ResourceLink.t)
  : Prop :=
  ResourceLink.valid l = true
  /\ ResourceLink.relevance_score l = (7 # 10)%Q
  /\ ResourceLink.title l
     = match Dict.get "title" result with
       | Some t => t
       | None => "Untitled"
       end
  /\ ResourceLink.url l
     = match Dict.get "href" result, Dict.get "link" result with
       | Some u, _ => u
       | None, Some u => u
       | None, None => ""
       end
  /\ exists d body : string,
       body = match Dict.get "body" result with
              | Some b => b
              | None => ""
              end
       /\ ResourceLink.description l = Some d
       /\ String.length d = Nat.min 200 (String.length body)
       /\ ResourceSearch.starts_with d body = true.

(** A Tavily result whose score, if it has one, is a valid relevance. *)
Definition score_in_range (r : ResourceSearch.TavilyResult.t) : bool :=
  match ResourceSearch.TavilyResult.score r with
  | Some x => ResourceLink.relevance_score_ok x
  | None => true
  end.

(** A valid link with a description of at most 200 characters. *)
Definition short_described (l : ResourceLink.t) : Prop :=
  ResourceLink.valid l = true
  /\ exists d : string,
       ResourceLink.description l = Some d
       /\ (String.length d <= 200)%nat.

(** A Tavily response with three results, the second with a score
    above 1, and the same response with that score lowered. *)
Definition demo_tavily (second : Q)
  : list ResourceSearch.TavilyResult.t :=
  [ResourceSearch.TavilyResult.Build (Some "Guide") (Some "https://a.example")
     (Some "First part") (Some (9 # 10)%Q);
   ResourceSearch.TavilyResult.Build (Some "Manual") (Some "https://b.example")
     None (Some second);
   ResourceSearch.TavilyResult.Build None None (Some "Third part") None].

(** Six search results, as [ddgs] gives them for [max_results=6]. *)
Definition demo_results : list (Dict.t string) :=
  map (fun n : string =>
         [("title", "Guide " ++ n);
          ("href", "https://example.org/" ++ n);
          ("body", "Part " ++ n)])
      ["1"; "2"; "3"; "4"; "5"; "6"].

Section Trace.
Context `{TextLib}.

(** The calls a tool run makes on the callback handler. *)
Inductive tool_event : Type :=
| ToolStart (name : option string) (input_text : string) (now : datetime)
| ToolEnd (output_text : string).

Definition handle (trace_log : list TraceEntry.t) (ev : tool_event)
  : list TraceEntry.t :=
  match ev with
  | ToolStart name input_text now =>
      on_tool_start trace_log name input_text now
  | ToolEnd output_text => on_tool_end trace_log output_text
  end.

Definition handle_all (evs : list tool_event) : list TraceEntry.t :=
  fold_left handle evs [].

(** The inputs of the started tools, as the trace keeps them. *)
Definition started_inputs (evs : list tool_event) : list string :=
  flat_map (fun ev : tool_event =>
              match ev with
              | ToolStart _ input_text _ => [take 200 input_text]
              | ToolEnd _ => []
              end)
           evs.

(** An entry that the trace panel can show in full. *)
Definition bounded_entry (e : TraceEntry.t) : Prop :=
  TraceEntry.type_ e = "tool_start"
  /\ (String.length (TraceEntry.input e) <= 200)%nat
  /\ match TraceEntry.output e with
     | Some o => (String.length o <= 200)%nat
     | None => True
     end.

End Trace.

End Props.

(* ================================================================== *)
(** * Properties *)

Import QuizGenerator App Pathlib Json KnowledgeManager Spec Props.

(** ** Runtime helpers *)

Lemma chr_in_range (i : Z) : 0 <= i <= 1114111 -> chr i = Ret i.
Proof.
  intros Hi. unfold chr.
  replace (i <? -2147483648) with false by (symmetry; apply Z.ltb_ge; lia).
  replace (2147483647 <? i) with false by (symmetry; apply Z.ltb_ge; lia).
  replace (i <? 0) with false by (symmetry; apply Z.ltb_ge; lia).
  replace (1114111 <? i) with false by (symmetry; apply Z.ltb_ge; lia).
  reflexivity.
Qed.

Lemma chr_never_divides (i : Z) : chr i <> Raise ZeroDivisionError.
Proof.
  unfold chr.
  destruct ((i <? -2147483648) || (2147483647 <? i)); [discriminate|].
  destruct ((i <? 0) || (1114111 <? i)); discriminate.
Qed.

Lemma float_of_int_100 : float_of_int 100 = Ret 100%float.
Proof. vm_compute. reflexivity. Qed.

Lemma mul_float_100 (r : float) :
  mul (Float r) (Int 100) = Ret (Float (r * 100))
  /\ mul (Float r) (Float 100) = Ret (Float (r * 100)).
Proof.
  unfold mul, as_float. rewrite float_of_int_100. split; reflexivity.
Qed.

Lemma to_float_never_divides (x : SpecFloat.spec_float) :
  to_float x <> Raise ZeroDivisionError.
Proof. destruct x; discriminate. Qed.

Lemma int_truediv_never_divides (a b : Z) :
  b <> 0 -> int_truediv a b <> Raise ZeroDivisionError.
Proof.
  intros Hb. unfold int_truediv.
  apply Z.eqb_neq in Hb. rewrite Hb. apply to_float_never_divides.
Qed.

(** ** Quiz evaluation *)

Lemma validated_ret {A : Type} (checks : list (string * bool)) (v w : A) :
  validated checks v = Ret w ->
  v = w /\ forallb snd checks = true.
Proof.
  unfold validated, failed_fields. intros Hv.
  destruct (map fst (filter (fun c => negb (snd c)) checks)) eqn:E;
    [|discriminate].
  inversion Hv; subst w. split; [reflexivity|].
  apply map_eq_nil in E. apply forallb_forall. intros c Hc.
  destruct (snd c) eqn:Es; [reflexivity|].
  assert (Hin : In c (filter (fun c => negb (snd c)) checks))
    by (apply filter_In; split; [exact Hc | now rewrite Es]).
  rewrite E in Hin. contradiction.
Qed.

(** What the constructors guarantee about the records they return. *)
Lemma mk_QuizQuestion_valid (q : string) (opts : list string) (ci : Z)
  (expl : option string) (qq : QuizQuestion) :
  mk_QuizQuestion q opts ci expl = Ret qq -> QuizQuestion_valid qq = true.
Proof.
  intros Hmk. apply validated_ret in Hmk as [<- Hok].
  cbn in Hok. unfold QuizQuestion_valid. cbn [options correct_index].
  now rewrite andb_true_r in Hok.
Qed.

Lemma mk_Quiz_length (mid : Z) (tp df : string) (qs : list QuizQuestion)
  (quiz : Quiz) :
  mk_Quiz mid tp df qs = Ret quiz ->
  questions quiz = qs /\ (3 <= length qs <= 10)%nat.
Proof.
  intros Hmk. apply validated_ret in Hmk as [<- Hok].
  split; [reflexivity|]. cbn in Hok. rewrite andb_true_r in Hok.
  unfold questions_ok in Hok. apply andb_prop in Hok as [Hlo Hhi].
  apply Nat.leb_le in Hlo. apply Nat.leb_le in Hhi. lia.
Qed.

Lemma mk_Quiz_valid (mid : Z) (tp df : string) (qs : list QuizQuestion)
  (quiz : Quiz) :
  mk_Quiz mid tp df qs = Ret quiz ->
  Forall (fun qq => QuizQuestion_valid qq = true) qs ->
  Quiz_valid quiz = true.
Proof.
  intros Hmk Hqs. apply validated_ret in Hmk as [<- Hok].
  cbn in Hok. rewrite andb_true_r in Hok.
  unfold Quiz_valid. cbn [questions]. rewrite Hok. cbn [andb].
  apply forallb_forall. now apply Forall_forall.
Qed.

Lemma Quiz_valid_length (q : Quiz) :
  Quiz_valid q = true -> (3 <= length (questions q) <= 10)%nat.
Proof.
  unfold Quiz_valid, questions_ok. intros Hv.
  apply andb_prop in Hv as [Hlen _].
  apply andb_prop in Hlen as [Hlo Hhi].
  apply Nat.leb_le in Hlo. apply Nat.leb_le in Hhi. lia.
Qed.

Lemma Quiz_valid_indices (q : Quiz) :
  Quiz_valid q = true ->
  Forall (fun qq => 0 <= correct_index qq < 4) (questions q).
Proof.
  unfold Quiz_valid. intros Hv. apply andb_prop in Hv as [_ Hall].
  rewrite forallb_forall in Hall. apply Forall_forall. intros qq Hin.
  specialize (Hall qq Hin). unfold QuizQuestion_valid in Hall.
  apply andb_prop in Hall as [_ Hci]. unfold correct_index_ok in Hci.
  apply andb_prop in Hci as [Hlo Hhi].
  apply Z.leb_le in Hlo. apply Z.ltb_lt in Hhi. lia.
Qed.

Lemma eval_loop_returns (qs : list QuizQuestion) :
  Forall (fun qq => 0 <= correct_index qq < 4) qs ->
  forall (a : list Z) (idx : Z) (results : list Row.t) (cc : Z),
    Forall printable_answer a ->
    exists rows,
      eval_loop idx (combine qs a) results cc
      = Ret ((results ++ rows)%list, cc + matching_positions qs a)
      /\ length rows = length (combine qs a).
Proof.
  unfold matching_positions.
  induction 1 as [|qq qs Hq Hqs IH]; intros a idx results cc Ha.
  - exists []. simpl. rewrite app_nil_r, Z.add_0_r. auto.
  - destruct a as [|x a].
    + exists []. simpl. rewrite app_nil_r, Z.add_0_r. auto.
    + inversion Ha as [|? ? Hx Ha']; subst. unfold printable_answer in Hx.
      cbn [combine eval_loop].
      rewrite (chr_in_range (65 + x)) by lia.
      rewrite (chr_in_range (65 + correct_index qq)) by lia.
      cbn [bind].
      match goal with
      | |- context [eval_loop ?i _ ?r ?c] =>
          destruct (IH a i r c Ha') as [rows [Hrun Hlen]]
      end.
      eexists (_ :: rows). split.
      * rewrite Hrun. rewrite <- app_assoc. cbn [app filter fst snd].
        f_equal. f_equal.
        destruct (x =? correct_index qq); cbn [length]; lia.
      * simpl. now rewrite Hlen.
Qed.

Lemma eval_loop_never_divides (pairs : list (QuizQuestion * Z)) :
  forall (idx : Z) (results : list Row.t) (cc : Z),
    eval_loop idx pairs results cc <> Raise ZeroDivisionError.
Proof.
  induction pairs as [|[qq x] pairs IH]; intros idx results cc.
  - discriminate.
  - cbn [eval_loop].
    pose proof (chr_never_divides (65 + x)) as H1.
    destruct (chr (65 + x)) as [ua|e]; cbn [bind].
    + pose proof (chr_never_divides (65 + correct_index qq)) as H2.
      destruct (chr (65 + correct_index qq)) as [ca|e]; cbn [bind].
      * apply IH.
      * intros Hc. apply H2. inversion Hc. reflexivity.
    + intros Hc. apply H1. inversion Hc. reflexivity.
Qed.

Lemma count_correct_never_divides (qs : list QuizQuestion) (a : list Z) :
  forall i : nat, count_correct_from qs i a <> Raise ZeroDivisionError.
Proof.
  induction a as [|x a IH]; intros i; cbn [count_correct_from].
  - discriminate.
  - destruct (nth_error qs i); [|discriminate].
    specialize (IH (S i)).
    destruct (count_correct_from qs (S i) a); cbn [bind];
      [discriminate | intros Hc; apply IH; inversion Hc; reflexivity].
Qed.

Lemma matching_positions_bounds (qs : list QuizQuestion) (a : list Z) :
  0 <= matching_positions qs a <= Z.of_nat (length qs).
Proof.
  unfold matching_positions.
  pose proof (filter_length_le
                (fun qa : QuizQuestion * Z => snd qa =? correct_index (fst qa))
                (combine qs a)) as Hle.
  rewrite length_combine in Hle. lia.
Qed.

(** [x >= k] for a number that is somewhere on the real line. *)
Lemma ge_Int (x : num) (q : Q) (k : Z) :
  xvalue x = Some (Real q) -> ge x (Int k) = Qle_bool (inject_Z k) q.
Proof.
  intros Hx. unfold ge, compare. rewrite Hx.
  cbn [xvalue xcompare].
  unfold Qle_bool, Qcompare. rewrite (Z.compare_antisym _ (Qnum q * _)).
  unfold Z.leb.
  destruct (Qnum (inject_Z k) * QDen q ?= Qnum q * QDen (inject_Z k));
    reflexivity.
Qed.

(** Each quiz size that validation admits, with each possible count. *)
Ltac each_validated_count n c :=
  let En := fresh "En" in
  let Ec := fresh "Ec" in
  assert (En : n = 3 \/ n = 4 \/ n = 5 \/ n = 6 \/ n = 7 \/ n = 8
               \/ n = 9 \/ n = 10) by lia;
  assert (Ec : c = 0 \/ c = 1 \/ c = 2 \/ c = 3 \/ c = 4 \/ c = 5 \/ c = 6
               \/ c = 7 \/ c = 8 \/ c = 9 \/ c = 10) by lia;
  repeat (destruct En as [En|En]; [subst n|]); try subst n;
  repeat (destruct Ec as [Ec|Ec]; [subst c|]); try subst c;
  try lia.

(** The quotient for the quiz sizes validation admits. *)
Lemma validated_quotient (n c : Z) :
  3 <= n <= 10 -> 0 <= c <= n ->
  truediv (Int c) (Int n) = Ret (of_int c / of_int n)%float.
Proof.
  intros Hn Hc. each_validated_count n c; vm_compute; reflexivity.
Qed.

(** For these sizes the binary64 percentage is a number between 0 and
    100, within 2^-46 of the exact one. *)
Lemma validated_percentage (n c : Z) :
  3 <= n <= 10 -> 0 <= c <= n ->
  xvalue (Float (percentage c n)) = Some (Real (value (percentage c n)))
  /\ (Qabs (value (percentage c n) - exact_percentage c n)
      <= 1 # 70368744177664)%Q
  /\ (0 <= value (percentage c n) <= 100)%Q.
Proof.
  intros Hn Hc.
  assert (Hb : match xvalue (Float (percentage c n)) with
               | Some (Real q) =>
                   Qle_bool (Qabs (q - exact_percentage c n))
                            (1 # 70368744177664)
                   && Qle_bool 0 q && Qle_bool q 100
               | _ => false
               end = true)
    by (each_validated_count n c; vm_compute; reflexivity).
  unfold value.
  destruct (xvalue (Float (percentage c n))) as [[|q|]|]; try discriminate.
  apply andb_prop in Hb as [Hb H100]. apply andb_prop in Hb as [Hclose H0].
  apply Qle_bool_iff in Hclose, H0, H100. auto.
Qed.

Lemma Qle_bool_true (b s : Q) : (b <= s)%Q -> Qle_bool b s = true.
Proof. intros Hle. now apply Qle_bool_iff. Qed.

Lemma Qle_bool_false (b s : Q) : (s < b)%Q -> Qle_bool b s = false.
Proof.
  intros Hlt. apply not_true_is_false. intros Hle.
  apply Qle_bool_iff in Hle. exact (Qlt_not_le _ _ Hlt Hle).
Qed.

Ltac below b :=
  match goal with
  | Hlt : (?s < ?c)%Q |- _ =>
      rewrite (Qle_bool_false b s)
        by (first [ exact Hlt
                  | apply (Qlt_trans s c b); [exact Hlt | reflexivity] ])
  end.

(** The feedback chain, read as inclusive descending thresholds on the
    number the score is. *)
Lemma feedback_for_tiers (score : num) (s : Q) :
  xvalue score = Some (Real s) ->
  ((90 <= s)%Q ->
   feedback_for score = "Excellent! You've mastered this topic.")
  /\ ((80 <= s)%Q /\ (s < 90)%Q ->
      feedback_for score = "Great work! You have a strong understanding.")
  /\ ((70 <= s)%Q /\ (s < 80)%Q ->
      feedback_for score = "Good job! You're on the right track.")
  /\ ((60 <= s)%Q /\ (s < 70)%Q ->
      feedback_for score
      = "Fair performance. Review the material and try again.")
  /\ ((s < 60)%Q ->
      feedback_for score
      = "More study needed. Don't worry, practice makes perfect!").
Proof.
  intros Hs. unfold feedback_for. rewrite !(ge_Int score s _ Hs).
  change (inject_Z 90) with 90%Q. change (inject_Z 80) with 80%Q.
  change (inject_Z 70) with 70%Q. change (inject_Z 60) with 60%Q.
  repeat split.
  - intros Hge. now rewrite (Qle_bool_true 90 s Hge).
  - intros [Hge Hlt]. below 90%Q. now rewrite (Qle_bool_true 80 s Hge).
  - intros [Hge Hlt]. below 90%Q. below 80%Q.
    now rewrite (Qle_bool_true 70 s Hge).
  - intros [Hge Hlt]. below 90%Q. below 80%Q. below 70%Q.
    now rewrite (Qle_bool_true 60 s Hge).
  - intros Hlt. below 90%Q. below 80%Q. below 70%Q. below 60%Q.
    reflexivity.
Qed.

(** The order of the two operations matters in the last bit: for two
    answers of three right, the code's [(2 / 3) * 100] is not the float
    that [100 * 2 / 3] is, and neither is the exact 200/3. *)
Example operation_order :
  percentage 2 3 = 66.66666666666666%float
  /\ (of_int (100 * 2) / of_int 3)%float = 66.66666666666667%float
  /\ percentage 2 3 <> (of_int (100 * 2) / of_int 3)%float
  /\ ~ (value (percentage 2 3) == exact_percentage 2 3)%Q.
Proof.
  split; [vm_compute; reflexivity|].
  split; [vm_compute; reflexivity|].
  split.
  - intros E. apply (f_equal FloatOps.Prim2SF) in E.
    vm_compute in E. discriminate.
  - vm_compute. discriminate.
Qed.

(** C1 (as amended).  For a validated quiz and an answer list of the same
    length whose entries are all in the domain of [chr(65 + answer)],
    [evaluate_answers] returns a report with [correct_count], the number
    of positions where the answer equals [correct_index], and with the
    score that binary64 arithmetic gives for
    [(correct_count / len(questions)) * 100]: the quotient rounded to a
    [float], then its product with 100 rounded.  That score is a number
    between 0 and 100 within 2^-46 of the exact
    [100 * correct_count / len(questions)].  The feedback follows the
    inclusive descending thresholds 90, 80, 70, 60 on the score; a score
    of exactly 90.0 is in the top tier and 89.999 in the next. *)
Theorem evaluate_answers_score_and_feedback (quiz : Quiz) (a : list Z) :
  Quiz_valid quiz = true ->
  length a = length (questions quiz) ->
  Forall printable_answer a ->
  exists (score : float) (fb : string) (results : list Row.t),
    evaluate_answers quiz a
    = Ret (Evaluated (Float score)
             (matching_positions (questions quiz) a)
             (Z.of_nat (length (questions quiz))) fb results)
    /\ score
       = percentage (matching_positions (questions quiz) a)
                    (Z.of_nat (length (questions quiz)))
    /\ (Qabs (value score
              - exact_percentage (matching_positions (questions quiz) a)
                                 (Z.of_nat (length (questions quiz))))
        <= 1 # 70368744177664)%Q
    /\ (0 <= value score <= 100)%Q
    /\ length results = length (questions quiz)
    /\ ((90 <= value score)%Q ->
        fb = "Excellent! You've mastered this topic.")
    /\ ((80 <= value score)%Q /\ (value score < 90)%Q ->
        fb = "Great work! You have a strong understanding.")
    /\ ((70 <= value score)%Q /\ (value score < 80)%Q ->
        fb = "Good job! You're on the right track.")
    /\ ((60 <= value score)%Q /\ (value score < 70)%Q ->
        fb = "Fair performance. Review the material and try again.")
    /\ ((value score < 60)%Q ->
        fb = "More study needed. Don't worry, practice makes perfect!")
    /\ feedback_for (Float 90) = "Excellent! You've mastered this topic."
    /\ feedback_for (Float 89.999)
       = "Great work! You have a strong understanding.".
Proof.
  intros Hvalid Hlen Hprint.
  pose proof (Quiz_valid_length quiz Hvalid) as Hn.
  pose proof (Quiz_valid_indices quiz Hvalid) as Hci.
  destruct (eval_loop_returns (questions quiz) Hci a 0 [] 0 Hprint)
    as [rows [Hrun Hrows]].
  pose proof (matching_positions_bounds (questions quiz) a) as Hcc.
  set (n := Z.of_nat (length (questions quiz))) in *.
  set (cc := matching_positions (questions quiz) a) in *.
  assert (Hn' : 3 <= n <= 10) by (unfold n; lia).
  destruct (validated_percentage n cc Hn' Hcc) as (Hx & Hclose & Hrange).
  exists (percentage cc n), (feedback_for (Float (percentage cc n))), rows.
  split; [|split; [reflexivity|split; [exact Hclose|split; [exact Hrange|]]]].
  - unfold evaluate_answers. rewrite Hlen, Nat.eqb_refl. cbn [negb].
    rewrite Hrun. cbn [bind app]. rewrite Z.add_0_l.
    fold n. rewrite (validated_quotient n cc Hn' Hcc). cbn [bind].
    rewrite (proj1 (mul_float_100 _)). reflexivity.
  - split; [rewrite Hrows, length_combine, Hlen; apply Nat.min_id|].
    pose proof (feedback_for_tiers _ _ Hx) as (T1 & T2 & T3 & T4 & T5).
    repeat split; try assumption; vm_compute; reflexivity.
Qed.

Lemma evaluate_answers_score_and_feedback_witness :
  exists (score : float) (fb : string) (results : list Row.t),
    evaluate_answers sample_quiz demo_answers
    = Ret (Evaluated (Float score)
             (matching_positions (questions sample_quiz) demo_answers)
             (Z.of_nat (length (questions sample_quiz))) fb results)
    /\ score
       = percentage (matching_positions (questions sample_quiz) demo_answers)
                    (Z.of_nat (length (questions sample_quiz)))
    /\ (Qabs (value score
              - exact_percentage
                  (matching_positions (questions sample_quiz) demo_answers)
                  (Z.of_nat (length (questions sample_quiz))))
        <= 1 # 70368744177664)%Q
    /\ (0 <= value score <= 100)%Q
    /\ length results = length (questions sample_quiz)
    /\ ((90 <= value score)%Q ->
        fb = "Excellent! You've mastered this topic.")
    /\ ((80 <= value score)%Q /\ (value score < 90)%Q ->
        fb = "Great work! You have a strong understanding.")
    /\ ((70 <= value score)%Q /\ (value score < 80)%Q ->
        fb = "Good job! You're on the right track.")
    /\ ((60 <= value score)%Q /\ (value score < 70)%Q ->
        fb = "Fair performance. Review the material and try again.")
    /\ ((value score < 60)%Q ->
        fb = "More study needed. Don't worry, practice makes perfect!")
    /\ feedback_for (Float 90) = "Excellent! You've mastered this topic."
    /\ feedback_for (Float 89.999)
       = "Great work! You have a strong understanding.".
Proof.
  apply (evaluate_answers_score_and_feedback sample_quiz demo_answers).
  - reflexivity.
  - reflexivity.
  - repeat constructor; unfold printable_answer; lia.
Defined.

(** C1, as stated, fails: an answer list of the right length whose first
    entry is [-66] makes [chr(65 + user_answer)] raise, so no score is
    returned. *)
Lemma evaluate_answers_raises_on_unprintable_answer :
  Quiz_valid sample_quiz = true
  /\ length [-66; 0; 1] = length (questions sample_quiz)
  /\ evaluate_answers sample_quiz [-66; 0; 1] = Raise ValueError.
Proof. repeat split. Qed.

(** The report for the demo's answers: two of three correct, a score of
    66.66666666666666, the "fair" tier. *)
Example evaluate_answers_demo :
  exists results,
    evaluate_answers sample_quiz [1; 0; 1]
    = Ret (Evaluated (Float 66.66666666666666) 2 3
             "Fair performance. Review the material and try again." results).
Proof. eexists. vm_compute. reflexivity. Qed.

(** C7.  When the number of answers differs from the number of
    questions, [evaluate_answers] raises nothing and returns the error
    dictionary: a message and a score of 0. *)
Theorem evaluate_answers_length_mismatch (quiz : Quiz) (a : list Z) :
  length a <> length (questions quiz) ->
  evaluate_answers quiz a
  = Ret (Mismatch "Number of answers doesn't match number of questions"
                  (Float 0)).
Proof.
  intros Hneq. unfold evaluate_answers.
  apply Nat.eqb_neq in Hneq. now rewrite Hneq.
Qed.

Lemma evaluate_answers_length_mismatch_witness :
  evaluate_answers sample_quiz [1; 0]
  = Ret (Mismatch "Number of answers doesn't match number of questions"
                  (Float 0)).
Proof.
  apply (evaluate_answers_length_mismatch sample_quiz [1; 0]).
  simpl. lia.
Defined.

(** C10.  A quiz constructed through the [Quiz] model has between 3 and
    10 questions, so the divisor [len(quiz.questions)] is never zero:
    neither [evaluate_answers] nor [Quiz.calculate_score] raises
    [ZeroDivisionError], whatever the answers. *)
Theorem validated_quiz_never_divides_by_zero (mid : Z) (tp df : string)
  (qs : list QuizQuestion) (quiz : Quiz) (a : list Z) :
  mk_Quiz mid tp df qs = Ret quiz ->
  Z.of_nat (length (questions quiz)) <> 0
  /\ evaluate_answers quiz a <> Raise ZeroDivisionError
  /\ calculate_score quiz a <> Raise ZeroDivisionError.
Proof.
  intros Hmk. destruct (mk_Quiz_length _ _ _ _ _ Hmk) as [Hqs Hn].
  rewrite <- Hqs in Hn. clear Hmk Hqs.
  assert (Hnz : Z.of_nat (length (questions quiz)) <> 0) by lia.
  split; [exact Hnz|]. split.
  - unfold evaluate_answers.
    destruct (negb (length a =? length (questions quiz))%nat);
      [discriminate|].
    pose proof (eval_loop_never_divides
                  (combine (questions quiz) a) 0 [] 0) as Hloop.
    destruct (eval_loop 0 (combine (questions quiz) a) [] 0)
      as [[results cc]|e]; cbn [bind].
    + cbn [truediv].
      pose proof (int_truediv_never_divides cc _ Hnz) as Hdiv.
      destruct (int_truediv cc (Z.of_nat (length (questions quiz))))
        as [r|e]; cbn [bind].
      * rewrite (proj1 (mul_float_100 r)). discriminate.
      * intros Hc. apply Hdiv. inversion Hc. reflexivity.
    + intros Hc. apply Hloop. inversion Hc. reflexivity.
  - unfold calculate_score. destruct a as [|x a]; [discriminate|].
    destruct (negb (length (x :: a) =? length (questions quiz))%nat);
      [discriminate|].
    pose proof (count_correct_never_divides (questions quiz) (x :: a) 0%nat)
      as Hcnt.
    destruct (count_correct_from (questions quiz) 0 (x :: a))
      as [c|e]; cbn [bind].
    + cbn [truediv].
      pose proof (int_truediv_never_divides c _ Hnz) as Hdiv.
      destruct (int_truediv c (Z.of_nat (length (questions quiz))))
        as [r|e]; cbn [bind].
      * rewrite (proj2 (mul_float_100 r)). discriminate.
      * intros Hc. apply Hdiv. inversion Hc. reflexivity.
    + intros Hc. apply Hcnt. inversion Hc. reflexivity.
Qed.

Lemma validated_quiz_never_divides_by_zero_witness :
  Z.of_nat (length (questions sample_quiz)) <> 0
  /\ evaluate_answers sample_quiz demo_answers <> Raise ZeroDivisionError
  /\ calculate_score sample_quiz demo_answers <> Raise ZeroDivisionError.
Proof.
  apply (validated_quiz_never_divides_by_zero 1 "Python Functions"
           "beginner" (questions sample_quiz) sample_quiz demo_answers).
  reflexivity.
Defined.

(** Without the length constraint the division in [evaluate_answers] is
    reachable with a zero divisor ([calculate_score] is guarded by
    [not user_answers]). *)
Example empty_quiz_divides_by_zero :
  evaluate_answers (Build_Quiz 1 "t" "beginner" []) []
  = Raise ZeroDivisionError
  /\ calculate_score (Build_Quiz 1 "t" "beginner" []) [] = Ret (Float 0).
Proof. split; reflexivity. Qed.

(** ** Construction of a [QuizQuestion] *)

Lemma validated_two {A : Type} (n1 n2 : string) (b1 b2 : bool) (v : A) :
  validated [(n1, b1); (n2, b2)] v
  = match b1, b2 with
    | true, true => Ret v
    | false, true => Raise (ValidationError [n1])
    | true, false => Raise (ValidationError [n2])
    | false, false => Raise (ValidationError [n1; n2])
    end.
Proof. destruct b1, b2; reflexivity. Qed.

Lemma options_ok_iff (opts : list string) :
  options_ok opts = true <-> (2 <= length opts <= 4)%nat.
Proof.
  unfold options_ok. rewrite andb_true_iff, !Nat.leb_le. tauto.
Qed.

Lemma correct_index_ok_iff (ci : Z) :
  correct_index_ok ci = true <-> 0 <= ci < 4.
Proof.
  unfold correct_index_ok. rewrite andb_true_iff, Z.leb_le, Z.ltb_lt. tauto.
Qed.

(** C3 (as amended).  [QuizQuestion] validates its fields one by one:
    construction succeeds exactly when there are 2 to 4 options and
    [0 <= correct_index < 4]; otherwise it fails with a [ValidationError]
    that names exactly the offending fields, [options] when the number of
    options is out of range and [correct_index] when the index is, in
    that order.  [correct_index] is not compared with the number of
    options.  In particular [correct_index = 4] with four options
    fails. *)
Theorem mk_QuizQuestion_field_constraints
  (q : string) (opts : list string) (ci : Z) (expl : option string) :
  (mk_QuizQuestion q opts ci expl = Ret (Build_QuizQuestion q opts ci expl)
   <-> (2 <= length opts <= 4)%nat /\ 0 <= ci < 4)
  /\ (~ (2 <= length opts <= 4)%nat /\ 0 <= ci < 4 ->
      mk_QuizQuestion q opts ci expl = Raise (ValidationError ["options"]))
  /\ ((2 <= length opts <= 4)%nat /\ ~ 0 <= ci < 4 ->
      mk_QuizQuestion q opts ci expl
      = Raise (ValidationError ["correct_index"]))
  /\ (~ (2 <= length opts <= 4)%nat /\ ~ 0 <= ci < 4 ->
      mk_QuizQuestion q opts ci expl
      = Raise (ValidationError ["options"; "correct_index"]))
  /\ (length opts = 4%nat ->
      mk_QuizQuestion q opts 4 expl
      = Raise (ValidationError ["correct_index"])).
Proof.
  unfold mk_QuizQuestion. rewrite !validated_two.
  pose proof (options_ok_iff opts) as Ho.
  pose proof (correct_index_ok_iff ci) as Hc.
  split; [|split; [|split; [|split]]].
  - destruct (options_ok opts), (correct_index_ok ci); split; intros Hx;
      try discriminate Hx; try reflexivity.
    + split; [apply Ho | apply Hc]; reflexivity.
    + destruct Hx as [_ H2]. apply Hc in H2. discriminate.
    + destruct Hx as [H1 _]. apply Ho in H1. discriminate.
    + destruct Hx as [H1 _]. apply Ho in H1. discriminate.
  - intros [H1 H2]. apply Hc in H2. rewrite H2.
    destruct (options_ok opts); [|reflexivity].
    exfalso. apply H1, Ho. reflexivity.
  - intros [H1 H2]. apply Ho in H1. rewrite H1.
    destruct (correct_index_ok ci); [|reflexivity].
    exfalso. apply H2, Hc. reflexivity.
  - intros [H1 H2].
    destruct (options_ok opts); [exfalso; apply H1, Ho; reflexivity|].
    destruct (correct_index_ok ci); [|reflexivity].
    exfalso. apply H2, Hc. reflexivity.
  - intros H4. replace (options_ok opts) with true; [reflexivity|].
    symmetry. apply options_ok_iff. lia.
Qed.

(** C3, as stated, fails: [correct_index = 3] with only two options is
    accepted although 3 is not a position of the option list. *)
Lemma mk_QuizQuestion_accepts_index_beyond_options :
  mk_QuizQuestion "q" ["a"; "b"] 3 None
  = Ret (Build_QuizQuestion "q" ["a"; "b"] 3 None)
  /\ ~ (3 < Z.of_nat (length ["a"; "b"])).
Proof. split; [reflexivity | simpl; lia]. Qed.

(** ** Learning plans *)

Section Plans.
Context `{DatetimeLib}.

Lemma first_index_found (module_id : Z) (pre : list Module_) :
  Forall (other_id module_id) pre ->
  forall (m : Module_) (post : list Module_) (k : nat),
    id m = module_id ->
    first_index module_id (pre ++ m :: post) k = Some (k + length pre)%nat.
Proof.
  induction 1 as [|x pre Hx Hpre IH]; intros m post k Hm.
  - cbn. apply Z.eqb_eq in Hm. rewrite Hm. f_equal. lia.
  - cbn. unfold other_id in Hx. apply Z.eqb_neq in Hx. rewrite Hx.
    rewrite (IH m post (S k) Hm). f_equal. lia.
Qed.

Lemma first_index_absent (module_id : Z) (ms : list Module_) :
  Forall (other_id module_id) ms ->
  forall k : nat, first_index module_id ms k = None.
Proof.
  induction 1 as [|x ms Hx Hms IH]; intros k; cbn.
  - reflexivity.
  - unfold other_id in Hx. apply Z.eqb_neq in Hx. now rewrite Hx.
Qed.

Lemma update_at_middle {A : Type} (f : A -> A) (pre : list A) (x : A)
  (post : list A) :
  update_at (length pre) f (pre ++ x :: post) = (pre ++ f x :: post)%list.
Proof.
  induction pre as [|y pre IH]; cbn; [reflexivity | now rewrite IH].
Qed.

Lemma update_at_after {A : Type} (f : A -> A) (pre : list A) (x : A)
  (post : list A) :
  update_at (length pre + 1) f (pre ++ x :: post)
  = (pre ++ x :: match post with
                 | [] => []
                 | y :: rest => f y :: rest
                 end)%list.
Proof.
  induction pre as [|y pre IH]; cbn.
  - destruct post; reflexivity.
  - now rewrite IH.
Qed.

(** The loop of [complete_module], read off a decomposition of the module
    list around the first module with the requested id. *)
Lemma complete_module_at (p : LearningPlan) (module_id : Z) (score : Q)
  (pre : list Module_) (m : Module_) (post : list Module_) :
  modules p = (pre ++ m :: post)%list ->
  Forall (other_id module_id) pre ->
  id m = module_id ->
  complete_module p module_id score
  = with_modules (pre ++ completed_with score m :: unlock_first post) p.
Proof.
  intros Hms Hpre Hm. unfold complete_module. rewrite Hms.
  rewrite (first_index_found module_id pre Hpre m post 0 Hm).
  cbn [Nat.add]. rewrite update_at_middle.
  replace (set_mastery_score score (set_status COMPLETED m))
    with (completed_with score m) by reflexivity.
  rewrite update_at_after.
  destruct post as [|nxt rest].
  - replace (length pre + 1 <? length (pre ++ [m]))%nat with false.
    + reflexivity.
    + symmetry. apply Nat.ltb_ge. rewrite length_app. cbn. lia.
  - replace (length pre + 1 <? length (pre ++ m :: nxt :: rest))%nat
      with true.
    + reflexivity.
    + symmetry. apply Nat.ltb_lt. rewrite length_app. cbn. lia.
Qed.

Lemma first_match_split (module_id : Z) (ms : list Module_) :
  Exists (fun m => id m = module_id) ms ->
  exists pre m post,
    ms = (pre ++ m :: post)%list
    /\ Forall (other_id module_id) pre
    /\ id m = module_id.
Proof.
  induction ms as [|x ms IH]; intros Hex.
  - inversion Hex.
  - destruct (Z.eq_dec (id x) module_id) as [Heq|Hneq].
    + exists [], x, ms. repeat split; [constructor | exact Heq].
    + inversion Hex as [? ? Hhere|? ? Hlater]; subst; [contradiction|].
      destruct (IH Hlater) as (pre & m & post & -> & Hpre & Hm).
      exists (x :: pre), m, post. repeat split; [|exact Hm].
      constructor; assumption.
Qed.

(** C4.  [complete_module]: the first module with the requested id
    becomes [COMPLETED] with [mastery_score = score]; the module right
    after it, if there is one, becomes [ACTIVE]; every other module and
    every other field of the plan is unchanged (nothing before the
    completed module changes, nothing beyond its immediate successor is
    unlocked).  When no module has the id the plan is returned unchanged;
    the call never raises. *)
Theorem complete_module_effect (p : LearningPlan) (module_id : Z)
  (score : Q) :
  (Exists (fun m => id m = module_id) (modules p) ->
   exists pre m post,
     modules p = (pre ++ m :: post)%list
     /\ Forall (other_id module_id) pre
     /\ id m = module_id
     /\ complete_module p module_id score
        = Build_LearningPlan (skill p) (level p)
            (pre
             ++ Build_Module (id m) (title m) COMPLETED (topics m)
                             (estimated_hours m) score
             :: match post with
                | [] => []
                | nxt :: rest =>
                    Build_Module (id nxt) (title nxt) ACTIVE (topics nxt)
                                 (estimated_hours nxt) (mastery_score nxt)
                    :: rest
                end)
            (created p))
  /\ (Forall (other_id module_id) (modules p) ->
      complete_module p module_id score = p).
Proof.
  split.
  - intros Hex.
    destruct (first_match_split module_id (modules p) Hex)
      as (pre & m & post & Hms & Hpre & Hm).
    exists pre, m, post. repeat split; try assumption.
    rewrite (complete_module_at p module_id score pre m post Hms Hpre Hm).
    destruct post; reflexivity.
  - intros Hnone. unfold complete_module.
    now rewrite (first_index_absent module_id (modules p) Hnone 0).
Qed.

End Plans.

Section Generation.
Context `{DatetimeLib}.

Lemma generate_learning_plan_eq (target_skill starting_level : string)
  (now : datetime) :
  exists t1 t2 t3,
    module_titles target_skill starting_level = [t1; t2; t3]
    /\ generate_learning_plan target_skill starting_level now
       = Ret (plan_of_titles target_skill starting_level t1 t2 t3 now).
Proof.
  unfold generate_learning_plan, module_titles.
  destruct (String.eqb starting_level "beginner");
    [|destruct (String.eqb starting_level "intermediate")];
    do 3 eexists; (split; [reflexivity|]); reflexivity.
Qed.

(** C6.  For every skill and every level string, [generate_learning_plan]
    returns a plan of exactly three modules with ids 1, 2, 3, the first
    [ACTIVE] and the other two [LOCKED], [estimated_hours] 4, 6, 8, three
    placeholder topics each and a zero mastery score; the titles are the
    beginner templates for level ["beginner"], the intermediate templates
    for ["intermediate"], and the expert templates for any other level. *)
Theorem generate_learning_plan_shape (target_skill starting_level : string)
  (now : datetime) :
  exists t1 t2 t3,
    generate_learning_plan target_skill starting_level now
    = Ret (Build_LearningPlan target_skill starting_level
             [Build_Module 1 t1 ACTIVE
                ["Topic 1"; "Topic 2"; "Topic 3"] 4 0%Q;
              Build_Module 2 t2 LOCKED
                ["Topic 1"; "Topic 2"; "Topic 3"] 6 0%Q;
              Build_Module 3 t3 LOCKED
                ["Topic 1"; "Topic 2"; "Topic 3"] 8 0%Q]
             now)
    /\ (starting_level = "beginner" ->
        [t1; t2; t3]
        = ["Foundations of " ++ target_skill;
           "Core Concepts in " ++ target_skill;
           "Practical Applications of " ++ target_skill])
    /\ (starting_level = "intermediate" ->
        [t1; t2; t3]
        = ["Advanced Concepts in " ++ target_skill;
           "Real-World " ++ target_skill ++ " Projects";
           "Mastering " ++ target_skill])
    /\ (starting_level <> "beginner" ->
        starting_level <> "intermediate" ->
        [t1; t2; t3]
        = ["Expert-Level " ++ target_skill;
           "Cutting-Edge " ++ target_skill ++ " Research";
           target_skill ++ " Innovation & Leadership"]).
Proof.
  destruct (generate_learning_plan_eq target_skill starting_level now)
    as (t1 & t2 & t3 & Htitles & Hplan).
  exists t1, t2, t3. split; [exact Hplan|].
  rewrite <- Htitles. unfold module_titles.
  repeat split.
  - intros ->. reflexivity.
  - intros ->. reflexivity.
  - intros Hb Hi.
    apply String.eqb_neq in Hb. apply String.eqb_neq in Hi.
    now rewrite Hb, Hi.
Qed.

End Generation.

(** ** Progression through a plan *)

Section Progression.
Context `{DatetimeLib}.

Lemma filter_none {A : Type} (f : A -> bool) (l : list A) :
  Forall (fun x => f x = false) l -> filter f l = [].
Proof.
  induction 1 as [|x l Hx Hl IH]; cbn; [reflexivity | now rewrite Hx].
Qed.

Lemma filter_all {A : Type} (f : A -> bool) (l : list A) :
  Forall (fun x => f x = true) l -> filter f l = l.
Proof.
  induction 1 as [|x l Hx Hl IH]; cbn; [reflexivity|].
  now rewrite Hx, IH.
Qed.

Lemma find_skip {A : Type} (f : A -> bool) (pre : list A) (rest : list A) :
  Forall (fun x => f x = false) pre -> find f (pre ++ rest) = find f rest.
Proof.
  induction 1 as [|x pre Hx Hpre IH]; cbn; [reflexivity | now rewrite Hx].
Qed.

Lemma find_absent {A : Type} (f : A -> bool) (l : list A) :
  Forall (fun x => f x = false) l -> find f l = None.
Proof.
  induction 1 as [|x l Hx Hl IH]; cbn; [reflexivity | now rewrite Hx].
Qed.

Lemma status_flags (st : ModuleStatus) (l : list Module_) :
  Forall (fun m => status m = st) l ->
  Forall (fun m => is_active m = ModuleStatus_eqb st ACTIVE) l
  /\ Forall (fun m => is_completed m = ModuleStatus_eqb st COMPLETED) l.
Proof.
  intros Hl. split; eapply Forall_impl; try exact Hl;
    intros m Hm; unfold is_active, is_completed; now rewrite Hm.
Qed.

Lemma final_completed_snoc (l : list Module_) (z : Module_) :
  final_completed (l ++ [z]) = is_completed z.
Proof. unfold final_completed. now rewrite rev_app_distr. Qed.

(** What a plan in a given stage looks like to an observer. *)
Lemma stage_observed (ms : list Module_) :
  stage ms ->
  length (filter is_active ms) = (if final_completed ms then 0 else 1)%nat
  /\ (final_completed ms = true <-> count_completed ms = length ms).
Proof.
  intros [done cur todo Hdone Hcur Htodo _|ms' Hne Hall].
  - destruct (status_flags _ _ Hdone) as [Hda Hdc].
    destruct (status_flags _ _ Htodo) as [Hta Htc].
    cbn in Hda, Hdc, Hta, Htc.
    assert (Hfin : final_completed (done ++ cur :: todo) = false).
    { destruct (exists_last (l := cur :: todo)) as (l' & z & Hlz);
        [discriminate|].
      assert (Hz : In z (cur :: todo))
        by (rewrite Hlz; apply in_or_app; right; now left).
      replace (done ++ cur :: todo)%list with ((done ++ l') ++ [z])%list
        by (rewrite <- app_assoc, <- Hlz; reflexivity).
      rewrite final_completed_snoc. unfold is_completed.
      destruct Hz as [<-|Hz]; [now rewrite Hcur|].
      rewrite Forall_forall in Htodo. now rewrite (Htodo z Hz). }
    assert (Hcc : count_completed (done ++ cur :: todo) = length done).
    { unfold count_completed. rewrite filter_app. cbn [filter].
      unfold is_completed at 2. rewrite Hcur. cbn [ModuleStatus_eqb].
      rewrite (filter_all _ _ Hdc), (filter_none _ _ Htc).
      now rewrite app_nil_r. }
    rewrite Hfin, Hcc. split.
    + rewrite filter_app. cbn [filter]. unfold is_active at 2.
      rewrite Hcur. cbn [ModuleStatus_eqb].
      rewrite (filter_none _ _ Hda), (filter_none _ _ Hta). reflexivity.
    + rewrite length_app. cbn [length]. split; [discriminate | lia].
  - destruct (status_flags _ _ Hall) as [Ha Hc]. cbn in Ha, Hc.
    assert (Hfin : final_completed ms' = true).
    { destruct (exists_last Hne) as (l' & z & ->).
      rewrite final_completed_snoc.
      rewrite Forall_forall in Hc. apply Hc.
      apply in_or_app. right. now left. }
    rewrite Hfin. unfold count_completed.
    rewrite (filter_none _ _ Ha), (filter_all _ _ Hc).
    split; [reflexivity | tauto].
Qed.

Lemma NoDup_ids_before (done : list Module_) (cur : Module_)
  (todo : list Module_) :
  NoDup (map id (done ++ cur :: todo)) ->
  Forall (other_id (id cur)) done.
Proof.
  intros Hnd. rewrite map_app in Hnd. cbn [map] in Hnd.
  apply NoDup_remove_2 in Hnd.
  apply Forall_forall. intros x Hx Heq. apply Hnd.
  apply in_or_app. left. rewrite <- Heq. now apply in_map.
Qed.

(** One call on a plan in progress: the active module is found, is
    completed, and the plan moves to the next stage with one more
    completed module. *)
Lemma stage_step (p : LearningPlan) (done : list Module_) (cur : Module_)
  (todo : list Module_) (score : Q) :
  modules p = (done ++ cur :: todo)%list ->
  Forall (fun m => status m = COMPLETED) done ->
  status cur = ACTIVE ->
  Forall (fun m => status m = LOCKED) todo ->
  NoDup (map id (done ++ cur :: todo)) ->
  get_active_module p = Some cur
  /\ stage (modules (complete_module p (id cur) score))
  /\ count_completed (modules (complete_module p (id cur) score))
     = S (count_completed (modules p))
  /\ length (modules (complete_module p (id cur) score))
     = length (modules p).
Proof.
  intros Hms Hdone Hcur Htodo Hnd.
  destruct (status_flags _ _ Hdone) as [Hda Hdc].
  destruct (status_flags _ _ Htodo) as [Hta Htc].
  cbn in Hda, Hdc, Hta, Htc.
  split.
  { unfold get_active_module. rewrite Hms.
    change (find is_active (done ++ cur :: todo) = Some cur).
    rewrite (find_skip _ done (cur :: todo) Hda). cbn [find].
    unfold is_active. now rewrite Hcur. }
  rewrite (complete_module_at p (id cur) score done cur todo Hms
             (NoDup_ids_before done cur todo Hnd) eq_refl).
  cbn [modules with_modules]. rewrite Hms.
  assert (Hdone' : Forall (fun m => status m = COMPLETED)
                          (done ++ [completed_with score cur])).
  { apply Forall_app. split; [exact Hdone|]. now constructor. }
  destruct (status_flags _ _ Hdone') as [_ Hdc']. cbn in Hdc'.
  split; [|split].
  - destruct todo as [|nxt rest]; cbn [unlock_first].
    + apply all_done; [now destruct done | exact Hdone'].
    + replace (done ++ completed_with score cur :: set_status ACTIVE nxt
               :: rest)%list
        with ((done ++ [completed_with score cur])
              ++ set_status ACTIVE nxt :: rest)%list
        by (now rewrite <- app_assoc).
      apply in_progress; [exact Hdone' | reflexivity | |].
      * now inversion Htodo.
      * rewrite <- app_assoc. cbn [app].
        rewrite map_app in *. exact Hnd.
  - assert (Hnew : is_completed (completed_with score cur) = true)
      by reflexivity.
    assert (Hold : is_completed cur = false)
      by (unfold is_completed; now rewrite Hcur).
    assert (Hunl : filter is_completed (unlock_first todo) = []).
    { destruct todo as [|nxt rest]; [reflexivity|].
      inversion Htc as [|? ? _ Hrest]; subst.
      cbn [unlock_first filter].
      replace (is_completed (set_status ACTIVE nxt)) with false
        by reflexivity.
      exact (filter_none _ _ Hrest). }
    unfold count_completed. rewrite !filter_app. cbn [filter].
    rewrite Hnew, Hold, Hunl, (filter_none _ _ Htc).
    rewrite !length_app. cbn [length]. lia.
  - rewrite !length_app. cbn [length].
    destruct todo; reflexivity.
Qed.

(** The stage is an invariant of every valid call sequence, which
    completes one more module per call. *)
Lemma progress_stage (calls : list (Z * Q)) :
  forall p p' : LearningPlan,
    stage (modules p) ->
    progress p calls = Some p' ->
    stage (modules p')
    /\ count_completed (modules p')
       = (count_completed (modules p) + length calls)%nat
    /\ length (modules p') = length (modules p).
Proof.
  induction calls as [|[module_id score] calls IH]; intros p p' Hst Hrun.
  - cbn in Hrun. inversion Hrun; subst. cbn [length].
    repeat split; [exact Hst | lia].
  - cbn [progress] in Hrun.
    remember (modules p) as ms eqn:Hms.
    destruct Hst as [done cur todo Hdone Hcur Htodo Hnd|ms Hne Hall].
    + destruct (stage_step p done cur todo score (eq_sym Hms)
                  Hdone Hcur Htodo Hnd) as (Hact & _).
      rewrite Hact in Hrun.
      destruct (id cur =? module_id) eqn:Hid; [|discriminate].
      apply Z.eqb_eq in Hid. subst module_id.
      destruct (stage_step p done cur todo score (eq_sym Hms)
                  Hdone Hcur Htodo Hnd) as (_ & Hst' & Hcnt & Hlen).
      destruct (IH _ _ Hst' Hrun) as (Hst'' & Hcnt' & Hlen').
      split; [exact Hst''|]. rewrite Hcnt', Hcnt, Hlen', Hlen, <- Hms.
      cbn [length]. split; lia.
    + destruct (status_flags _ _ Hall) as [Ha _]. cbn in Ha.
      unfold get_active_module in Hrun. rewrite <- Hms in Hrun.
      change (find (fun m => ModuleStatus_eqb (status m) ACTIVE) ms)
        with (find is_active ms) in Hrun.
      rewrite (find_absent _ _ Ha) in Hrun. discriminate.
Qed.

(** C5.  Starting from a generated plan, after any sequence of
    [complete_module] calls that each name the currently active module,
    at most one module is active: exactly one as long as the final module
    is not completed, none once it is, which is the case after the third
    call (and no further call is possible then). *)
Theorem generated_plan_single_active (target_skill starting_level : string)
  (now : datetime) (plan p' : LearningPlan) (calls : list (Z * Q)) :
  generate_learning_plan target_skill starting_level now = Ret plan ->
  progress plan calls = Some p' ->
  (count_active p' <= 1)%nat
  /\ count_active p'
     = (if final_completed (modules p') then 0 else 1)%nat
  /\ (final_completed (modules p') = true <-> length calls = 3%nat)
  /\ (length calls <= 3)%nat.
Proof.
  intros Hgen Hrun.
  destruct (generate_learning_plan_eq target_skill starting_level now)
    as (t1 & t2 & t3 & _ & Hplan).
  rewrite Hplan in Hgen. inversion Hgen; subst plan. clear Hgen.
  assert (Hst : stage (modules (plan_of_titles target_skill starting_level
                                               t1 t2 t3 now))).
  { cbn [modules plan_of_titles].
    apply (in_progress []); cbn.
    - constructor.
    - reflexivity.
    - repeat constructor.
    - repeat constructor; cbn; intuition discriminate. }
  destruct (progress_stage calls _ _ Hst Hrun) as (Hst' & Hcnt & Hlen).
  cbn in Hcnt, Hlen.
  destruct (stage_observed _ Hst') as [Hact Hfin].
  unfold count_active. rewrite Hact.
  assert (Hle : (count_completed (modules p') <= length (modules p'))%nat)
    by apply filter_length_le.
  repeat split.
  - destruct (final_completed (modules p')); lia.
  - intros Hf. apply Hfin in Hf. lia.
  - intros Hc. apply Hfin. lia.
  - lia.
Qed.

End Progression.

(** ** Conversion of a count to a [float] *)

Lemma digits2_size (p : positive) : SpecFloat.digits2_pos p = Pos.size p.
Proof. induction p; cbn; now rewrite ?IHp. Qed.

Lemma digits2_shift (p : positive) (k : positive) :
  SpecFloat.digits2_pos (Pos.iter xO p k)
  = (SpecFloat.digits2_pos p + k)%positive.
Proof.
  induction k as [|k IH] using Pos.peano_ind.
  - cbn. lia.
  - rewrite Pos.iter_succ. cbn [SpecFloat.digits2_pos]. rewrite IH. lia.
Qed.

Lemma size_below (p : positive) (k : Z) :
  0 <= k -> Zpos p < 2 ^ k -> Zpos (Pos.size p) <= k.
Proof.
  intros Hk Hp.
  destruct (Z.le_gt_cases (Zpos (Pos.size p)) k) as [Hle|Hgt]; [exact Hle|].
  exfalso.
  pose proof (Pos.size_le p) as Hs.
  assert (H2 : 2 ^ (k + 1) <= 2 ^ Zpos (Pos.size p))
    by (apply Z.pow_le_mono_r; lia).
  rewrite Z.pow_add_r in H2 by lia.
  assert (Hs' : 2 ^ Zpos (Pos.size p) <= Zpos p~0).
  { rewrite <- Pos2Z.inj_pow. apply Pos2Z.pos_le_pos. exact Hs. }
  rewrite Pos2Z.inj_xO in Hs'. lia.
Qed.

(** The [float] of a count below 2^53 is a finite, valid, non-zero
    [float]. *)
Lemma normalize_small (p : positive) :
  Zpos p < 2 ^ 53 ->
  exists (m : positive) (e : Z),
    SpecFloat.binary_normalize FloatOps.prec FloatOps.emax (Zpos p) 0 false
    = SpecFloat.S754_finite false m e
    /\ SpecFloat.valid_binary FloatOps.prec FloatOps.emax
         (SpecFloat.S754_finite false m e) = true.
Proof.
  intros Hp.
  pose proof (size_below p 53 ltac:(lia) Hp) as Hd.
  rewrite <- digits2_size in Hd.
  assert (Hd1 : 1 <= Zpos (SpecFloat.digits2_pos p)) by lia.
  set (d := SpecFloat.digits2_pos p) in *.
  cbn [SpecFloat.binary_normalize]. unfold SpecFloat.binary_round.
  rewrite Z.add_0_r. fold d.
  assert (Hfexp : forall x, 1 <= x <= 53 ->
            SpecFloat.fexp FloatOps.prec FloatOps.emax x = x - 53).
  { intros x Hx. unfold SpecFloat.fexp, SpecFloat.emin.
    change FloatOps.prec with 53. change FloatOps.emax with 1024. lia. }
  rewrite (Hfexp (Zpos d)) by lia.
  unfold SpecFloat.shl_align. rewrite Z.sub_0_r.
  assert (Haux : forall (m : positive) (e : Z),
            Zpos (SpecFloat.digits2_pos m) = 53 -> -52 <= e <= 0 ->
            SpecFloat.binary_round_aux FloatOps.prec FloatOps.emax
              false (Zpos m) e SpecFloat.loc_Exact
            = SpecFloat.S754_finite false m e
            /\ SpecFloat.valid_binary FloatOps.prec FloatOps.emax
                 (SpecFloat.S754_finite false m e) = true).
  { intros m e Hm He.
    assert (Hf : SpecFloat.fexp FloatOps.prec FloatOps.emax (53 + e) = e).
    { unfold SpecFloat.fexp, SpecFloat.emin.
      change FloatOps.prec with 53. change FloatOps.emax with 1024. lia. }
    unfold SpecFloat.binary_round_aux, SpecFloat.shr_fexp.
    cbn [SpecFloat.Zdigits2 SpecFloat.shr_record_of_loc].
    rewrite Hm, Hf, Z.sub_diag. cbn [SpecFloat.shr SpecFloat.shr_m
      SpecFloat.loc_of_shr_record SpecFloat.round_nearest_even
      SpecFloat.Zdigits2 SpecFloat.shr_record_of_loc].
    rewrite Hm, Hf, Z.sub_diag. cbn [SpecFloat.shr SpecFloat.shr_m].
    change (FloatOps.emax - FloatOps.prec) with 971.
    replace (e <=? 971) with true by (symmetry; apply Z.leb_le; lia).
    split; [reflexivity|].
    unfold SpecFloat.valid_binary, SpecFloat.bounded,
      SpecFloat.canonical_mantissa.
    rewrite Hm, Hf, Z.eqb_refl.
    change (FloatOps.emax - FloatOps.prec) with 971.
    replace (e <=? 971) with true by (symmetry; apply Z.leb_le; lia).
    reflexivity. }
  destruct (Zpos d - 53) as [|k|k] eqn:Hk.
  - exists p, 0. rewrite <- Hk at 1. 
    replace (Zpos d - 53) with 0 by lia.
    apply Haux; [fold d; lia | lia].
  - lia.
  - exists (Pos.iter xO p k), (Zneg k). apply Haux.
    + rewrite digits2_shift. fold d. lia.
    + lia.
Qed.

Lemma float_of_count (n : Z) :
  0 < n < 2 ^ 53 ->
  exists g : float, float_of_int n = Ret g /\ is_zero g = false.
Proof.
  intros Hn. destruct n as [|p|p]; try lia.
  destruct (normalize_small p (proj2 Hn)) as (m & e & Hnorm & Hvalid).
  unfold float_of_int. rewrite Hnorm. cbn [to_float].
  eexists. split; [reflexivity|].
  unfold is_zero. rewrite FloatAxioms.eqb_spec.
  rewrite (FloatAxioms.Prim2SF_SF2Prim _ Hvalid).
  reflexivity.
Qed.

(** A sum of floats never raises. *)
Lemma sum_from_floats (xs : list num) (acc : float) :
  Forall is_float xs -> exists s : float, sum_from (Float acc) xs = Ret (Float s).
Proof.
  intros Hxs. revert acc.
  induction Hxs as [|x xs Hx Hxs IH]; intros acc.
  - exists acc. reflexivity.
  - destruct x as [z|f]; [contradiction|]. cbn [sum_from add as_float].
    apply IH.
Qed.

Lemma sum_floats (xs : list num) :
  xs <> [] -> Forall is_float xs -> exists s : float, sum xs = Ret (Float s).
Proof.
  intros Hne Hxs. destruct xs as [|x xs]; [contradiction|].
  inversion Hxs as [|? ? Hx Hrest]; subst.
  destruct x as [z|f]; [contradiction|].
  unfold sum. cbn [sum_from add as_float].
  change (float_of_int 0) with (Ret 0%float).
  now apply sum_from_floats.
Qed.

(** The mean of fewer than 2^53 floats never raises. *)
Lemma mean_floats (xs : list num) :
  xs <> [] -> Forall is_float xs -> Z.of_nat (length xs) < 2 ^ 53 ->
  exists avg : float, mean xs = Ret avg.
Proof.
  intros Hne Hxs Hlen.
  destruct (sum_floats xs Hne Hxs) as [s Hs].
  assert (Hpos : 0 < Z.of_nat (length xs))
    by (destruct xs; [contradiction | cbn [length]; lia]).
  destruct (float_of_count _ (conj Hpos Hlen)) as (g & Hg & Hz).
  unfold mean. rewrite Hs. cbn [truediv as_float]. rewrite Hg, Hz.
  eexists. reflexivity.
Qed.

(** ** Profile aggregation *)

Lemma Dict_get_set_same {V : Type} (k : string) (v : V) (d : Dict.t V) :
  Dict.get k (Dict.set k v d) = Some v.
Proof.
  induction d as [|[k' v'] d IH]; cbn.
  - now rewrite String.eqb_refl.
  - destruct (String.eqb k k') eqn:E; cbn; now rewrite E.
Qed.

Lemma Dict_get_set_other {V : Type} (k k0 : string) (v : V) (d : Dict.t V) :
  k0 <> k -> Dict.get k0 (Dict.set k v d) = Dict.get k0 d.
Proof.
  intros Hneq. apply String.eqb_neq in Hneq.
  induction d as [|[k' v'] d IH]; cbn.
  - now rewrite Hneq.
  - destruct (String.eqb k k') eqn:E; cbn.
    + apply String.eqb_eq in E. subst k'. now rewrite Hneq.
    + now rewrite IH.
Qed.

Lemma Dict_set_set {V : Type} (k : string) (v1 v2 : V) (d : Dict.t V) :
  Dict.set k v2 (Dict.set k v1 d) = Dict.set k v2 d.
Proof.
  induction d as [|[k' v'] d IH]; cbn.
  - now rewrite String.eqb_refl.
  - destruct (String.eqb k k') eqn:E; cbn; rewrite E; [reflexivity|].
    now rewrite IH.
Qed.

Lemma Dict_contains_get {V : Type} (k : string) (d : Dict.t V) :
  Dict.contains k d = match Dict.get k d with Some _ => true | None => false end.
Proof.
  induction d as [|[k' v'] d IH]; cbn; [reflexivity|].
  now destruct (String.eqb k k').
Qed.


(** Replacing the entry of [k]: the scores of the profile change by the
    scores of that entry only. *)
Lemma all_scores_set (k : string) (sd' : SkillData.t)
  (d : Dict.t SkillData.t) :
  Permutation
    (all_scores (Dict.set k sd' d) ++ map Completion.score (recorded k d))
    (all_scores d ++ SkillData.scores sd').
Proof.
  unfold all_scores, recorded, Dict.values.
  induction d as [|[k' v'] d IH]; cbn [Dict.set Dict.get].
  - cbn [map flat_map snd]. rewrite !app_nil_r. apply Permutation_refl.
  - destruct (String.eqb k k') eqn:E; cbn [map flat_map snd].
    + change (map Completion.score (SkillData.modules v'))
        with (SkillData.scores v').
      rewrite <- !app_assoc.
      eapply Permutation_trans; [apply Permutation_app_comm|].
      rewrite (app_assoc (SkillData.scores v')).
      apply Permutation_app_tail, Permutation_app_comm.
    + rewrite <- !app_assoc. apply Permutation_app_head. exact IH.
Qed.

Lemma all_scores_grow (k : string) (d : Dict.t SkillData.t)
  (e : Completion.t) (avg : num) :
  Permutation
    (all_scores (Dict.set k (SkillData.Build (recorded k d ++ [e]) avg) d))
    (all_scores d ++ [Completion.score e]).
Proof.
  pose proof (all_scores_set k (SkillData.Build (recorded k d ++ [e]) avg) d)
    as Hp.
  unfold SkillData.scores in Hp. cbn [SkillData.modules] in Hp.
  rewrite map_app in Hp. cbn [map] in Hp.
  apply (Permutation_app_inv_r (map Completion.score (recorded k d))).
  eapply Permutation_trans; [exact Hp|].
  rewrite <- !app_assoc. apply Permutation_app_head, Permutation_app_comm.
Qed.

Lemma recorded_scores_in_all (k : string) (d : Dict.t SkillData.t)
  (x : num) :
  In x (map Completion.score (recorded k d)) -> In x (all_scores d).
Proof.
  unfold recorded, all_scores, Dict.values.
  induction d as [|[k' v'] d IH]; cbn [Dict.get map flat_map snd];
    [intros []|].
  intros Hin. apply in_or_app.
  destruct (String.eqb k k'); [left; exact Hin | right; now apply IH].
Qed.

Lemma recorded_length (k : string) (d : Dict.t SkillData.t) :
  (length (recorded k d) <= length (all_scores d))%nat.
Proof.
  unfold recorded, all_scores, Dict.values.
  induction d as [|[k' v'] d IH]; cbn [Dict.get map flat_map snd length];
    [lia|].
  rewrite length_app. unfold SkillData.scores at 1. rewrite length_map.
  destruct (String.eqb k k'); lia.
Qed.

Section Aggregation.
Context `{DatetimeLib}.

(** [update_skill_progress] in closed form: the three ways it can
    end. *)
Lemma update_skill_progress_eq (p : UserProfile)
  (skill module_title : string) (score : num)
  (t_completed t_updated : datetime) :
  let entry := Completion.Build module_title score (isoformat t_completed) in
  let new := (recorded skill (skills p) ++ [entry])%list in
  update_skill_progress p skill module_title score t_completed t_updated
  = match mean (map Completion.score new) with
    | Raise e =>
        Raised
          (set_skills
             (Dict.set skill
                (SkillData.Build new (held_avg skill (skills p)))
                (skills p))
             p)
          e
    | Ret avg =>
        let sk' :=
          Dict.set skill (SkillData.Build new (Float avg)) (skills p) in
        match mean (all_scores sk') with
        | Raise e =>
            Raised
              (Build_UserProfile (user_id p) sk'
                 (total_modules_completed p + 1) (overall_avg_score p)
                 t_updated)
              e
        | Ret overall =>
            Returned
              (Build_UserProfile (user_id p) sk'
                 (total_modules_completed p + 1) overall t_updated)
        end
    end.
Proof.
  intros entry new.
  assert (Hall : forall avg,
            all_scores
              (Dict.set skill (SkillData.Build new (Float avg)) (skills p))
            <> []).
  { intros avg Hnil.
    pose proof (all_scores_grow skill (skills p) entry (Float avg)) as Hp.
    fold new in Hp. rewrite Hnil in Hp.
    apply Permutation_nil in Hp. now destruct (all_scores (skills p)). }
  unfold update_skill_progress. rewrite Dict_contains_get.
  unfold recorded, held_avg in *. unfold Dict.getitem.
  destruct (Dict.get skill (skills p)) as [sd|] eqn:Hget; cbn [negb].
  - rewrite Hget. cbn [attempt]. cbn [skills set_skills].
    rewrite Dict_get_set_same. cbn [attempt].
    unfold SkillData.scores. cbn [SkillData.modules SkillData.avg_score].
    fold entry. fold new.
    destruct (mean (map Completion.score new)) as [avg|e]; cbn [attempt];
      [|reflexivity].
    cbn [skills set_skills set_total_modules_completed set_last_updated
         total_modules_completed user_id overall_avg_score last_updated].
    rewrite Dict_set_set. specialize (Hall avg).
    destruct (all_scores
                (Dict.set skill (SkillData.Build new (Float avg)) (skills p)))
      as [|x xs] eqn:Has; [contradiction|].
    destruct (mean (x :: xs)); reflexivity.
  - cbn [skills set_skills]. rewrite Dict_get_set_same. cbn [attempt].
    cbn [skills set_skills SkillData.modules SkillData.avg_score app].
    rewrite Dict_get_set_same. cbn [attempt].
    unfold SkillData.scores. cbn [SkillData.modules app].
    fold entry. change [entry] with new. rewrite Dict_set_set.
    destruct (mean (map Completion.score new)) as [avg|e]; cbn [attempt];
      [|reflexivity].
    cbn [skills set_skills set_total_modules_completed set_last_updated
         total_modules_completed user_id overall_avg_score last_updated].
    rewrite !Dict_set_set. specialize (Hall avg).
    destruct (all_scores
                (Dict.set skill (SkillData.Build new (Float avg)) (skills p)))
      as [|x xs] eqn:Has; [contradiction|].
    destruct (mean (x :: xs)); reflexivity.
Qed.

(** With float scores only, fewer than 2^53 of them, neither quotient
    raises and the call returns. *)
Lemma update_skill_progress_floats (p : UserProfile)
  (skill module_title : string) (score : num)
  (t_completed t_updated : datetime) :
  is_float score ->
  Forall is_float (all_scores (skills p)) ->
  Z.of_nat (length (all_scores (skills p))) < 2 ^ 53 - 1 ->
  exists avg overall : float,
    let entry := Completion.Build module_title score (isoformat t_completed) in
    let new := (recorded skill (skills p) ++ [entry])%list in
    let sk' := Dict.set skill (SkillData.Build new (Float avg)) (skills p) in
    mean (map Completion.score new) = Ret avg
    /\ mean (all_scores sk') = Ret overall
    /\ Forall is_float (all_scores sk')
    /\ update_skill_progress p skill module_title score t_completed t_updated
       = Returned
           (Build_UserProfile (user_id p) sk'
              (total_modules_completed p + 1) overall t_updated).
Proof.
  intros Hscore Hall Hlen.
  pose proof (update_skill_progress_eq p skill module_title score
                t_completed t_updated) as Heq.
  cbv zeta in Heq.
  set (entry := Completion.Build module_title score (isoformat t_completed))
    in *.
  set (new := (recorded skill (skills p) ++ [entry])%list) in *.
  assert (Hnew : Forall is_float (map Completion.score new)).
  { unfold new. rewrite map_app. apply Forall_app. split.
    - apply Forall_forall. intros x Hx.
      apply recorded_scores_in_all in Hx.
      rewrite Forall_forall in Hall. now apply Hall.
    - constructor; [exact Hscore | constructor]. }
  assert (Hnew_len : Z.of_nat (length (map Completion.score new)) < 2 ^ 53).
  { unfold new. rewrite length_map, length_app. cbn [length].
    pose proof (recorded_length skill (skills p)). lia. }
  assert (Hnew_ne : map Completion.score new <> []).
  { unfold new. rewrite map_app. cbn [map].
    intros Hnil. now apply app_eq_nil in Hnil as [_ Hnil]. }
  destruct (mean_floats _ Hnew_ne Hnew Hnew_len) as [avg Havg].
  rewrite Havg in Heq.
  pose proof (all_scores_grow skill (skills p) entry (Float avg)) as Hperm.
  fold new in Hperm. cbn [Completion.score entry] in Hperm.
  set (sk' := Dict.set skill (SkillData.Build new (Float avg)) (skills p))
    in *.
  assert (Hall' : Forall is_float (all_scores sk')).
  { apply (Permutation_Forall (Permutation_sym Hperm)).
    apply Forall_app. split; [exact Hall|].
    constructor; [exact Hscore | constructor]. }
  assert (Hlen' : Z.of_nat (length (all_scores sk')) < 2 ^ 53).
  { rewrite (Permutation_length Hperm), length_app. cbn [length]. lia. }
  assert (Hne' : all_scores sk' <> []).
  { intros Hnil. rewrite Hnil in Hperm. apply Permutation_nil in Hperm.
    now destruct (all_scores (skills p)). }
  destruct (mean_floats _ Hne' Hall' Hlen') as [overall Ho].
  rewrite Ho in Heq. exists avg, overall. cbv zeta.
  fold entry. fold new. fold sk'. auto.
Qed.

End Aggregation.

Lemma mean_80 : mean [Int 80] = Ret 80%float.
Proof. vm_compute. reflexivity. Qed.

Lemma mean_80_90 : mean [Int 80; Int 90] = Ret 85%float.
Proof. vm_compute. reflexivity. Qed.

Section AggregationClaim.
Context `{DatetimeLib}.

(** C2 (as amended).  [update_skill_progress] (the spec's
    [record_completion]) first appends the new
    [{title, score, completed_at}] record to the skill's module list
    (created empty, with [avg_score] 0.0, if the skill was absent).

    - If [sum(scores) / len(scores)] over that list raises (an [int]
      score too large for a [float]), the call raises the same exception
      and leaves the record appended, with [avg_score], the counter, the
      overall average and the timestamp as they were.
    - Otherwise the skill's [avg_score] becomes that quotient, the mean
      of all scores of the list as binary64 arithmetic gives it;
      [total_modules_completed] grows by exactly 1, [last_updated] is
      set, other skills are untouched, and [overall_avg_score] becomes
      the quotient over every score across every skill of the updated
      profile, the previous scores together with the new one; if that
      quotient raises, the call raises with the overall average as it
      was.
    - When the new score and all recorded scores are floats (fewer than
      2^53 of them), the call returns.

    Two calls for one skill with scores 80 and 90 on a fresh profile give
    [avg_score = 85.0]. *)
Theorem update_skill_progress_effect (p : UserProfile)
  (skill module_title : string) (score : num)
  (t_completed t_updated : datetime) :
  exists new : list Completion.t,
    new = (recorded skill (skills p)
           ++ [Completion.Build module_title score (isoformat t_completed)])%list
    /\ (forall e : exn,
          mean (map Completion.score new) = Raise e ->
          update_skill_progress p skill module_title score
            t_completed t_updated
          = Raised
              (set_skills
                 (Dict.set skill
                    (SkillData.Build new (held_avg skill (skills p)))
                    (skills p))
                 p)
              e)
    /\ (forall (avg : float) (sk' : Dict.t SkillData.t),
          mean (map Completion.score new) = Ret avg ->
          sk' = Dict.set skill (SkillData.Build new (Float avg)) (skills p) ->
          Dict.get skill sk' = Some (SkillData.Build new (Float avg))
          /\ (forall other : string,
                other <> skill ->
                Dict.get other sk' = Dict.get other (skills p))
          /\ Permutation (all_scores sk') (all_scores (skills p) ++ [score])
          /\ (forall e : exn,
                mean (all_scores sk') = Raise e ->
                update_skill_progress p skill module_title score
                  t_completed t_updated
                = Raised
                    (Build_UserProfile (user_id p) sk'
                       (total_modules_completed p + 1)
                       (overall_avg_score p) t_updated)
                    e)
          /\ (forall overall : float,
                mean (all_scores sk') = Ret overall ->
                update_skill_progress p skill module_title score
                  t_completed t_updated
                = Returned
                    (Build_UserProfile (user_id p) sk'
                       (total_modules_completed p + 1) overall t_updated)))
    /\ (is_float score ->
        Forall is_float (all_scores (skills p)) ->
        Z.of_nat (length (all_scores (skills p))) < 2 ^ 53 - 1 ->
        exists p' : UserProfile,
          update_skill_progress p skill module_title score
            t_completed t_updated
          = Returned p')
    /\ (forall (uid m1 m2 : string) (t0 t1 t2 t3 t4 : datetime),
        exists p1 p2 : UserProfile,
          update_skill_progress (new_UserProfile uid t0) skill m1 (Int 80)
            t1 t2
          = Returned p1
          /\ update_skill_progress p1 skill m2 (Int 90) t3 t4 = Returned p2
          /\ option_map SkillData.avg_score (Dict.get skill (skills p2))
             = Some (Float 85)
          /\ total_modules_completed p2 = 2
          /\ overall_avg_score p2 = 85%float).
Proof.
  pose proof (update_skill_progress_eq p skill module_title score
                t_completed t_updated) as Heq.
  cbv zeta in Heq.
  set (entry := Completion.Build module_title score (isoformat t_completed))
    in *.
  set (new := (recorded skill (skills p) ++ [entry])%list) in *.
  exists new. split; [reflexivity|].
  split; [|split; [|split]].
  - intros e He. rewrite Heq, He. reflexivity.
  - intros avg sk' Havg ->. rewrite Havg in Heq.
    split; [apply Dict_get_set_same|].
    split; [intros other Hother; now apply Dict_get_set_other|].
    split; [apply (all_scores_grow skill (skills p) entry)|].
    split.
    + intros e He. rewrite Heq, He. reflexivity.
    + intros overall Ho. rewrite Heq, Ho. reflexivity.
  - intros Hscore Hall Hlen.
    destruct (update_skill_progress_floats p skill module_title score
                t_completed t_updated Hscore Hall Hlen)
      as (avg & overall & _ & _ & _ & Hret).
    eexists. exact Hret.
  - intros uid m1 m2 t0 t1 t2 t3 t4.
    rewrite update_skill_progress_eq. cbv zeta.
    cbn [new_UserProfile skills user_id total_modules_completed
         overall_avg_score].
    change (recorded skill []) with (@nil Completion.t).
    cbn [app map Completion.score Dict.set all_scores Dict.values
         flat_map snd SkillData.scores SkillData.modules].
    rewrite !mean_80. eexists. eexists. split; [reflexivity|].
    rewrite update_skill_progress_eq. cbv zeta.
    cbn [skills user_id total_modules_completed overall_avg_score].
    unfold recorded. cbn [Dict.get Dict.set]. rewrite String.eqb_refl.
    cbn [SkillData.modules app map Completion.score].
    cbn [all_scores Dict.values flat_map snd SkillData.scores
         SkillData.modules map Completion.score app].
    rewrite !mean_80_90.
    split; [reflexivity|].
    cbn [skills total_modules_completed overall_avg_score Dict.get].
    rewrite String.eqb_refl. repeat split.
Qed.

End AggregationClaim.

(** C2, as stated, fails: for an [int] score too large for a [float]
    the call raises [OverflowError]; the record has been appended by
    then, but the skill's [avg_score], [total_modules_completed] and
    [overall_avg_score] are what they were. *)
Lemma update_skill_progress_overflows :
  exists q : @UserProfile text_datetime,
    @update_skill_progress text_datetime demo_profile "python"
      "Advanced Python" (Int (10 ^ 400)) "2024-01-04T10:00:00"
      "2024-01-04 10:00:00"
    = Raised q OverflowError
    /\ map Completion.score (recorded "python" (skills q))
       = [Float 80; Float 90; Int (10 ^ 400)]
    /\ held_avg "python" (skills q) = Float 85
    /\ total_modules_completed q = total_modules_completed demo_profile
    /\ overall_avg_score q = overall_avg_score demo_profile.
Proof. eexists. split; [vm_compute; reflexivity|]. repeat split. Qed.

(** The mean is the mean of binary64 arithmetic: three scores of 0.1
    average to 0.10000000000000002, not to 0.1. *)
Example mean_is_rounded :
  mean [Float 0.1; Float 0.1; Float 0.1] = Ret 0.10000000000000002%float
  /\ (0.1 <? 0.10000000000000002)%float = true.
Proof. split; vm_compute; reflexivity. Qed.

(** ** The storage key of a user id *)

Lemma split_slash_plain (s : string) :
  has_char "/" s = false -> split_slash s = [s].
Proof.
  induction s as [|c s IH]; cbn [has_char split_slash]; [reflexivity|].
  intros Hs. apply orb_false_elim in Hs as [Hc Hs].
  rewrite Ascii.eqb_sym in Hc. rewrite Hc. now rewrite (IH Hs).
Qed.

Lemma split_slash_component (w r : string) :
  has_char "/" w = false ->
  split_slash (w ++ String "/" r) = w :: split_slash r.
Proof.
  induction w as [|c w IH]; cbn [has_char split_slash append].
  - intros _. reflexivity.
  - intros Hw. apply orb_false_elim in Hw as [Hc Hw].
    rewrite Ascii.eqb_sym in Hc. rewrite Hc. now rewrite (IH Hw).
Qed.

Lemma has_char_append (c : ascii) (a b : string) :
  has_char c (a ++ b) = has_char c a || has_char c b.
Proof.
  induction a as [|x a IH]; cbn [has_char append]; [reflexivity|].
  now rewrite IH, orb_assoc.
Qed.

Lemma length_append (a b : string) :
  String.length (a ++ b) = (String.length a + String.length b)%nat.
Proof. induction a as [|x a IH]; cbn; [reflexivity | now rewrite IH]. Qed.

Lemma append_inj_l (a b s : string) : a ++ s = b ++ s -> a = b.
Proof.
  revert b. induction a as [|x a IH]; intros [|y b] Heq; cbn in Heq.
  - reflexivity.
  - apply (f_equal String.length) in Heq. cbn in Heq.
    rewrite length_append in Heq. lia.
  - apply (f_equal String.length) in Heq. cbn in Heq.
    rewrite length_append in Heq. lia.
  - inversion Heq. f_equal. now apply IH.
Qed.

(** The file name built from a slash-free user id is one ordinary path
    component. *)
Lemma file_name_component (user_id : string) :
  has_char "/" user_id = false ->
  has_char "/" (user_id ++ ".json") = false
  /\ keep_part (user_id ++ ".json") = true
  /\ String.eqb (user_id ++ ".json") ".." = false.
Proof.
  intros Hs.
  assert (Hlen : (2 < String.length (user_id ++ ".json"))%nat)
    by (rewrite length_append; cbn; lia).
  split; [|split].
  - rewrite has_char_append, Hs. reflexivity.
  - unfold keep_part.
    destruct (String.eqb_spec (user_id ++ ".json") "") as [E|_];
      [rewrite E in Hlen; cbn in Hlen; lia|].
    destruct (String.eqb_spec (user_id ++ ".json") ".") as [E|_];
      [rewrite E in Hlen; cbn in Hlen; lia|].
    reflexivity.
  - destruct (String.eqb_spec (user_id ++ ".json") "..") as [E|_];
      [rewrite E in Hlen; cbn in Hlen; lia|].
    reflexivity.
Qed.

Lemma profile_path_plain (user_id : string) :
  has_char "/" user_id = false ->
  _get_profile_path user_id
  = Build_Path Relative ["data"; "user_profiles"; user_id ++ ".json"].
Proof.
  intros Hs. destruct (file_name_component user_id Hs) as (Hn & Hk & _).
  unfold _get_profile_path, joinpath.
  change (str_of_path storage_path) with "data/user_profiles".
  assert (Hjoin : posix_join "data/user_profiles" (user_id ++ ".json")
                  = "data" ++ String "/" ("user_profiles"
                      ++ String "/" (user_id ++ ".json"))).
  { unfold posix_join.
    destruct user_id as [|c u]; [reflexivity|].
    cbn in Hs. apply orb_false_elim in Hs as [Hc _].
    cbn [append].
    destruct c as [[] [] [] [] [] [] [] []]; try reflexivity.
    discriminate Hc. }
  rewrite Hjoin. unfold parse_path.
  change (splitroot ("data" ++ String "/" ("user_profiles"
                       ++ String "/" (user_id ++ ".json"))))
    with (Relative, "data" ++ String "/" ("user_profiles"
                       ++ String "/" (user_id ++ ".json"))).
  cbv iota beta.
  rewrite split_slash_component by reflexivity.
  rewrite split_slash_component by reflexivity.
  rewrite (split_slash_plain _ Hn).
  cbn [filter]. change (keep_part "data") with true.
  change (keep_part "user_profiles") with true. rewrite Hk. reflexivity.
Qed.

(** C9 (as amended).  [_get_profile_path] uses the user id verbatim: it
    appends [".json"] and joins the result onto the storage directory.
    For user ids that contain no ["/"], the key is the single component
    [user_id + ".json"] directly inside the storage directory, and
    distinct ids have distinct keys. *)
Theorem profile_path_slash_free (cwd : list string)
  (user_id other_id : string) :
  has_char "/" user_id = false ->
  has_char "/" other_id = false ->
  _get_profile_path user_id
  = Build_Path Relative ["data"; "user_profiles"; user_id ++ ".json"]
  /\ resolve cwd (_get_profile_path user_id)
     = (resolve cwd storage_path ++ [(user_id ++ ".json")%string])%list
  /\ inside cwd storage_path (_get_profile_path user_id) = true
  /\ (_get_profile_path user_id = _get_profile_path other_id ->
      user_id = other_id).
Proof.
  intros Hu Ho.
  destruct (file_name_component user_id Hu) as (_ & _ & Hdd).
  rewrite (profile_path_plain user_id Hu).
  assert (Hres : resolve cwd (Build_Path Relative
                   ["data"; "user_profiles"; user_id ++ ".json"])
                 = (resolve cwd storage_path ++ [(user_id ++ ".json")%string])%list).
  { unfold resolve. cbn [root parts storage_path parse_path].
    change (parts storage_path) with ["data"; "user_profiles"].
    change (root storage_path) with Relative.
    cbn [resolve_from]. change (String.eqb "data" "..") with false.
    change (String.eqb "user_profiles" "..") with false.
    now rewrite Hdd. }
  split; [reflexivity|]. split; [exact Hres|]. split.
  - unfold inside. rewrite Hres. apply andb_true_intro. split.
    + generalize (resolve cwd storage_path) as l.
      induction l as [|x l IH]; cbn; [reflexivity|].
      now rewrite String.eqb_refl.
    + apply Nat.ltb_lt. rewrite length_app. cbn. lia.
  - rewrite (profile_path_plain other_id Ho). intros Heq.
    inversion Heq as [Hname]. now apply append_inj_l in Hname.
Qed.

Lemma profile_path_slash_free_witness :
  _get_profile_path "alice"
  = Build_Path Relative ["data"; "user_profiles"; "alice" ++ ".json"]
  /\ resolve ["srv"; "app"] (_get_profile_path "alice")
     = (resolve ["srv"; "app"] storage_path
        ++ [("alice" ++ ".json")%string])%list
  /\ inside ["srv"; "app"] storage_path (_get_profile_path "alice") = true
  /\ (_get_profile_path "alice" = _get_profile_path "bob" ->
      "alice" = "bob").
Proof.
  apply (profile_path_slash_free ["srv"; "app"] "alice" "bob");
    reflexivity.
Defined.

(** C9, as stated, fails: a user id with ["../"] leaves the storage
    directory, two distinct user ids can share one key, and a user id
    that starts with ["/"] discards the storage directory altogether. *)
Lemma profile_path_escapes_and_collides :
  inside ["srv"; "app"] storage_path (_get_profile_path "../x") = false
  /\ resolve ["srv"; "app"] (_get_profile_path "../x")
     = ["srv"; "app"; "data"; "x.json"]
  /\ "a/b" <> "a//b"
  /\ _get_profile_path "a/b" = _get_profile_path "a//b"
  /\ _get_profile_path "/etc/x" = Build_Path Root ["etc"; "x.json"].
Proof. repeat split. discriminate. Qed.

(** ** Saving and loading a profile *)

Section Persistence.
Context `{DatetimeLib}.

Lemma mapM_map_inverse {A B : Type} (g : A -> B) (f : B -> res A)
  (l : list A) :
  (forall x, In x l -> f (g x) = Ret x) -> mapM f (map g l) = Ret l.
Proof.
  induction l as [|x l IH]; intros Hinv; cbn [map mapM]; [reflexivity|].
  rewrite (Hinv x (or_introl eq_refl)). cbn [bind].
  rewrite IH by (intros y Hy; apply Hinv; now right).
  reflexivity.
Qed.

Lemma loaded_number_dumped (x : num) :
  loaded_number (to_json (PNum x)) = Ret x.
Proof. destruct x; reflexivity. Qed.

Lemma load_dumped_completion (c : Completion.t) :
  load_completion (to_json (dump_completion c)) = Ret c.
Proof.
  destruct c as [t x d]. unfold dump_completion.
  cbn [to_json map fst snd Completion.title Completion.score
       Completion.completed_at load_completion].
  rewrite loaded_number_dumped. reflexivity.
Qed.

Lemma load_dumped_skill (sd : SkillData.t) :
  load_skill (to_json (dump_skill sd)) = Ret sd.
Proof.
  destruct sd as [ms avg]. unfold dump_skill.
  cbn [to_json map fst snd SkillData.modules SkillData.avg_score].
  unfold load_skill. rewrite map_map.
  rewrite mapM_map_inverse
    by (intros c _; apply load_dumped_completion).
  cbn [bind]. rewrite loaded_number_dumped. reflexivity.
Qed.

Lemma load_dumped_skills (sk : Dict.t SkillData.t) :
  as_skills
    (to_json (PDict (map (fun kv => (fst kv, dump_skill (snd kv))) sk)))
  = Ret sk.
Proof.
  cbn [to_json as_skills]. rewrite map_map.
  apply mapM_map_inverse. intros [k sd] _. cbn [fst snd].
  now rewrite load_dumped_skill.
Qed.

(** Validation reads back what [model_dump] and [json.dump] wrote. *)
Lemma validate_dumped (p : UserProfile) (now : datetime) :
  exists d,
    parse_datetime (datetime_str (last_updated p)) = Some d
    /\ validate_UserProfile (to_json (model_dump p)) now
       = Ret (Build_UserProfile (user_id p) (skills p)
                (total_modules_completed p) (overall_avg_score p) d).
Proof.
  destruct (parse_datetime (datetime_str (last_updated p))) as [d|] eqn:Hd;
    [|now apply parse_datetime_str in Hd].
  exists d. split; [reflexivity|].
  pose proof (load_dumped_skills (skills p)) as Hsk.
  unfold model_dump. cbn [to_json map fst snd] in *.
  unfold validate_UserProfile, field. cbn [Dict.get].
  repeat match goal with
         | |- context [String.eqb ?a ?b] =>
             let v := eval vm_compute in (String.eqb a b) in
             change (String.eqb a b) with v
         end.
  cbv iota. rewrite Hsk. cbn [as_str as_int as_number as_datetime].
  rewrite Hd. reflexivity.
Qed.

Lemma path_eqb_refl (a : list string) : FS.path_eqb a a = true.
Proof. unfold FS.path_eqb. now destruct (list_eq_dec string_dec a a). Qed.

Lemma lookup_store (tgt : list string) (doc : json)
  (fl : list (list string * json)) :
  FS.lookup tgt (FS.store tgt doc fl) = Some doc.
Proof.
  induction fl as [|[p' c'] fl IH]; cbn.
  - now rewrite path_eqb_refl.
  - destruct (FS.path_eqb tgt p') eqn:E; cbn; now rewrite E.
Qed.

(** Resolution depends on the directories only. *)
Lemma walk_same_dirs (fs fs' : FS.t) (comps : list string) :
  FS.dirs fs' = FS.dirs fs ->
  forall (cur tgt : list string),
    FS.walk fs cur comps = Ret tgt -> FS.walk fs' cur comps = Ret tgt.
Proof.
  intros Hd.
  assert (Hdir : forall q, FS.is_dir fs' q = FS.is_dir fs q)
    by (intros q; unfold FS.is_dir; now rewrite Hd).
  induction comps as [|c comps IH]; intros cur tgt Hw; [exact Hw|].
  cbn [FS.walk] in *. destruct comps as [|c' comps]; [exact Hw|].
  rewrite Hdir.
  destruct (FS.is_dir fs _); [now apply IH|].
  destruct (FS.is_file fs _); discriminate.
Qed.

Lemma locate_same_dirs (fs fs' : FS.t) (p : Path) (tgt : list string) :
  FS.dirs fs' = FS.dirs fs ->
  FS.cwd fs' = FS.cwd fs ->
  FS.locate fs p = Ret tgt -> FS.locate fs' p = Ret tgt.
Proof.
  intros Hd Hc. unfold FS.locate. rewrite Hc.
  destruct (has_char Ascii.zero (str_of_path p)); [discriminate|].
  destruct (root p); apply walk_same_dirs; exact Hd.
Qed.

(** A successful write is visible to [exists] and [read] on the same
    path. *)
Lemma read_after_write (fs fs' : FS.t) (p : Path) (doc : json) :
  FS.write fs p doc = Ret fs' ->
  FS.exists_ fs' p = true /\ FS.read fs' p = Ret doc.
Proof.
  unfold FS.write. destruct (FS.locate fs p) as [tgt|e] eqn:Hloc;
    cbn [bind]; [|discriminate].
  destruct (FS.is_dir fs tgt) eqn:Hdir; [discriminate|].
  destruct (negb (FS.is_dir fs (removelast tgt))); [discriminate|].
  intros Hw. inversion Hw; subst fs'. clear Hw.
  set (fs' := FS.Build _ _ _).
  assert (Hloc' : FS.locate fs' p = Ret tgt)
    by (apply (locate_same_dirs fs); [reflexivity | reflexivity | exact Hloc]).
  assert (Hdir' : FS.is_dir fs' tgt = false) by exact Hdir.
  unfold FS.exists_, FS.read, FS.is_file. rewrite Hloc'. cbn [bind].
  rewrite Hdir'. cbn [FS.files fs']. rewrite lookup_store. now split.
Qed.


Lemma is_dir_added (fs : FS.t) (d q : list string) :
  FS.is_dir fs q = true ->
  FS.is_dir (FS.Build (FS.cwd fs) (d :: FS.dirs fs) (FS.files fs)) q = true.
Proof.
  unfold FS.is_dir. destruct q; [reflexivity|]. cbn [FS.dirs existsb].
  intros ->. apply orb_true_r.
Qed.

Lemma is_dir_new (fs : FS.t) (l : list string) (x : string) :
  FS.is_dir (FS.Build (FS.cwd fs) ((l ++ [x])%list :: FS.dirs fs)
                      (FS.files fs))
            (l ++ [x])%list = true.
Proof.
  unfold FS.is_dir. destruct (l ++ [x])%list eqn:E.
  - now destruct l.
  - cbn [FS.dirs existsb]. now rewrite path_eqb_refl.
Qed.

Lemma init_storage_exists (fs0 fs : FS.t) :
  init fs0 = Ret fs ->
  FS.cwd fs = FS.cwd fs0
  /\ FS.is_dir fs (FS.cwd fs0 ++ ["data"])%list = true
  /\ FS.is_dir fs ((FS.cwd fs0 ++ ["data"]) ++ ["user_profiles"])%list
     = true.
Proof.
  unfold init, FS.mkdir_p.
  change (has_char Ascii.zero (str_of_path storage_path)) with false.
  change (root storage_path) with Relative.
  change (parts storage_path) with ["data"; "user_profiles"].
  cbn [FS.mkdir_from].
  change (String.eqb "data" "..") with false.
  change (String.eqb "user_profiles" "..") with false. cbv iota.
  set (d1 := (FS.cwd fs0 ++ ["data"])%list).
  destruct (FS.is_file fs0 d1); [discriminate|].
  set (fs1 := if FS.is_dir fs0 d1 then fs0 else _).
  assert (Hc1 : FS.cwd fs1 = FS.cwd fs0)
    by (unfold fs1; now destruct (FS.is_dir fs0 d1)).
  assert (Hd1 : FS.is_dir fs1 d1 = true).
  { unfold fs1. destruct (FS.is_dir fs0 d1) eqn:E; [exact E|].
    apply is_dir_new. }
  set (d2 := (d1 ++ ["user_profiles"])%list).
  destruct (FS.is_file fs1 d2); [discriminate|].
  intros Hret. inversion Hret; subst fs. clear Hret.
  destruct (FS.is_dir fs1 d2) eqn:E.
  - now repeat split.
  - cbn [FS.cwd]. repeat split.
    + exact Hc1.
    + now apply is_dir_added.
    + apply is_dir_new.
Qed.

(** After [__init__] the storage directory exists, so the medium accepts
    a write for every user id that holds neither ["/"] nor NUL, unless a
    directory already has the name of the profile file. *)
Lemma plain_ids_writable_after_init (fs0 fs : FS.t) (user_id : string) :
  init fs0 = Ret fs ->
  has_char "/" user_id = false ->
  has_char Ascii.zero user_id = false ->
  FS.is_dir fs (resolve (FS.cwd fs) (_get_profile_path user_id)) = false ->
  FS.writable fs (_get_profile_path user_id) = true.
Proof.
  intros Hinit Hslash Hnul.
  destruct (init_storage_exists fs0 fs Hinit) as (Hcwd & Hd1 & Hd2).
  destruct (file_name_component user_id Hslash) as (_ & _ & Hdd).
  rewrite (profile_path_plain user_id Hslash).
  unfold resolve, FS.writable, FS.locate. cbn [root parts].
  replace (has_char Ascii.zero (str_of_path _)) with false.
  - rewrite Hcwd. cbn [resolve_from FS.walk].
    change (String.eqb "data" "..") with false.
    change (String.eqb "user_profiles" "..") with false.
    rewrite Hdd, Hd1, Hd2. intros Hfile. rewrite Hfile.
    rewrite removelast_last, Hd2. reflexivity.
  - symmetry. unfold str_of_path. cbn [root parts join_slash].
    change ("data" ++ "/" ++ "user_profiles" ++ "/" ++ user_id ++ ".json")
      with ("data/user_profiles/" ++ (user_id ++ ".json")).
    rewrite !has_char_append, Hnul. reflexivity.
Qed.

(** C8 (as amended).  Round trip: whenever [_save_profile] succeeds, a
    following [_load_profile] under the same user id returns a profile
    with the same [user_id], [skills] (module records, scores and
    averages), [total_modules_completed] and [overall_avg_score]; its
    [last_updated] is what pydantic reads back from the text [str] wrote
    for the timestamp, and is written by [str] as that same text, so
    that the loaded profile is saved as the document it was loaded
    from. *)
Theorem save_then_load (fs fs' : FS.t) (p : UserProfile) (now : datetime) :
  _save_profile fs p = Ret fs' ->
  exists p' : UserProfile,
    _load_profile fs' (user_id p) now = Ret p'
    /\ user_id p' = user_id p
    /\ skills p' = skills p
    /\ total_modules_completed p' = total_modules_completed p
    /\ overall_avg_score p' = overall_avg_score p
    /\ parse_datetime (datetime_str (last_updated p))
       = Some (last_updated p')
    /\ datetime_str (last_updated p') = datetime_str (last_updated p)
    /\ to_json (model_dump p') = to_json (model_dump p).
Proof.
  intros Hsave.
  destruct (read_after_write _ _ _ _ Hsave) as [Hex Hread].
  destruct (validate_dumped p now) as (d & Hd & Hval).
  pose proof (parse_datetime_text _ _ Hd) as Htext.
  eexists.
  unfold _load_profile. rewrite Hex, Hread. cbn [bind].
  split; [exact Hval|].
  unfold model_dump.
  cbn [user_id skills total_modules_completed overall_avg_score
       last_updated to_json map fst snd].
  rewrite Htext.
  repeat split; try reflexivity. exact Hd.
Qed.

End Persistence.

(** ** Closed instances and examples *)

Lemma generated_plan_single_active_witness :
  (count_active demo_plan_finished <= 1)%nat
  /\ count_active demo_plan_finished
     = (if final_completed (modules demo_plan_finished) then 0 else 1)%nat
  /\ (final_completed (modules demo_plan_finished) = true
      <-> length demo_calls = 3%nat)
  /\ (length demo_calls <= 3)%nat.
Proof.
  apply (@generated_plan_single_active text_datetime "Python" "beginner"
           "2024-01-01 09:00:00" demo_plan demo_plan_finished demo_calls).
  - reflexivity.
  - reflexivity.
Defined.

Lemma save_then_load_witness :
  exists p' : @UserProfile text_datetime,
    @_load_profile text_datetime stored_fs (user_id demo_profile)
      "2024-02-01 00:00:00"
    = Ret p'
    /\ user_id p' = user_id demo_profile
    /\ skills p' = skills demo_profile
    /\ total_modules_completed p' = total_modules_completed demo_profile
    /\ overall_avg_score p' = overall_avg_score demo_profile
    /\ @parse_datetime text_datetime
         (datetime_str (last_updated demo_profile))
       = Some (last_updated p')
    /\ @datetime_str text_datetime (last_updated p')
       = @datetime_str text_datetime (last_updated demo_profile)
    /\ @to_json text_datetime (@model_dump text_datetime p')
       = @to_json text_datetime (@model_dump text_datetime demo_profile).
Proof.
  apply (@save_then_load text_datetime demo_fs stored_fs demo_profile
           "2024-02-01 00:00:00").
  reflexivity.
Defined.

(** The spec's example for [complete_module]: in a three-module plan
    whose second module is active, completing module 2 with score 85
    completes it, activates module 3 and leaves module 1 alone. *)
Example complete_second_module :
  modules (complete_module (complete_module demo_plan 1 80%Q) 2 85%Q)
  = [Build_Module 1 "Foundations of Python" COMPLETED placeholder_topics
                  4 80%Q;
     Build_Module 2 "Core Concepts in Python" COMPLETED placeholder_topics
                  6 85%Q;
     Build_Module 3 "Practical Applications of Python" ACTIVE
                  placeholder_topics 8 0%Q].
Proof. reflexivity. Qed.

(** A plan whose modules are not in the staged shape can hold two active
    modules after a call: [complete_module] does not look at the status
    of the module it completes. *)
Example out_of_order_completion_two_active :
  count_active (complete_module demo_plan 2 85%Q) = 2%nat.
Proof. reflexivity. Qed.

(** C8, as stated, fails: on a store that [__init__] has set up, the
    save of a profile whose user id is ["team/alice"] raises
    [FileNotFoundError] (there is no directory [team]), nothing is
    stored, and the following load gives an empty new profile, not the
    one that was to be saved. *)
Lemma save_fails_on_user_id_with_slash :
  init demo_fs = Ret demo_fs
  /\ _save_profile demo_fs
       (@Build_UserProfile text_datetime "team/alice" (skills demo_profile)
          2 85%float "2024-01-03 10:00:00")
     = Raise FileNotFoundError
  /\ @_load_profile text_datetime demo_fs "team/alice"
       "2024-02-01 00:00:00"
     = Ret (@new_UserProfile text_datetime "team/alice"
              "2024-02-01 00:00:00").
Proof. repeat split. Qed.

(** A save whose user id holds a NUL character fails too. *)
Example save_fails_on_nul_in_user_id :
  _save_profile demo_fs
    (@Build_UserProfile text_datetime (String Ascii.zero "alice") [] 0
       0%float "2024-01-03 10:00:00")
  = Raise ValueError.
Proof. reflexivity. Qed.

(* ================================================================== *)
(** * Further properties *)

(** ** Rounding to nearest: bounds that survive it

    [binary_round_aux] shifts the mantissa until it fits, rounds it to
    nearest-even on the two bits that remember what was shifted out,
    and shifts once more if the increment carried.  A value that does
    not exceed a whole number below 2^53 is rounded to a [float] that
    does not exceed it either. *)

Lemma fexp_value (x : Z) :
  SpecFloat.fexp FloatOps.prec FloatOps.emax x = Z.max (x - 53) (-1074).
Proof. reflexivity. Qed.

Lemma Zdigits2_log2 (m : Z) :
  0 < m -> SpecFloat.Zdigits2 m = Z.log2 m + 1.
Proof.
  destruct m as [|p|p]; try lia. intros _. cbn [SpecFloat.Zdigits2].
  rewrite digits2_size. destruct p; cbn [Pos.size Z.log2]; lia.
Qed.

Lemma Zdigits2_bounds (m : Z) :
  0 < m ->
  2 ^ (SpecFloat.Zdigits2 m - 1) <= m < 2 ^ SpecFloat.Zdigits2 m.
Proof.
  intros Hm. rewrite Zdigits2_log2 by lia.
  replace (Z.log2 m + 1 - 1) with (Z.log2 m) by lia.
  apply Z.log2_spec. exact Hm.
Qed.

Lemma Zdigits2_unique (m d : Z) :
  0 < m -> 2 ^ (d - 1) <= m < 2 ^ d -> SpecFloat.Zdigits2 m = d.
Proof.
  intros Hm [Hlo Hhi]. rewrite Zdigits2_log2 by lia.
  assert (Hd : 1 <= d).
  { destruct (Z.le_gt_cases 1 d) as [H|H]; [exact H|].
    exfalso. assert (2 ^ d <= 1).
    { destruct (Z.eq_dec d 0) as [->|Hn]; [cbn; lia|].
      rewrite Z.pow_neg_r by lia. lia. }
    lia. }
  rewrite (Z.log2_unique m (d - 1)); [lia | lia |].
  replace (Z.succ (d - 1)) with d by lia. auto.
Qed.

Lemma Zdigits2_nonneg (m : Z) : 0 <= SpecFloat.Zdigits2 m.
Proof. destruct m; cbn; lia. Qed.

Lemma Zdigits2_pos (m : Z) : 0 < m -> 1 <= SpecFloat.Zdigits2 m.
Proof. destruct m; cbn; lia. Qed.

(** A mantissa below [2^x] has at most [x] digits. *)
Lemma Zdigits2_below (m x : Z) :
  0 <= m -> 0 <= x -> m < 2 ^ x -> SpecFloat.Zdigits2 m <= x.
Proof.
  intros Hm Hx Hlt. destruct (Z.eq_dec m 0) as [->|Hn]; [cbn; lia|].
  destruct (Zdigits2_bounds m ltac:(lia)) as [Hlo _].
  destruct (Z.le_gt_cases (SpecFloat.Zdigits2 m) x) as [H|H]; [exact H|].
  exfalso.
  assert (2 ^ x <= 2 ^ (SpecFloat.Zdigits2 m - 1))
    by (apply Z.pow_le_mono_r; lia).
  lia.
Qed.

(** A mantissa of at least [2^x] has more than [x] digits. *)
Lemma Zdigits2_above (m x : Z) :
  0 <= x -> 2 ^ x <= m -> x + 1 <= SpecFloat.Zdigits2 m.
Proof.
  intros Hx Hle.
  assert (Hm : 0 < m) by (pose proof (Z.pow_pos_nonneg 2 x); lia).
  destruct (Zdigits2_bounds m Hm) as [_ Hhi].
  destruct (Z.le_gt_cases (x + 1) (SpecFloat.Zdigits2 m)) as [H|H];
    [exact H|].
  exfalso.
  assert (2 ^ SpecFloat.Zdigits2 m <= 2 ^ x).
  { apply Z.pow_le_mono_r; [lia|]. lia. }
  lia.
Qed.

Lemma shr_1_shifted (a : SpecFloat.shr_record) :
  0 <= SpecFloat.shr_m a -> shifted 1 a (SpecFloat.shr_1 a).
Proof.
  destruct a as [m r s]. cbn [SpecFloat.shr_m]. intros Hm.
  unfold shifted. change (2 ^ 1) with 2.
  destruct m as [|[p|p|]|p]; try lia;
    cbn [SpecFloat.shr_1 SpecFloat.shr_m SpecFloat.shr_r SpecFloat.shr_s].
  - split; [reflexivity|]. cbn [orb]. intros Hs. now right.
  - split; [rewrite Pos2Z.inj_xI; apply (Z.div_unique _ 2 _ 1); lia|].
    intros _. left. rewrite Pos2Z.inj_xI.
    Z.div_mod_to_equations. lia.
  - split; [rewrite Pos2Z.inj_xO; apply (Z.div_unique _ 2 _ 0); lia|].
    cbn [orb]. intros Hs. now right.
  - split; [reflexivity|]. intros _. left. cbn. lia.
Qed.

Lemma shifted_nonneg (k : Z) (a b : SpecFloat.shr_record) :
  0 <= k -> shifted k a b -> 0 <= SpecFloat.shr_m a -> 0 <= SpecFloat.shr_m b.
Proof.
  intros Hk [Hm _] Ha. rewrite Hm. apply Z.div_pos; [exact Ha|].
  apply Z.pow_pos_nonneg; lia.
Qed.

Lemma shifted_trans (j k : Z) (a b c : SpecFloat.shr_record) :
  0 <= j -> 0 <= k -> 0 <= SpecFloat.shr_m a ->
  shifted j a b -> shifted k b c -> shifted (j + k) a c.
Proof.
  intros Hj Hk Ha [Hb Hbl] [Hc Hcl].
  assert (Pj : 0 < 2 ^ j) by (apply Z.pow_pos_nonneg; lia).
  assert (Pk : 0 < 2 ^ k) by (apply Z.pow_pos_nonneg; lia).
  split.
  - rewrite Hc, Hb, Z.pow_add_r by lia.
    rewrite Z.div_div by lia. reflexivity.
  - intros Hx. rewrite Z.pow_add_r by lia.
    assert (Hdiv : SpecFloat.shr_m a mod (2 ^ j * 2 ^ k) = 0 ->
                   SpecFloat.shr_m a mod 2 ^ j = 0
                   /\ (SpecFloat.shr_m a / 2 ^ j) mod 2 ^ k = 0).
    { intros Hz. apply Z.mod_divide in Hz; [|lia].
      destruct Hz as [t Ht]. rewrite Ht.
      split.
      - apply Z.mod_divide; [lia|]. exists (t * 2 ^ k). ring.
      - replace (t * (2 ^ j * 2 ^ k)) with (t * 2 ^ k * 2 ^ j) by ring.
        rewrite Z.div_mul by lia. apply Z.mod_mul. lia. }
    destruct (Z.eq_dec (SpecFloat.shr_m a mod (2 ^ j * 2 ^ k)) 0)
      as [Hz|Hnz]; [|now left].
    destruct (Hdiv Hz) as [Hz1 Hz2].
    destruct (Hcl Hx) as [Hnz|Hb'].
    + rewrite Hb in Hnz. contradiction.
    + destruct (Hbl Hb') as [Hnz|Ha']; [contradiction | now right].
Qed.

Lemma iter_shr_shifted (p : positive) :
  forall a : SpecFloat.shr_record,
    0 <= SpecFloat.shr_m a ->
    shifted (Zpos p) a (SpecFloat.iter_pos SpecFloat.shr_1 p a).
Proof.
  assert (Hp : forall q : positive, 0 <= Zpos q) by lia.
  induction p as [p IH|p IH|]; intros a Ha; cbn [SpecFloat.iter_pos].
  - pose proof (shr_1_shifted a Ha) as H1.
    pose proof (shifted_nonneg 1 _ _ Z.le_0_1 H1 Ha) as Ha1.
    pose proof (IH _ Ha1) as H2.
    pose proof (shifted_nonneg (Zpos p) _ _ (Hp p) H2 Ha1) as Ha2.
    pose proof (IH _ Ha2) as H3.
    pose proof (shifted_trans 1 (Zpos p) _ _ _ Z.le_0_1 (Hp p) Ha H1 H2)
      as H12.
    assert (H1p : 0 <= 1 + Zpos p) by lia.
    pose proof (shifted_trans (1 + Zpos p) (Zpos p) _ _ _ H1p (Hp p) Ha
                  H12 H3) as H123.
    replace (Zpos p~1) with (1 + Zpos p + Zpos p) by lia. exact H123.
  - pose proof (IH _ Ha) as H2.
    pose proof (shifted_nonneg (Zpos p) _ _ (Hp p) H2 Ha) as Ha2.
    pose proof (IH _ Ha2) as H3.
    pose proof (shifted_trans (Zpos p) (Zpos p) _ _ _ (Hp p) (Hp p) Ha
                  H2 H3) as H23.
    replace (Zpos p~0) with (Zpos p + Zpos p) by lia. exact H23.
  - now apply shr_1_shifted.
Qed.

(** [shr] by [k >= 0] places. *)
Lemma shr_shifted (a : SpecFloat.shr_record) (e k : Z) :
  0 <= SpecFloat.shr_m a -> 0 <= k ->
  shifted k a (fst (SpecFloat.shr a e k))
  /\ snd (SpecFloat.shr a e k) = e + k.
Proof.
  intros Ha Hk. destruct k as [|p|p]; try lia; cbn [SpecFloat.shr fst snd].
  - split; [|lia]. split; [now rewrite Z.div_1_r | now right].
  - split; [now apply iter_shr_shifted | reflexivity].
Qed.

Lemma pow2_pos (x : Z) : 0 <= x -> 0 < 2 ^ x.
Proof. intros Hx. apply Z.pow_pos_nonneg; lia. Qed.

Lemma pow2_split (x y : Z) : 0 <= x -> 0 <= y -> 2 ^ (x + y) = 2 ^ x * 2 ^ y.
Proof. intros Hx Hy. apply Z.pow_add_r; assumption. Qed.

(** The first shift of [binary_round_aux]: what is left of the mantissa
    stays below a bound that is a whole number of units. *)
Lemma first_shift (mz ez U e1 : Z) :
  0 <= mz -> ez <= 0 -> 1 <= U < 2 ^ 53 ->
  e1 = Z.max (SpecFloat.Zdigits2 mz + ez - 53) (-1074) ->
  ez <= e1 ->
  mz <= U * 2 ^ (- ez) ->
  e1 <= 0
  /\ mz / 2 ^ (e1 - ez) <= U * 2 ^ (- e1)
  /\ (mz mod 2 ^ (e1 - ez) <> 0 \/ mz < U * 2 ^ (- ez) ->
      mz / 2 ^ (e1 - ez) < U * 2 ^ (- e1))
  /\ (0 < mz / 2 ^ (e1 - ez) ->
      Z.max (SpecFloat.Zdigits2 (mz / 2 ^ (e1 - ez)) + e1 - 53) (-1074) = e1)
  /\ (mz / 2 ^ (e1 - ez) = 0 -> e1 = -1074).
Proof.
  intros Hmz Hez HU He1 Hk Hle.
  assert (Pez : 0 < 2 ^ (- ez)) by (apply pow2_pos; lia).
  assert (Hdig : SpecFloat.Zdigits2 mz <= 53 - ez).
  { apply Zdigits2_below; [lia | lia |].
    replace (53 - ez) with (53 + - ez) by lia.
    rewrite (pow2_split 53 (- ez)) by lia. nia. }
  assert (H1 : e1 <= 0) by lia.
  set (k := e1 - ez) in *.
  assert (Hk0 : 0 <= k) by lia.
  assert (Pk : 0 < 2 ^ k) by (apply pow2_pos; lia).
  assert (Pe1 : 0 < 2 ^ (- e1)) by (apply pow2_pos; lia).
  assert (HT : U * 2 ^ (- ez) = U * 2 ^ (- e1) * 2 ^ k).
  { replace (- ez) with (- e1 + k) by lia.
    rewrite (pow2_split (- e1) k) by lia. ring. }
  split; [exact H1|]. split; [|split; [|split]].
  - rewrite HT in Hle.
    apply Z.div_le_upper_bound; [lia|]. lia.
  - intros Hstrict. apply Z.div_lt_upper_bound; [lia|].
    rewrite HT in Hle, Hstrict.
    destruct Hstrict as [Hmod|Hlt]; [|lia].
    assert (Hne : mz <> U * 2 ^ (- e1) * 2 ^ k).
    { intros Heq. apply Hmod. rewrite Heq. apply Z.mod_mul. lia. }
    lia.
  - intros Hpos.
    assert (Hge : 2 ^ k <= mz).
    { destruct (Z.le_gt_cases (2 ^ k) mz) as [H|H]; [exact H|].
      rewrite Z.div_small in Hpos by lia. lia. }
    assert (Hmz0 : 0 < mz) by lia.
    destruct (Zdigits2_bounds mz Hmz0) as [Hlo Hhi].
    set (d := SpecFloat.Zdigits2 mz) in *.
    assert (Hdk : k + 1 <= d) by (apply Zdigits2_above; assumption).
    assert (Hd1 : SpecFloat.Zdigits2 (mz / 2 ^ k) = d - k).
    { apply Zdigits2_unique; [exact Hpos|]. split.
      - apply Z.div_le_lower_bound; [lia|].
        rewrite <- (pow2_split k (d - k - 1)) by lia.
        replace (k + (d - k - 1)) with (d - 1) by lia. exact Hlo.
      - apply Z.div_lt_upper_bound; [lia|].
        rewrite <- (pow2_split k (d - k)) by lia.
        replace (k + (d - k)) with d by lia. exact Hhi. }
    rewrite Hd1. unfold k. lia.
  - intros Hzero.
    assert (Hlt : mz < 2 ^ k).
    { apply Z.div_small_iff in Hzero; lia. }
    destruct (Z.eq_dec mz 0) as [->|Hn].
    + cbn [SpecFloat.Zdigits2] in He1. lia.
    + pose proof (Zdigits2_below mz k Hmz Hk0 Hlt). lia.
Qed.

(** The second shift, after the mantissa was kept or incremented. *)
Lemma second_shift (m1 m2 e1 U : Z) :
  0 <= m1 -> 0 < m2 -> m2 = m1 \/ m2 = m1 + 1 ->
  e1 <= 0 -> 1 <= U < 2 ^ 53 ->
  (0 < m1 -> Z.max (SpecFloat.Zdigits2 m1 + e1 - 53) (-1074) = e1) ->
  (m1 = 0 -> e1 = -1074) ->
  m2 <= U * 2 ^ (- e1) ->
  exists k : Z,
    Z.max (SpecFloat.Zdigits2 m2 + e1 - 53) (-1074) - e1 = k
    /\ (k = 0 \/ k = 1)
    /\ 0 < m2 / 2 ^ k
    /\ e1 + k <= 0
    /\ Z.max (SpecFloat.Zdigits2 (m2 / 2 ^ k) + (e1 + k) - 53) (-1074)
       = e1 + k
    /\ m2 / 2 ^ k <= U * 2 ^ (- (e1 + k)).
Proof.
  intros Hm1 Hm2 Hcase He1 HU Hcan Hzero Hle.
  assert (Pe1 : 0 < 2 ^ (- e1)) by (apply pow2_pos; lia).
  assert (Hd2 : SpecFloat.Zdigits2 m2 <= 53 - e1).
  { apply Zdigits2_below; [lia | lia |].
    replace (53 - e1) with (53 + - e1) by lia.
    rewrite (pow2_split 53 (- e1)) by lia. nia. }
  pose proof (Zdigits2_pos m2 Hm2) as Hd2pos.
  assert (Hkeep : Z.max (SpecFloat.Zdigits2 m2 + e1 - 53) (-1074) = e1 ->
                  exists k : Z,
                    Z.max (SpecFloat.Zdigits2 m2 + e1 - 53) (-1074) - e1 = k
                    /\ (k = 0 \/ k = 1)
                    /\ 0 < m2 / 2 ^ k
                    /\ e1 + k <= 0
                    /\ Z.max (SpecFloat.Zdigits2 (m2 / 2 ^ k) + (e1 + k) - 53)
                             (-1074)
                       = e1 + k
                    /\ m2 / 2 ^ k <= U * 2 ^ (- (e1 + k))).
  { intros Hf. exists 0. rewrite Hf.
    change (2 ^ 0) with 1. rewrite Z.div_1_r, Z.add_0_r.
    repeat split; lia. }
  destruct (Z.eq_dec m1 0) as [Hz|Hnz].
  - (* the mantissa was 0 and became 1 *)
    assert (m2 = 1) by lia. subst m2.
    apply Hkeep. rewrite (Hzero Hz). reflexivity.
  - assert (Hm1pos : 0 < m1) by lia.
    specialize (Hcan Hm1pos).
    destruct Hcase as [->| ->]; [now apply Hkeep|].
    destruct (Zdigits2_bounds m1 Hm1pos) as [Hlo Hhi].
    set (d1 := SpecFloat.Zdigits2 m1) in *.
    pose proof (Zdigits2_pos m1 Hm1pos) as Hd1pos. fold d1 in Hd1pos.
    destruct (Z.eq_dec (m1 + 1) (2 ^ d1)) as [Hpow|Hnpow].
    + (* the increment carried into a new digit *)
      assert (Hd2' : SpecFloat.Zdigits2 (m1 + 1) = d1 + 1).
      { apply Zdigits2_unique; [lia|].
        replace (d1 + 1 - 1) with d1 by lia.
        rewrite (pow2_split d1 1) by lia. change (2 ^ 1) with 2. lia. }
      rewrite Hd2' in *.
      destruct (Z.eq_dec (Z.max (d1 + 1 + e1 - 53) (-1074)) e1) as [Hf|Hf];
        [apply Hkeep; exact Hf|].
      exists 1. change (2 ^ 1) with 2.
      assert (Hhalf : (m1 + 1) / 2 = 2 ^ (d1 - 1)).
      { rewrite Hpow. replace d1 with (d1 - 1 + 1) at 1 by lia.
        rewrite (pow2_split (d1 - 1) 1) by lia. change (2 ^ 1) with 2.
        apply Z.div_mul. lia. }
      assert (Pd : 0 < 2 ^ (d1 - 1)) by (apply pow2_pos; lia).
      assert (Hd3 : SpecFloat.Zdigits2 ((m1 + 1) / 2) = d1).
      { rewrite Hhalf. apply Zdigits2_unique; [lia|].
        split; [lia|].
        replace d1 with (d1 - 1 + 1) at 2 by lia.
        rewrite (pow2_split (d1 - 1) 1) by lia. change (2 ^ 1) with 2. lia. }
      rewrite Hd3.
      split; [lia|]. split; [now right|]. split; [lia|].
      split; [lia|]. split; [lia|].
      rewrite Hhalf.
      assert (He : e1 + 1 <= 0) by lia.
      assert (Pe : 0 < 2 ^ (- (e1 + 1))) by (apply pow2_pos; lia).
      assert (HT : U * 2 ^ (- e1) = U * 2 ^ (- (e1 + 1)) * 2).
      { replace (- e1) with (- (e1 + 1) + 1) by lia.
        rewrite (pow2_split (- (e1 + 1)) 1) by lia.
        change (2 ^ 1) with 2. ring. }
      rewrite HT in Hle. rewrite Hpow in Hle.
      replace d1 with (d1 - 1 + 1) in Hle at 1 by lia.
      rewrite (pow2_split (d1 - 1) 1) in Hle by lia.
      change (2 ^ 1) with 2 in Hle. lia.
    + (* the increment stayed within the digits *)
      assert (Hd2' : SpecFloat.Zdigits2 (m1 + 1) = d1).
      { apply Zdigits2_unique; lia. }
      apply Hkeep. rewrite Hd2'. exact Hcan.
Qed.

Lemma shr_m_of_loc (m : Z) (l : SpecFloat.location) :
  SpecFloat.shr_m (SpecFloat.shr_record_of_loc m l) = m.
Proof. destruct l as [|[]]; reflexivity. Qed.

Lemma bits_of_loc (m : Z) (l : SpecFloat.location) :
  SpecFloat.shr_r (SpecFloat.shr_record_of_loc m l)
  || SpecFloat.shr_s (SpecFloat.shr_record_of_loc m l) = true ->
  l <> SpecFloat.loc_Exact.
Proof. destruct l as [|[]]; cbn; intros Hb; discriminate. Qed.

(** Rounding to nearest keeps the mantissa or adds one, and adds one
    only when something was lost. *)
Lemma round_nearest_even_cases (mrs : SpecFloat.shr_record) :
  SpecFloat.round_nearest_even (SpecFloat.shr_m mrs)
    (SpecFloat.loc_of_shr_record mrs) = SpecFloat.shr_m mrs
  \/ (SpecFloat.round_nearest_even (SpecFloat.shr_m mrs)
        (SpecFloat.loc_of_shr_record mrs) = SpecFloat.shr_m mrs + 1
      /\ SpecFloat.shr_r mrs || SpecFloat.shr_s mrs = true).
Proof.
  destruct mrs as [m [|] [|]];
    cbn [SpecFloat.loc_of_shr_record SpecFloat.round_nearest_even
         SpecFloat.shr_m SpecFloat.shr_r SpecFloat.shr_s orb];
    try (now left); try (right; split; reflexivity).
  destruct (Z.even m); [now left | right; split; reflexivity].
Qed.

(** Rounding a non-negative value that does not exceed a whole number
    [U] below 2^53: the result is zero or a valid finite [float] that
    does not exceed [U] either. *)
Lemma round_aux_bounded (mz ez U : Z) (lz : SpecFloat.location) :
  0 <= mz -> ez <= 0 -> 1 <= U < 2 ^ 53 ->
  ez <= SpecFloat.fexp FloatOps.prec FloatOps.emax
          (SpecFloat.Zdigits2 mz + ez) ->
  mz <= U * 2 ^ (- ez) ->
  (lz <> SpecFloat.loc_Exact -> mz < U * 2 ^ (- ez)) ->
  SpecFloat.binary_round_aux FloatOps.prec FloatOps.emax false mz ez lz
  = SpecFloat.S754_zero false
  \/ exists (m : positive) (e : Z),
       SpecFloat.binary_round_aux FloatOps.prec FloatOps.emax false mz ez lz
       = SpecFloat.S754_finite false m e
       /\ SpecFloat.valid_binary FloatOps.prec FloatOps.emax
            (SpecFloat.S754_finite false m e) = true
       /\ e <= 0
       /\ Zpos m <= U * 2 ^ (- e).
Proof.
  intros Hmz Hez HU Hdig Hle Hlt.
  rewrite fexp_value in Hdig.
  set (e1 := Z.max (SpecFloat.Zdigits2 mz + ez - 53) (-1074)) in *.
  destruct (first_shift mz ez U e1 Hmz Hez HU eq_refl Hdig Hle)
    as (He1 & Hb1 & Hs1 & Hc1 & Hz1).
  unfold SpecFloat.binary_round_aux, SpecFloat.shr_fexp.
  rewrite fexp_value. fold e1.
  destruct (shr_shifted (SpecFloat.shr_record_of_loc mz lz) ez (e1 - ez))
    as [[Hm1 Hl1] Hsnd1]; [rewrite shr_m_of_loc; lia | lia |].
  destruct (SpecFloat.shr (SpecFloat.shr_record_of_loc mz lz) ez (e1 - ez))
    as [mrs1 e1'] eqn:Hshr1.
  cbn [fst snd] in Hm1, Hl1, Hsnd1.
  replace e1' with e1 by lia. clear Hsnd1 Hshr1 e1'.
  rewrite shr_m_of_loc in Hm1, Hl1.
  set (m1 := SpecFloat.shr_m mrs1) in *.
  assert (Hm1pos : 0 <= m1).
  { rewrite Hm1. apply Z.div_pos; [lia | apply pow2_pos; lia]. }
  set (m2 := SpecFloat.round_nearest_even m1
               (SpecFloat.loc_of_shr_record mrs1)).
  assert (Hm2 : (m2 = m1 \/ m2 = m1 + 1) /\ m2 <= U * 2 ^ (- e1)).
  { destruct (round_nearest_even_cases mrs1) as [Hk|[Hi Hbits]];
      fold m1 in Hk || fold m1 in Hi; fold m2 in Hk || fold m2 in Hi.
    - split; [now left|]. rewrite Hk, Hm1. exact Hb1.
    - split; [now right|]. rewrite Hi, Hm1.
      assert (mz / 2 ^ (e1 - ez) < U * 2 ^ (- e1)); [|lia].
      apply Hs1. destruct (Hl1 Hbits) as [Hmod|Hloc]; [now left|].
      right. apply Hlt. now apply (bits_of_loc mz). }
  destruct Hm2 as [Hcase Hb2].
  rewrite fexp_value.
  cbn [SpecFloat.shr_record_of_loc].
  destruct (Z.eq_dec m2 0) as [Hz2|Hnz2].
  - (* rounded to zero *)
    left. rewrite Hz2. cbn [SpecFloat.Zdigits2].
    assert (Hm10 : m1 = 0) by lia.
    rewrite Hm1 in Hm10. rewrite (Hz1 Hm10).
    reflexivity.
  - right.
    assert (Hm2pos : 0 < m2) by lia.
    assert (Hc1' : 0 < m1 ->
                   Z.max (SpecFloat.Zdigits2 m1 + e1 - 53) (-1074) = e1).
    { intros Hp. rewrite Hm1. apply Hc1. now rewrite <- Hm1. }
    assert (Hz1' : m1 = 0 -> e1 = -1074).
    { intros Hp. apply Hz1. now rewrite <- Hm1. }
    destruct (second_shift m1 m2 e1 U Hm1pos Hm2pos Hcase He1 HU Hc1' Hz1'
                Hb2)
      as (k & Hk & Hk01 & Hm3 & He3 & Hcan3 & Hb3).
    rewrite Hk.
    destruct (shr_shifted (SpecFloat.Build_shr_record m2 false false) e1 k)
      as [[Hm3' _] Hsnd]; [cbn; lia | lia |].
    destruct (SpecFloat.shr (SpecFloat.Build_shr_record m2 false false) e1 k)
      as [mrs3 e3] eqn:Hshr3.
    cbn [fst snd SpecFloat.shr_m] in Hm3', Hsnd.
    rewrite Hm3', Hsnd.
    destruct (m2 / 2 ^ k) as [|m|m] eqn:Hq; try lia.
    exists m, (e1 + k).
    change (FloatOps.emax - FloatOps.prec) with 971.
    replace (e1 + k <=? 971) with true by (symmetry; apply Z.leb_le; lia).
    split; [reflexivity|]. split; [|split; [exact He3 | exact Hb3]].
    unfold SpecFloat.valid_binary, SpecFloat.bounded,
      SpecFloat.canonical_mantissa.
    rewrite fexp_value.
    change (FloatOps.emax - FloatOps.prec) with 971.
    cbn [SpecFloat.Zdigits2] in Hcan3.
    replace (Z.pos (SpecFloat.digits2_pos m) + (e1 + k) - 53)
      with (Z.pos (SpecFloat.digits2_pos m) + (e1 + k) - 53) by reflexivity.
    rewrite Hcan3, Z.eqb_refl.
    replace (e1 + k <=? 971) with true by (symmetry; apply Z.leb_le; lia).
    reflexivity.
Qed.

Lemma new_location_exact (n r : Z) :
  SpecFloat.new_location n r <> SpecFloat.loc_Exact -> r <> 0.
Proof.
  intros Hl Hr. apply Hl. subst r.
  unfold SpecFloat.new_location, SpecFloat.new_location_even,
    SpecFloat.new_location_odd.
  destruct (Z.even n); reflexivity.
Qed.

(** The quotient of two counts, the first not above the second, is zero
    or a valid finite [float] not above 1. *)
Lemma SFdiv_unit (c n : positive) :
  Zpos c <= Zpos n ->
  SpecFloat.SFdiv FloatOps.prec FloatOps.emax
    (SpecFloat.S754_finite false c 0) (SpecFloat.S754_finite false n 0)
  = SpecFloat.S754_zero false
  \/ exists (m : positive) (e : Z),
       SpecFloat.SFdiv FloatOps.prec FloatOps.emax
         (SpecFloat.S754_finite false c 0) (SpecFloat.S754_finite false n 0)
       = SpecFloat.S754_finite false m e
       /\ SpecFloat.valid_binary FloatOps.prec FloatOps.emax
            (SpecFloat.S754_finite false m e) = true
       /\ e <= 0
       /\ Zpos m <= 2 ^ (- e).
Proof.
  intros Hcn.
  cbn [SpecFloat.SFdiv xorb]. unfold SpecFloat.SFdiv_core_binary.
  rewrite !Z.add_0_r, Z.sub_diag, fexp_value.
  set (d1 := SpecFloat.Zdigits2 (Zpos c)).
  set (d2 := SpecFloat.Zdigits2 (Zpos n)).
  destruct (Zdigits2_bounds (Zpos c) ltac:(lia)) as [Hc1 Hc2].
  destruct (Zdigits2_bounds (Zpos n) ltac:(lia)) as [Hn1 Hn2].
  fold d1 in Hc1, Hc2. fold d2 in Hn1, Hn2.
  pose proof (Zdigits2_pos (Zpos c) ltac:(lia)) as Hd1. fold d1 in Hd1.
  pose proof (Zdigits2_pos (Zpos n) ltac:(lia)) as Hd2. fold d2 in Hd2.
  set (e' := Z.min (Z.max (d1 - d2 - 53) (-1074)) 0).
  assert (He' : e' <= 0) by (unfold e'; lia).
  set (s := 0 - e').
  assert (Hs : 0 <= s) by (unfold s; lia).
  assert (Ps : 0 < 2 ^ s) by (apply pow2_pos; lia).
  assert (Hm' : match s with
                | 0 => Zpos c
                | Zpos _ => Z.shiftl (Zpos c) s
                | Zneg _ => 0
                end = Zpos c * 2 ^ s).
  { destruct s as [|p|p] eqn:Es; [cbn; lia | | lia].
    rewrite Z.shiftl_mul_pow2 by lia. reflexivity. }
  rewrite Hm'.
  pose proof (Z_div_mod (Zpos c * 2 ^ s) (Zpos n) ltac:(lia)) as Hdm.
  destruct (Z.div_eucl (Zpos c * 2 ^ s) (Zpos n)) as [q r].
  destruct Hdm as [Hdm Hr].
  assert (Hq0 : 0 <= q) by nia.
  assert (Hq1 : q <= 2 ^ s) by nia.
  assert (Hbig : -1074 < e' -> 2 ^ 52 <= q).
  { intros Hne.
    assert (Hx : s = 53 + d2 - d1 \/ (s = 0 /\ d2 + 53 <= d1))
      by (unfold s, e' in *; lia).
    assert (Hpow : 2 ^ (52 + d2) <= Zpos c * 2 ^ s).
    { destruct Hx as [Hx|[Hx Hd]].
      - rewrite Hx.
        replace (52 + d2) with (d1 - 1 + (53 + d2 - d1)) by lia.
        rewrite (pow2_split (d1 - 1) (53 + d2 - d1)) by lia.
        apply Z.mul_le_mono_nonneg_r; [|exact Hc1].
        apply Z.lt_le_incl, pow2_pos. lia.
      - rewrite Hx. change (2 ^ 0) with 1. rewrite Z.mul_1_r.
        apply (Z.le_trans _ (2 ^ (d1 - 1))); [|exact Hc1].
        apply Z.pow_le_mono_r; lia. }
    rewrite (pow2_split 52 d2) in Hpow by lia.
    assert (P52 : 0 < 2 ^ 52) by (apply pow2_pos; lia).
    destruct (Z.le_gt_cases (2 ^ 52) q) as [H|H]; [exact H|].
    exfalso. nia. }
  assert (Hdig : e' <= SpecFloat.fexp FloatOps.prec FloatOps.emax
                         (SpecFloat.Zdigits2 q + e')).
  { rewrite fexp_value.
    destruct (Z.eq_dec e' (-1074)) as [->|Hne]; [lia|].
    assert (Hlow : -1074 < e') by (unfold e' in *; lia).
    pose proof (Zdigits2_above q 52 ltac:(lia) (Hbig Hlow)). lia. }
  assert (HU : 1 <= 1 < 2 ^ 53)
    by (change (2 ^ 53) with 9007199254740992; lia).
  destruct (round_aux_bounded q e' 1
              (SpecFloat.new_location (Zpos n) r) Hq0 He' HU Hdig)
    as [Hz|(m & e & Hv & Hvalid & He & Hb)].
  - rewrite Z.mul_1_l. replace (- e') with s by (unfold s; lia). exact Hq1.
  - intros Hloc. apply new_location_exact in Hloc.
    rewrite Z.mul_1_l. replace (- e') with s by (unfold s; lia).
    destruct (Z.eq_dec q (2 ^ s)) as [Heq|Hneq]; [|lia].
    exfalso. subst q. nia.
  - left. exact Hz.
  - right. exists m, e. rewrite Z.mul_1_l in Hb. auto.
Qed.

Lemma Prim2SF_100 :
  FloatOps.Prim2SF 100%float
  = SpecFloat.S754_finite false 7036874417766400 (-46).
Proof. vm_compute. reflexivity. Qed.

(** The product with 100.0 of a valid [float] between 0 and 1 is zero or
    a finite [float] not above 100. *)
Lemma SFmul_100 (m : positive) (e : Z) :
  e <= 0 -> Zpos m <= 2 ^ (- e) ->
  SpecFloat.SFmul FloatOps.prec FloatOps.emax
    (SpecFloat.S754_finite false m e)
    (SpecFloat.S754_finite false 7036874417766400 (-46))
  = SpecFloat.S754_zero false
  \/ exists (m' : positive) (e' : Z),
       SpecFloat.SFmul FloatOps.prec FloatOps.emax
         (SpecFloat.S754_finite false m e)
         (SpecFloat.S754_finite false 7036874417766400 (-46))
       = SpecFloat.S754_finite false m' e'
       /\ e' <= 0
       /\ Zpos m' <= 100 * 2 ^ (- e').
Proof.
  intros He Hm. cbn [SpecFloat.SFmul xorb].
  assert (Pe : 0 < 2 ^ (- e)) by (apply pow2_pos; lia).
  assert (HU : 1 <= 100 < 2 ^ 53)
    by (change (2 ^ 53) with 9007199254740992; lia).
  destruct (round_aux_bounded (Zpos (m * 7036874417766400)) (e + -46) 100
              SpecFloat.loc_Exact)
    as [Hz|(m' & e' & Hv & _ & He' & Hb)]; try lia.
  - rewrite fexp_value.
    assert (H53 : 52 + 1 <= SpecFloat.Zdigits2 (Zpos (m * 7036874417766400))).
    { apply Zdigits2_above; [lia|].
      rewrite Pos2Z.inj_mul. change (2 ^ 52) with 4503599627370496. lia. }
    lia.
  - replace (- (e + -46)) with (- e + 46) by lia.
    rewrite (pow2_split (- e) 46) by lia.
    rewrite Pos2Z.inj_mul. change (2 ^ 46) with 70368744177664. nia.
  - intros Hc. now contradiction Hc.
  - now left.
  - right. exists m', e'. auto.
Qed.

Lemma value_zero (f : float) (s : bool) :
  FloatOps.Prim2SF f = SpecFloat.S754_zero s ->
  xvalue (Float f) = Some (Real 0).
Proof. intros Hf. cbn [xvalue]. now rewrite Hf. Qed.

Lemma value_finite_bound (f : float) (m : positive) (e U : Z) :
  FloatOps.Prim2SF f = SpecFloat.S754_finite false m e ->
  e <= 0 -> Zpos m <= U * 2 ^ (- e) ->
  exists q : Q,
    xvalue (Float f) = Some (Real q) /\ (0 <= q)%Q /\ (q <= inject_Z U)%Q.
Proof.
  intros Hf He Hb. cbn [xvalue]. rewrite Hf.
  eexists. split; [reflexivity|].
  destruct (Z.eq_dec e 0) as [->|Hne].
  - cbn [Z.leb Z.compare]. change (2 ^ 0) with 1 in *.
    split.
    + unfold Qle. cbn. lia.
    + rewrite <- Zle_Qle. lia.
  - replace (0 <=? e) with false by (symmetry; apply Z.leb_gt; lia).
    assert (Pe : 0 < 2 ^ (- e)) by (apply pow2_pos; lia).
    unfold Qle. cbn [Qnum Qden inject_Z].
    rewrite Z2Pos.id by lia. lia.
Qed.

(** The score of [c] correct answers out of [n]: the division returns,
    and its product with 100.0 is a number between 0 and 100. *)
Lemma percentage_in_range (c n : Z) :
  0 <= c <= n -> 0 < n ->
  exists r : float,
    int_truediv c n = Ret r
    /\ xvalue (Float (r * 100)) = Some (Real (value (r * 100)))
    /\ (0 <= value (r * 100))%Q
    /\ (value (r * 100) <= 100)%Q.
Proof.
  intros Hc Hn. unfold int_truediv.
  replace (n =? 0) with false by (symmetry; apply Z.eqb_neq; lia).
  destruct n as [|pn|pn]; try lia.
  assert (Hzero : forall r : float,
            FloatOps.Prim2SF r = SpecFloat.S754_zero false ->
            xvalue (Float (r * 100)) = Some (Real (value (r * 100)))
            /\ (0 <= value (r * 100))%Q /\ (value (r * 100) <= 100)%Q).
  { intros r Hr.
    assert (Hp : FloatOps.Prim2SF (r * 100)%float
                 = SpecFloat.S754_zero false).
    { rewrite FloatAxioms.mul_spec, Hr, Prim2SF_100. reflexivity. }
    pose proof (value_zero _ _ Hp) as Hv.
    unfold value. rewrite Hv. repeat split; discriminate. }
  destruct c as [|pc|pc]; try lia.
  - cbn [exact_int SpecFloat.SFdiv xorb to_float].
    eexists. split; [reflexivity|]. apply Hzero. reflexivity.
  - cbn [exact_int].
    destruct (SFdiv_unit pc pn ltac:(lia))
      as [Hd|(m & e & Hd & Hvalid & He & Hb)]; rewrite Hd; cbn [to_float].
    + eexists. split; [reflexivity|]. apply Hzero.
      apply FloatAxioms.Prim2SF_SF2Prim. reflexivity.
    + eexists. split; [reflexivity|].
      set (r := FloatOps.SF2Prim (SpecFloat.S754_finite false m e)).
      assert (Hr : FloatOps.Prim2SF r = SpecFloat.S754_finite false m e)
        by (apply FloatAxioms.Prim2SF_SF2Prim; exact Hvalid).
      assert (Hp : FloatOps.Prim2SF (r * 100)%float
                   = SpecFloat.SFmul FloatOps.prec FloatOps.emax
                       (SpecFloat.S754_finite false m e)
                       (SpecFloat.S754_finite false 7036874417766400 (-46))).
      { rewrite FloatAxioms.mul_spec, Hr, Prim2SF_100. reflexivity. }
      destruct (SFmul_100 m e He Hb) as [Hz|(m' & e' & Hv & He' & Hb')].
      * rewrite Hz in Hp. pose proof (value_zero _ _ Hp) as Hv.
        unfold value. rewrite Hv. repeat split; discriminate.
      * rewrite Hv in Hp.
        destruct (value_finite_bound _ _ _ 100 Hp He' Hb')
          as (q & Hq & H0 & H100).
        unfold value. rewrite Hq. auto.
Qed.

(** ** The two scorers *)

Lemma chr_value (i v : Z) : chr i = Ret v -> v = i.
Proof.
  unfold chr.
  destruct ((i <? -2147483648) || (2147483647 <? i)); [discriminate|].
  destruct ((i <? 0) || (1114111 <? i)); [discriminate|].
  intros Hv. now inversion Hv.
Qed.

Lemma chr_out_of_range (i : Z) :
  ~ (0 <= i <= 1114111) ->
  chr i = Raise ValueError \/ chr i = Raise OverflowError.
Proof.
  intros Hi. unfold chr.
  destruct ((i <? -2147483648) || (2147483647 <? i)); [now right|].
  destruct (i <? 0) eqn:E1; [now left|].
  destruct (1114111 <? i) eqn:E2; [now left|].
  apply Z.ltb_ge in E1. apply Z.ltb_ge in E2. lia.
Qed.

(** Whatever [eval_loop] returns, it is the accumulated rows followed by
    one row per pair, and the accumulated count plus the matches. *)
Lemma eval_loop_result (pairs : list (QuizQuestion * Z)) :
  forall (k : nat) (results : list Row.t) (cc : Z)
         (out_rows : list Row.t) (out_cc : Z),
    eval_loop (Z.of_nat k) pairs results cc = Ret (out_rows, out_cc) ->
    out_rows
    = (results
       ++ map report_row
            (combine (map Z.of_nat (seq k (length pairs))) pairs))%list
    /\ out_cc = cc + Z.of_nat (length (filter matches pairs)).
Proof.
  induction pairs as [|[q x] pairs IH];
    intros k results cc out_rows out_cc Hrun.
  - cbn in Hrun. inversion Hrun; subst. cbn. rewrite app_nil_r.
    split; [reflexivity | lia].
  - cbn [eval_loop] in Hrun.
    destruct (chr (65 + x)) as [ua|e] eqn:Hua; [|discriminate].
    destruct (chr (65 + correct_index q)) as [ca|e] eqn:Hca; [|discriminate].
    cbn [bind] in Hrun.
    apply chr_value in Hua. apply chr_value in Hca. subst ua ca.
    replace (Z.of_nat k + 1) with (Z.of_nat (S k)) in Hrun by lia.
    apply IH in Hrun as [Hrows Hcc]. split.
    + rewrite Hrows, <- app_assoc. cbn [length seq map combine app report_row].
      replace (Z.of_nat (S k)) with (Z.of_nat k + 1) by lia. reflexivity.
    + rewrite Hcc. cbn [filter]. unfold matches at 2. cbn [fst snd].
      destruct (x =? correct_index q); cbn [length]; lia.
Qed.

Lemma count_correct_from_value (qs : list QuizQuestion) (a : list Z) :
  forall i : nat,
    (i + length a <= length qs)%nat ->
    count_correct_from qs i a
    = Ret (Z.of_nat (length (filter matches (combine (skipn i qs) a)))).
Proof.
  induction a as [|x a IH]; intros i Hlen.
  - cbn [count_correct_from]. now rewrite combine_nil.
  - cbn [count_correct_from length] in *.
    destruct (nth_error qs i) as [qi|] eqn:Hnth.
    + rewrite (IH (S i)) by lia. cbn [bind].
      assert (Hskip : skipn i qs = qi :: skipn (S i) qs).
      { clear - Hnth. revert qs Hnth.
        induction i as [|i IHi]; intros [|q qs] Hnth; try discriminate.
        - cbn in *. now inversion Hnth.
        - cbn [skipn]. cbn in Hnth. now apply IHi. }
      rewrite Hskip. cbn [combine filter]. unfold matches at 2.
      cbn [fst snd]. f_equal.
      destruct (x =? correct_index qi); cbn [length]; lia.
    + apply nth_error_None in Hnth. lia.
Qed.

Lemma matching_positions_filter (qs : list QuizQuestion) (a : list Z) :
  matching_positions qs a
  = Z.of_nat (length (filter matches (combine qs a))).
Proof. reflexivity. Qed.

(** The score of [calculate_score] when every question has an answer:
    no index is out of range and the divisor is not zero. *)
Lemma calculate_score_matching (quiz : Quiz) (a : list Z) :
  length a = length (questions quiz) ->
  a <> [] ->
  calculate_score quiz a
  = (r <- int_truediv (matching_positions (questions quiz) a)
                      (Z.of_nat (length (questions quiz))) ;;
     Ret (Float (r * 100))).
Proof.
  intros Hlen Hne. unfold calculate_score.
  destruct a as [|x a]; [contradiction|].
  rewrite Hlen, Nat.eqb_refl. cbn [negb].
  rewrite (count_correct_from_value (questions quiz) (x :: a) 0)
    by (rewrite Hlen; lia).
  cbn [bind skipn truediv]. rewrite <- matching_positions_filter.
  destruct (int_truediv _ _); cbn [bind]; [|reflexivity].
  apply (proj2 (mul_float_100 _)).
Qed.

(** What a report of [evaluate_answers] implies about its inputs. *)
Lemma evaluate_answers_report (quiz : Quiz) (a : list Z) (score : num)
  (correct total : Z) (fb : string) (rows : list Row.t) :
  evaluate_answers quiz a = Ret (Evaluated score correct total fb rows) ->
  length a = length (questions quiz)
  /\ a <> []
  /\ (exists r : float,
        int_truediv (matching_positions (questions quiz) a)
                    (Z.of_nat (length (questions quiz))) = Ret r
        /\ score = Float (r * 100))
  /\ correct = matching_positions (questions quiz) a
  /\ total = Z.of_nat (length (questions quiz))
  /\ fb = feedback_for score
  /\ rows = report_rows (questions quiz) a.
Proof.
  unfold evaluate_answers.
  destruct (length a =? length (questions quiz))%nat eqn:Hlen;
    cbn [negb]; [|discriminate].
  apply Nat.eqb_eq in Hlen.
  destruct (eval_loop 0 (combine (questions quiz) a) [] 0)
    as [[out_rows out_cc]|e] eqn:Hloop; cbn [bind]; [|discriminate].
  apply (eval_loop_result _ 0%nat) in Hloop as [Hrows Hcc].
  rewrite Z.add_0_l, <- matching_positions_filter in Hcc. subst out_cc.
  cbn [app] in Hrows. cbn [truediv].
  destruct (int_truediv (matching_positions (questions quiz) a)
              (Z.of_nat (length (questions quiz)))) as [r|e] eqn:Hdiv;
    cbn [bind]; [|discriminate].
  rewrite (proj1 (mul_float_100 r)). cbn [bind].
  intros Hret. inversion Hret; subst. clear Hret.
  repeat split; try reflexivity; try exact Hlen.
  - intros Ha. subst a. cbn [length] in Hlen. rewrite <- Hlen in Hdiv.
    discriminate.
  - exists r. split; reflexivity.
Qed.

(** [calculate_score] always returns a [float] that is a number between
    0 and 100. *)
Lemma calculate_score_returns (quiz : Quiz) (a : list Z) :
  exists s : float,
    calculate_score quiz a = Ret (Float s)
    /\ xvalue (Float s) = Some (Real (value s))
    /\ (0 <= value s)%Q /\ (value s <= 100)%Q
    /\ (if ((length a =? 0) || negb (length a =? length (questions quiz)))%nat
        then s = 0%float
        else exists r : float,
               int_truediv (matching_positions (questions quiz) a)
                           (Z.of_nat (length (questions quiz))) = Ret r
               /\ s = (r * 100)%float).
Proof.
  pose proof (matching_positions_bounds (questions quiz) a) as Hcc.
  destruct ((length a =? 0) || negb (length a =? length (questions quiz)))%nat
    eqn:Hcond.
  - exists 0%float. split.
    + unfold calculate_score. destruct a as [|x a]; [reflexivity|].
      change (length (x :: a) =? 0)%nat with false in Hcond.
      cbn [orb] in Hcond. now rewrite Hcond.
    + split; [reflexivity|]. split; [discriminate|]. split; [discriminate|].
      reflexivity.
  - apply orb_false_iff in Hcond as [Hz Hl].
    apply Nat.eqb_neq in Hz. apply negb_false_iff, Nat.eqb_eq in Hl.
    assert (Hne : a <> []) by (intros ->; now apply Hz).
    assert (Hn : 0 < Z.of_nat (length (questions quiz))) by lia.
    destruct (percentage_in_range _ _ Hcc Hn) as (r & Hdiv & Hx & H0 & H100).
    exists (r * 100)%float.
    split; [rewrite (calculate_score_matching quiz a Hl Hne), Hdiv;
            reflexivity|].
    split; [exact Hx|]. split; [exact H0|]. split; [exact H100|].
    exists r; split; [exact Hdiv | reflexivity].
Qed.

(** X1.  [Quiz.calculate_score] never raises, for any quiz and any
    answer list.  It returns 0.0 when there are no answers or their
    number differs from the number of questions, and otherwise the
    binary64 value of [(correct / len(questions)) * 100.0], with
    [correct] the number of positions answered with the question's
    [correct_index]: the quotient rounded to a [float], then its product
    with 100.0 rounded.  The result is a number between 0 and 100; for a
    validated quiz it is within 2^-46 of the exact percentage. *)
Theorem calculate_score_value (quiz : Quiz) (a : list Z) :
  exists s : float,
    calculate_score quiz a = Ret (Float s)
    /\ xvalue (Float s) = Some (Real (value s))
    /\ (0 <= value s)%Q /\ (value s <= 100)%Q
    /\ (if ((length a =? 0) || negb (length a =? length (questions quiz)))%nat
        then s = 0%float
        else exists r : float,
               int_truediv (matching_positions (questions quiz) a)
                           (Z.of_nat (length (questions quiz))) = Ret r
               /\ s = (r * 100)%float)
    /\ (Quiz_valid quiz = true ->
        ((length a =? 0) || negb (length a =? length (questions quiz)))%nat
        = false ->
        s = percentage (matching_positions (questions quiz) a)
                       (Z.of_nat (length (questions quiz)))
        /\ (Qabs (value s
                  - exact_percentage
                      (matching_positions (questions quiz) a)
                      (Z.of_nat (length (questions quiz))))
            <= 1 # 70368744177664)%Q).
Proof.
  destruct (calculate_score_returns quiz a)
    as (s & Heq & Hx & H0 & H100 & Hs).
  exists s. split; [exact Heq|]. split; [exact Hx|].
  split; [exact H0|]. split; [exact H100|]. split; [exact Hs|].
  intros Hvalid Hcond. rewrite Hcond in Hs. destruct Hs as (r & Hdiv & ->).
  pose proof (matching_positions_bounds (questions quiz) a) as Hcc.
  pose proof (Quiz_valid_length quiz Hvalid) as Hlen.
  assert (Hn' : 3 <= Z.of_nat (length (questions quiz)) <= 10) by lia.
  pose proof (validated_quotient _ _ Hn' Hcc) as Hq.
  cbn [truediv] in Hq. rewrite Hq in Hdiv. inversion Hdiv; subst r.
  split; [reflexivity|].
  apply (validated_percentage _ _ Hn' Hcc).
Qed.

(** X2.  The two scorers agree: whenever [evaluate_answers] returns a
    report, [Quiz.calculate_score] returns the score of that report for
    the same quiz and answers. *)
Theorem scorers_agree (quiz : Quiz) (a : list Z) (score : num)
  (correct total : Z) (fb : string) (rows : list Row.t) :
  evaluate_answers quiz a = Ret (Evaluated score correct total fb rows) ->
  calculate_score quiz a = Ret score.
Proof.
  intros Heval.
  apply evaluate_answers_report
    in Heval as (Hlen & Hne & (r & Hdiv & ->) & _).
  rewrite (calculate_score_matching quiz a Hlen Hne), Hdiv.
  reflexivity.
Qed.

Lemma scorers_agree_witness :
  calculate_score sample_quiz demo_answers
  = Ret (Float 66.66666666666666).
Proof.
  apply (scorers_agree sample_quiz demo_answers (Float 66.66666666666666)
           2 3 "Fair performance. Review the material and try again."
           (report_rows (questions sample_quiz) demo_answers)).
  vm_compute. reflexivity.
Defined.

(** X3.  Both scorers return percentages, for any quiz: the score
    [calculate_score] returns, and the score of any report
    [evaluate_answers] returns, is a [float] that is a number between 0
    and 100, so it satisfies the [mastery_score] constraint of
    [Module]. *)
Theorem scores_are_percentages (quiz : Quiz) (a : list Z) :
  (exists s : float,
      calculate_score quiz a = Ret (Float s)
      /\ xvalue (Float s) = Some (Real (value s))
      /\ (0 <= value s)%Q /\ (value s <= 100)%Q
      /\ mastery_score_ok (value s) = true)
  /\ (forall (score : num) (correct total : Z) (fb : string)
             (rows : list Row.t),
         evaluate_answers quiz a
         = Ret (Evaluated score correct total fb rows) ->
         exists s : float,
           score = Float s
           /\ xvalue (Float s) = Some (Real (value s))
           /\ (0 <= value s)%Q /\ (value s <= 100)%Q
           /\ mastery_score_ok (value s) = true).
Proof.
  assert (Hok : forall s : float,
            (0 <= value s)%Q -> (value s <= 100)%Q ->
            mastery_score_ok (value s) = true).
  { intros s H0 H100. unfold mastery_score_ok.
    apply andb_true_intro. split; now apply Qle_bool_iff. }
  split.
  - destruct (calculate_score_returns quiz a)
      as (s & Heq & Hx & H0 & H100 & _).
    exists s. auto 6.
  - intros score correct total fb rows Heval.
    apply evaluate_answers_report
      in Heval as (Hlen & Hne & (r & Hdiv & ->) & _).
    pose proof (matching_positions_bounds (questions quiz) a) as Hcc.
    assert (Hn : 0 < Z.of_nat (length (questions quiz))).
    { rewrite <- Hlen. destruct a; [contradiction | cbn [length]; lia]. }
    destruct (percentage_in_range _ _ Hcc Hn) as (r' & Hdiv' & Hx & H0 & H100).
    rewrite Hdiv in Hdiv'. inversion Hdiv'; subst r'.
    eexists. split; [reflexivity|]. auto.
Qed.

Lemma flagged_rows_count (pairs : list (QuizQuestion * Z)) :
  forall ns : list Z,
    length ns = length pairs ->
    length (filter Row.is_correct (map report_row (combine ns pairs)))
    = length (filter matches pairs).
Proof.
  induction pairs as [|[q x] pairs IH]; intros [|n ns] Hlen;
    try discriminate; [reflexivity|].
  cbn [combine map filter report_row Row.is_correct].
  unfold matches at 1. cbn [fst snd].
  injection Hlen as Hlen. specialize (IH ns Hlen).
  destruct (x =? correct_index q); cbn [length]; lia.
Qed.

(** X4.  A report of [evaluate_answers] is consistent with itself: it has
    one row per question, numbered from 1, each carrying the question
    text, the letters of the submitted and the correct answer, the
    correctness flag and the explanation; [correct] is the number of rows
    flagged correct, [total] the number of rows, the score is what
    [(correct / total) * 100] evaluates to, and the feedback is the one
    of the reported score. *)
Theorem report_is_consistent (quiz : Quiz) (a : list Z) (score : num)
  (correct total : Z) (fb : string) (rows : list Row.t) :
  evaluate_answers quiz a = Ret (Evaluated score correct total fb rows) ->
  rows = report_rows (questions quiz) a
  /\ length rows = length (questions quiz)
  /\ total = Z.of_nat (length rows)
  /\ correct = Z.of_nat (length (filter Row.is_correct rows))
  /\ fb = feedback_for score
  /\ (r <- truediv (Int correct) (Int total) ;; mul (Float r) (Int 100))
     = Ret score.
Proof.
  intros Heval.
  apply evaluate_answers_report in Heval
    as (Hlen & Hne & (r & Hdiv & Hs) & Hc & Ht & Hfb & Hrows).
  assert (Hcount : length rows = length (questions quiz)).
  { rewrite Hrows. unfold report_rows, enumerate, range.
    rewrite length_map, length_combine, length_map, length_seq,
      length_combine, Hlen.
    now rewrite !Nat.min_id. }
  split; [exact Hrows|]. split; [exact Hcount|].
  split; [now rewrite Hcount|]. split; [|split; [exact Hfb|]].
  - rewrite Hc, Hrows, matching_positions_filter.
    unfold report_rows, enumerate. f_equal. symmetry.
    apply flagged_rows_count. unfold range.
    now rewrite length_map, length_seq.
  - rewrite Hc, Ht. cbn [truediv]. rewrite Hdiv. cbn [bind].
    rewrite (proj1 (mul_float_100 r)), Hs. reflexivity.
Qed.

Lemma report_is_consistent_witness :
  exists rows,
    rows = report_rows (questions sample_quiz) demo_answers
    /\ length rows = length (questions sample_quiz)
    /\ 3 = Z.of_nat (length rows)
    /\ 2 = Z.of_nat (length (filter Row.is_correct rows))
    /\ "Fair performance. Review the material and try again."
       = feedback_for (Float 66.66666666666666)
    /\ (r <- truediv (Int 2) (Int 3) ;; mul (Float r) (Int 100))
       = Ret (Float 66.66666666666666).
Proof.
  eexists.
  apply (report_is_consistent sample_quiz demo_answers
           (Float 66.66666666666666) 2 3
           "Fair performance. Review the material and try again.").
  vm_compute. reflexivity.
Defined.

Lemma chr_raise_kind (i : Z) (e : exn) :
  chr i = Raise e -> e = ValueError \/ e = OverflowError.
Proof.
  unfold chr.
  destruct ((i <? -2147483648) || (2147483647 <? i)).
  - intros He. inversion He. now right.
  - destruct ((i <? 0) || (1114111 <? i)); [|discriminate].
    intros He. inversion He. now left.
Qed.

Lemma eval_loop_raise_kind (pairs : list (QuizQuestion * Z)) :
  forall (idx : Z) (results : list Row.t) (cc : Z) (e : exn),
    eval_loop idx pairs results cc = Raise e ->
    e = ValueError \/ e = OverflowError.
Proof.
  induction pairs as [|[q x] pairs IH]; intros idx results cc e Hrun.
  - discriminate.
  - cbn [eval_loop] in Hrun.
    destruct (chr (65 + x)) as [ua|e1] eqn:Hua; cbn [bind] in Hrun.
    + destruct (chr (65 + correct_index q)) as [ca|e2] eqn:Hca;
        cbn [bind] in Hrun.
      * now apply IH in Hrun.
      * inversion Hrun; subst. now apply chr_raise_kind in Hca.
    + inversion Hrun; subst. now apply chr_raise_kind in Hua.
Qed.

Lemma eval_loop_raises (qs : list QuizQuestion) :
  forall (a : list Z) (idx : Z) (results : list Row.t) (cc : Z),
    length a = length qs ->
    Exists (fun x => ~ printable_answer x) a ->
    exists e, eval_loop idx (combine qs a) results cc = Raise e.
Proof.
  induction qs as [|q qs IH]; intros [|x a] idx results cc Hlen Hex;
    try discriminate.
  - inversion Hex.
  - cbn [combine eval_loop].
    destruct (chr (65 + x)) as [ua|e1] eqn:Hua; cbn [bind];
      [|now exists e1].
    destruct (chr (65 + correct_index q)) as [ca|e2] eqn:Hca; cbn [bind];
      [|now exists e2].
    apply IH; [now injection Hlen|].
    inversion Hex as [? ? Hx|? ? Htail]; subst; [|exact Htail].
    exfalso. unfold printable_answer in Hx.
    destruct (chr_out_of_range (65 + x)) as [Hr|Hr];
      [lia | congruence | congruence].
Qed.

(** X5.  When [evaluate_answers] fails.  For a validated quiz and an
    answer list of the same length, the call raises exactly when some
    answer lies outside the domain of [chr(65 + answer)], and the
    exception is then a [ValueError] or an [OverflowError]; it never
    returns the mismatch dictionary. *)
Theorem evaluate_answers_failure (quiz : Quiz) (a : list Z) :
  Quiz_valid quiz = true ->
  length a = length (questions quiz) ->
  ((exists e, evaluate_answers quiz a = Raise e)
   <-> Exists (fun x => ~ printable_answer x) a)
  /\ (forall e, evaluate_answers quiz a = Raise e ->
                e = ValueError \/ e = OverflowError)
  /\ (forall msg s, evaluate_answers quiz a <> Ret (Mismatch msg s)).
Proof.
  intros Hvalid Hlen.
  pose proof (Quiz_valid_length quiz Hvalid) as Hn.
  pose proof (Quiz_valid_indices quiz Hvalid) as Hci.
  assert (Hn' : 3 <= Z.of_nat (length (questions quiz)) <= 10) by lia.
  assert (Hscore : forall results cc,
            0 <= cc <= Z.of_nat (length (questions quiz)) ->
            exists ev,
              (r <- truediv (Int cc)
                      (Int (Z.of_nat (length (questions quiz)))) ;;
               score <- mul (Float r) (Int 100) ;;
               Ret (Evaluated score cc
                      (Z.of_nat (length (questions quiz)))
                      (feedback_for score) results))
              = Ret ev /\ forall msg s, ev <> Mismatch msg s).
  { intros results cc Hcc.
    rewrite (validated_quotient _ _ Hn' Hcc). cbn [bind].
    rewrite (proj1 (mul_float_100 _)). cbn [bind].
    eexists. split; [reflexivity | discriminate]. }
  unfold evaluate_answers. rewrite Hlen, Nat.eqb_refl. cbn [negb].
  assert (Hloop : forall rows cc,
            eval_loop 0 (combine (questions quiz) a) [] 0 = Ret (rows, cc) ->
            0 <= cc <= Z.of_nat (length (questions quiz))).
  { intros rows cc Hrun.
    apply (eval_loop_result _ 0%nat) in Hrun as [_ Hcc].
    rewrite Z.add_0_l, <- matching_positions_filter in Hcc. subst cc.
    apply matching_positions_bounds. }
  split; [split|split].
  - intros [e He]. apply Exists_Forall_neg.
    + intros x. unfold printable_answer.
      destruct (Z_le_dec (-65) x), (Z_le_dec x 1114046); [left|right..]; lia.
    + intros Hall.
      destruct (eval_loop_returns (questions quiz) Hci a 0 [] 0 Hall)
        as [rows [Hrun _]].
      rewrite Hrun in He. cbn [bind] in He.
      destruct (Hscore ([] ++ rows)%list
                  (0 + matching_positions (questions quiz) a))
        as (ev & Hev & _);
        [rewrite Z.add_0_l; apply matching_positions_bounds|].
      rewrite Hev in He. discriminate.
  - intros Hex.
    destruct (eval_loop_raises (questions quiz) a 0 [] 0 Hlen Hex)
      as [e He].
    exists e. now rewrite He.
  - intros e He.
    destruct (eval_loop 0 (combine (questions quiz) a) [] 0)
      as [[rows cc]|e'] eqn:Hrun; cbn [bind] in He.
    + destruct (Hscore rows cc (Hloop rows cc eq_refl)) as (ev & Hev & _).
      rewrite Hev in He. discriminate.
    + inversion He; subst. now apply eval_loop_raise_kind in Hrun.
  - intros msg s.
    destruct (eval_loop 0 (combine (questions quiz) a) [] 0)
      as [[rows cc]|e'] eqn:Hrun; cbn [bind]; [|discriminate].
    destruct (Hscore rows cc (Hloop rows cc eq_refl)) as (ev & Hev & Hne).
    rewrite Hev. intros Hc. inversion Hc. now apply (Hne msg s).
Qed.

Lemma evaluate_answers_failure_witness :
  ((exists e, evaluate_answers sample_quiz [-66; 0; 1] = Raise e)
   <-> Exists (fun x => ~ printable_answer x) [-66; 0; 1])
  /\ (forall e, evaluate_answers sample_quiz [-66; 0; 1] = Raise e ->
                e = ValueError \/ e = OverflowError)
  /\ (forall msg s,
         evaluate_answers sample_quiz [-66; 0; 1] <> Ret (Mismatch msg s)).
Proof.
  apply (evaluate_answers_failure sample_quiz [-66; 0; 1]); reflexivity.
Defined.

(** ** More on [complete_module] and [get_active_module] *)

Section PlanInvariants.
Context `{DatetimeLib}.

Lemma map_update_at {A B : Type} (f : A -> B) (g : A -> A) (i : nat)
  (l : list A) :
  (forall x, f (g x) = f x) -> map f (update_at i g l) = map f l.
Proof.
  intros Hfg. revert i.
  induction l as [|x l IH]; intros [|i]; cbn; try reflexivity.
  - now rewrite Hfg.
  - now rewrite IH.
Qed.

(** X6.  [complete_module] only ever touches [status] and
    [mastery_score]: for every plan, id and score, the plan keeps its
    skill, level and creation time, and the modules keep their number,
    order, ids, titles, topics and estimated hours. *)
Theorem complete_module_preserves_structure (p : LearningPlan)
  (module_id : Z) (score : Q) :
  let p' := complete_module p module_id score in
  skill p' = skill p
  /\ level p' = level p
  /\ created p' = created p
  /\ length (modules p') = length (modules p)
  /\ map id (modules p') = map id (modules p)
  /\ map title (modules p') = map title (modules p)
  /\ map topics (modules p') = map topics (modules p)
  /\ map estimated_hours (modules p') = map estimated_hours (modules p).
Proof.
  assert (Hkeep : forall (B : Type) (f : Module_ -> B),
             (forall (st : ModuleStatus) m, f (set_status st m) = f m) ->
             (forall (sc : Q) m, f (set_mastery_score sc m) = f m) ->
             map f (modules (complete_module p module_id score))
             = map f (modules p)).
  { intros B f Hst Hsc. unfold complete_module.
    destruct (first_index module_id (modules p) 0) as [idx|];
      [|reflexivity].
    destruct (idx + 1 <? length (modules p))%nat;
      cbn [modules with_modules];
      rewrite ?map_update_at; try reflexivity; intros x;
      now rewrite ?Hsc, ?Hst. }
  cbv zeta. repeat split;
    try (apply Hkeep; reflexivity).
  - unfold complete_module.
    destruct (first_index _ _ _); [|reflexivity].
    now destruct (_ <? _)%nat.
  - unfold complete_module.
    destruct (first_index _ _ _); [|reflexivity].
    now destruct (_ <? _)%nat.
  - unfold complete_module.
    destruct (first_index _ _ _); [|reflexivity].
    now destruct (_ <? _)%nat.
  - rewrite <- (length_map id), <- (length_map id (modules p)).
    f_equal. apply Hkeep; reflexivity.
Qed.

Lemma Module_valid_set_status (st : ModuleStatus) (m : Module_) :
  Module_valid (set_status st m) = Module_valid m.
Proof. reflexivity. Qed.

(** X7.  [complete_module] stores the score without validating it: on a
    plan whose modules all satisfy the [Module] constraints and which
    holds the requested id, the modules all satisfy them afterwards
    exactly when [0 <= score <= 100]. *)
Theorem complete_module_validity (p : LearningPlan) (module_id : Z)
  (score : Q) :
  Forall (fun m => Module_valid m = true) (modules p) ->
  Exists (fun m => id m = module_id) (modules p) ->
  (Forall (fun m => Module_valid m = true)
          (modules (complete_module p module_id score))
   <-> mastery_score_ok score = true).
Proof.
  intros Hvalid Hex.
  destruct (first_match_split module_id (modules p) Hex)
    as (pre & m & post & Hms & Hpre & Hm).
  rewrite (complete_module_at p module_id score pre m post Hms Hpre Hm).
  cbn [modules with_modules]. rewrite Hms in Hvalid.
  apply Forall_app in Hvalid as [Hvpre Hvrest].
  inversion Hvrest as [|? ? Hvm Hvpost]; subst.
  assert (Hunlock : Forall (fun m => Module_valid m = true)
                           (unlock_first post)).
  { destruct post as [|nxt rest]; [constructor|].
    inversion Hvpost; subst. constructor; assumption. }
  unfold Module_valid in Hvm. apply andb_prop in Hvm as [Hh _].
  split.
  - intros Hall. apply Forall_app in Hall as [_ Hall].
    inversion Hall as [|? ? Hc _]; subst.
    unfold Module_valid in Hc. cbn [estimated_hours mastery_score
                                      completed_with] in Hc.
    now apply andb_prop in Hc as [_ Hc].
  - intros Hs. apply Forall_app. split; [exact Hvpre|].
    constructor; [|exact Hunlock].
    unfold Module_valid. cbn [estimated_hours mastery_score completed_with].
    now rewrite Hh, Hs.
Qed.

(** X8.  Unlocking as seen through [get_active_module].  In a plan with
    distinct ids made of completed modules, one active module and locked
    modules, completing the active module makes [get_active_module]
    return its immediate successor, now active, or nothing when it was
    the last module. *)
Theorem get_active_module_after_completion (p : LearningPlan)
  (done : list Module_) (cur : Module_) (todo : list Module_) (score : Q) :
  modules p = (done ++ cur :: todo)%list ->
  Forall (fun m => status m = COMPLETED) done ->
  status cur = ACTIVE ->
  Forall (fun m => status m = LOCKED) todo ->
  NoDup (map id (done ++ cur :: todo)) ->
  get_active_module p = Some cur
  /\ get_active_module (complete_module p (id cur) score)
     = match todo with
       | [] => None
       | nxt :: _ => Some (set_status ACTIVE nxt)
       end.
Proof.
  intros Hms Hdone Hcur Htodo Hnd.
  destruct (stage_step p done cur todo score Hms Hdone Hcur Htodo Hnd)
    as (Hact & _).
  split; [exact Hact|].
  rewrite (complete_module_at p (id cur) score done cur todo Hms
             (NoDup_ids_before done cur todo Hnd) eq_refl).
  unfold get_active_module. cbn [modules with_modules].
  destruct (status_flags _ _ Hdone) as [Hda _]. cbn in Hda.
  change (fun m : Module_ => ModuleStatus_eqb (status m) ACTIVE)
    with is_active.
  rewrite (find_skip is_active done _ Hda). cbn [find].
  change (is_active (completed_with score cur)) with false. cbv iota.
  destruct todo as [|nxt rest]; [reflexivity|].
  cbn [unlock_first find].
  now change (is_active (set_status ACTIVE nxt)) with true.
Qed.

End PlanInvariants.

Lemma complete_module_validity_witness :
  (Forall (fun m => Module_valid m = true)
          (modules (complete_module demo_plan 1 150%Q))
   <-> mastery_score_ok 150%Q = true)
  /\ mastery_score_ok 150%Q = false.
Proof.
  split; [|reflexivity].
  apply (@complete_module_validity text_datetime demo_plan 1 150%Q).
  - repeat constructor.
  - left. reflexivity.
Defined.

Lemma get_active_module_after_completion_witness :
  get_active_module demo_plan
  = Some (Build_Module 1 "Foundations of Python" ACTIVE
            placeholder_topics 4 0%Q)
  /\ get_active_module (complete_module demo_plan 1 80%Q)
     = Some (Build_Module 2 "Core Concepts in Python" ACTIVE
               placeholder_topics 6 0%Q).
Proof.
  apply (@get_active_module_after_completion text_datetime demo_plan []
           (Build_Module 1 "Foundations of Python" ACTIVE
              placeholder_topics 4 0%Q)
           [Build_Module 2 "Core Concepts in Python" LOCKED
              placeholder_topics 6 0%Q;
            Build_Module 3 "Practical Applications of Python" LOCKED
              placeholder_topics 8 0%Q]
           80%Q).
  - reflexivity.
  - constructor.
  - reflexivity.
  - repeat constructor.
  - repeat constructor; cbn; intuition discriminate.
Defined.

(** ** Invariants of the profile statistics *)

Lemma Dict_set_keys {V : Type} (k : string) (v : V) (d : Dict.t V) :
  map fst (Dict.set k v d)
  = if Dict.contains k d then map fst d else (map fst d ++ [k])%list.
Proof.
  induction d as [|[k' v'] d IH]; cbn [Dict.set Dict.contains map fst app].
  - reflexivity.
  - destruct (String.eqb k k'); cbn [map fst]; [reflexivity|].
    rewrite IH. now destruct (Dict.contains k d).
Qed.

Lemma Dict_contains_In {V : Type} (k : string) (d : Dict.t V) :
  Dict.contains k d = false -> ~ In k (map fst d).
Proof.
  induction d as [|[k' v'] d IH]; cbn [Dict.contains map fst];
    [intros _ []|].
  destruct (String.eqb_spec k k') as [->|Hneq]; [discriminate|].
  intros Hc [Heq|Hin]; [congruence | now apply IH].
Qed.

Lemma Dict_set_NoDup {V : Type} (k : string) (v : V) (d : Dict.t V) :
  NoDup (map fst d) -> NoDup (map fst (Dict.set k v d)).
Proof.
  intros Hnd. rewrite Dict_set_keys.
  destruct (Dict.contains k d) eqn:Hc; [exact Hnd|].
  apply NoDup_app; [exact Hnd | repeat constructor; intros [] |].
  intros x Hx [<-|[]]. now apply (Dict_contains_In k d Hc).
Qed.

Lemma Dict_set_Forall {V : Type} (P : V -> Prop) (k : string) (v : V)
  (d : Dict.t V) :
  Forall (fun kv => P (snd kv)) d -> P v ->
  Forall (fun kv => P (snd kv)) (Dict.set k v d).
Proof.
  intros Hd Hv. induction Hd as [|[k' v'] d Hx Hd IH]; cbn [Dict.set].
  - now repeat constructor.
  - destruct (String.eqb k k'); constructor; assumption.
Qed.

Section ProfileInvariants.
Context `{DatetimeLib}.

Lemma new_UserProfile_consistent (uid : string) (now : datetime) :
  consistent (new_UserProfile uid now).
Proof.
  unfold consistent, new_UserProfile. cbn.
  split; [constructor|]. split; [constructor|]. split; [reflexivity|].
  intros Hne. now contradiction Hne.
Qed.

(** One call that returns keeps the statistics consistent. *)
Lemma update_keeps_consistent (p p' : UserProfile)
  (skill module_title : string) (score : num)
  (t_completed t_updated : datetime) :
  consistent p ->
  update_skill_progress p skill module_title score t_completed t_updated
  = Returned p' ->
  consistent p'
  /\ total_modules_completed p' = total_modules_completed p + 1
  /\ user_id p' = user_id p
  /\ Permutation (all_scores (skills p')) (all_scores (skills p) ++ [score]).
Proof.
  intros (Hnd & Hall & Htot & _) Hupd.
  rewrite update_skill_progress_eq in Hupd. cbv zeta in Hupd.
  set (entry := Completion.Build module_title score (isoformat t_completed))
    in *.
  set (new := (recorded skill (skills p) ++ [entry])%list) in *.
  destruct (mean (map Completion.score new)) as [avg|e] eqn:Havg;
    [|discriminate].
  pose proof (all_scores_grow skill (skills p) entry (Float avg)) as Hperm.
  fold new in Hperm. cbn [Completion.score entry] in Hperm.
  set (sk' := Dict.set skill (SkillData.Build new (Float avg)) (skills p))
    in *.
  destruct (mean (all_scores sk')) as [overall|e] eqn:Ho; [|discriminate].
  inversion Hupd; subst p'. clear Hupd.
  cbn [skills total_modules_completed overall_avg_score user_id].
  split; [|split; [reflexivity | split; [reflexivity | exact Hperm]]].
  unfold consistent.
  cbn [skills total_modules_completed overall_avg_score].
  split; [now apply Dict_set_NoDup|]. split; [|split].
  - apply (Dict_set_Forall
             (fun sd => SkillData.modules sd <> []
                        /\ exists a : float,
                             mean (SkillData.scores sd) = Ret a
                             /\ SkillData.avg_score sd = Float a));
      [exact Hall|].
    cbn [SkillData.modules SkillData.avg_score]. split.
    + unfold new. now destruct (recorded skill (skills p)).
    + exists avg. split; [exact Havg | reflexivity].
  - rewrite (Permutation_length Hperm), length_app, Htot.
    cbn [length]. lia.
  - intros _. exact Ho.
Qed.

(** Float scores, fewer than 2^53 of them in the end: every call of the
    sequence returns. *)
Lemma run_updates_floats (us : list progress_update) :
  forall p : UserProfile,
    Forall is_float (all_scores (skills p)) ->
    Forall (fun u => is_float (upd_score u)) us ->
    Z.of_nat (length (all_scores (skills p))) + Z.of_nat (length us)
    < 2 ^ 53 ->
    exists p' : UserProfile, run_updates p us = Ret p'.
Proof.
  induction us as [|u us IH]; intros p Hall Hus Hlen.
  - exists p. reflexivity.
  - cbn [run_updates]. cbn [length] in Hlen.
    apply Forall_cons_iff in Hus as [Hu Hus].
    destruct (update_skill_progress_floats p (upd_skill u) (upd_title u)
                (upd_score u) (upd_completed u) (upd_updated u) Hu Hall)
      as (avg & overall & _ & _ & Hall' & Hret); [lia|].
    cbv zeta in Hall', Hret. rewrite Hret. cbn [result bind].
    apply IH; cbn [skills]; [exact Hall' | exact Hus |].
    rewrite (Permutation_length
               (all_scores_grow (upd_skill u) (skills p) _ (Float avg))).
    rewrite length_app. cbn [length]. lia.
Qed.

(** X9.  The profile statistics stay consistent under any sequence of
    [update_skill_progress] calls that return: starting from a
    consistent profile (the empty one is), skill names stay distinct,
    every [avg_score] is what [sum(scores) / len(scores)] gives on the
    scores recorded under its skill, [overall_avg_score] is what the
    quotient gives on all recorded scores, and [total_modules_completed]
    is the number of records, having grown by one per call.  When all
    scores are floats, fewer than 2^53 of them in the end, every call of
    the sequence does return. *)
Theorem updates_keep_statistics_consistent (p : UserProfile)
  (us : list progress_update) :
  consistent p ->
  (forall p' : UserProfile,
      run_updates p us = Ret p' ->
      consistent p'
      /\ total_modules_completed p'
         = total_modules_completed p + Z.of_nat (length us)
      /\ user_id p' = user_id p)
  /\ (Forall is_float (all_scores (skills p)) ->
      Forall (fun u => is_float (upd_score u)) us ->
      Z.of_nat (length (all_scores (skills p))) + Z.of_nat (length us)
      < 2 ^ 53 ->
      exists p' : UserProfile, run_updates p us = Ret p').
Proof.
  intros Hcons. split; [|apply run_updates_floats].
  revert p Hcons. induction us as [|u us IH]; intros p Hcons p' Hrun.
  - cbn [run_updates] in Hrun. inversion Hrun; subst p'.
    split; [exact Hcons|]. split; [cbn [length]; lia | reflexivity].
  - cbn [run_updates] in Hrun.
    destruct (update_skill_progress p (upd_skill u) (upd_title u)
                (upd_score u) (upd_completed u) (upd_updated u))
      as [p1|p1 e] eqn:Hupd; cbn [result bind] in Hrun; [|discriminate].
    destruct (update_keeps_consistent p p1 _ _ _ _ _ Hcons Hupd)
      as (Hcons1 & Htot1 & Huid1 & _).
    destruct (IH p1 Hcons1 p' Hrun) as (Hc' & Ht' & Hu').
    split; [exact Hc'|]. split.
    + rewrite Ht', Htot1. cbn [length]. lia.
    + now rewrite Hu'.
Qed.

End ProfileInvariants.

Lemma updates_keep_statistics_consistent_witness :
  exists p',
    @run_updates text_datetime
      (@new_UserProfile text_datetime "alice" "2024-01-01 09:00:00")
      [@Build_progress_update text_datetime "python" "Foundations" (Float 80)
         "2024-01-02T10:00:00" "2024-01-02 10:00:00";
       @Build_progress_update text_datetime "rust" "Ownership" (Float 70)
         "2024-01-03T10:00:00" "2024-01-03 10:00:00";
       @Build_progress_update text_datetime "python" "Core" (Float 90)
         "2024-01-04T10:00:00" "2024-01-04 10:00:00"]
    = Ret p'
    /\ consistent p'
    /\ total_modules_completed p' = 0 + Z.of_nat 3
    /\ user_id p' = "alice".
Proof.
  destruct (@updates_keep_statistics_consistent text_datetime
              (@new_UserProfile text_datetime "alice" "2024-01-01 09:00:00")
              [@Build_progress_update text_datetime "python" "Foundations"
                 (Float 80) "2024-01-02T10:00:00" "2024-01-02 10:00:00";
               @Build_progress_update text_datetime "rust" "Ownership"
                 (Float 70) "2024-01-03T10:00:00" "2024-01-03 10:00:00";
               @Build_progress_update text_datetime "python" "Core"
                 (Float 90) "2024-01-04T10:00:00" "2024-01-04 10:00:00"]
              (new_UserProfile_consistent _ _))
    as [Hkeep Hret].
  destruct Hret as [p' Hp'].
  - constructor.
  - repeat constructor.
  - vm_compute. reflexivity.
  - exists p'. split; [exact Hp' | apply Hkeep; exact Hp'].
Defined.

(** X10.  Averages are rounded, so they need not lie within the range of
    the scores: three records of 0.1 under one skill give an [avg_score]
    and an [overall_avg_score] of 0.10000000000000002, which is greater
    than every recorded score.  With the records 80.0 and 90.0 of the
    example profile a third score of 70.0 gives 80.0 for both. *)
Theorem averages_are_rounded :
  (exists p1 p2 p3 : @UserProfile text_datetime,
      update_skill_progress
        (@new_UserProfile text_datetime "alice" "2024-01-01 09:00:00")
        "python" "Foundations" (Float 0.1)
        "2024-01-02T10:00:00" "2024-01-02 10:00:00"
      = Returned p1
      /\ update_skill_progress p1 "python" "Core" (Float 0.1)
           "2024-01-03T10:00:00" "2024-01-03 10:00:00"
         = Returned p2
      /\ update_skill_progress p2 "python" "Practical" (Float 0.1)
           "2024-01-04T10:00:00" "2024-01-04 10:00:00"
         = Returned p3
      /\ all_scores (skills p3) = [Float 0.1; Float 0.1; Float 0.1]
      /\ held_avg "python" (skills p3) = Float 0.10000000000000002
      /\ overall_avg_score p3 = 0.10000000000000002%float
      /\ gt (held_avg "python" (skills p3)) (Float 0.1) = true)
  /\ (exists p' : @UserProfile text_datetime,
        update_skill_progress demo_profile "python" "Practical" (Float 70)
          "2024-01-05T10:00:00" "2024-01-05 10:00:00"
        = Returned p'
        /\ held_avg "python" (skills p') = Float 80
        /\ overall_avg_score p' = 80%float).
Proof.
  split.
  - do 3 eexists.
    split; [vm_compute; reflexivity|].
    split; [vm_compute; reflexivity|].
    split; [vm_compute; reflexivity|].
    repeat split; vm_compute; reflexivity.
  - eexists. split; [vm_compute; reflexivity|].
    split; vm_compute; reflexivity.
Qed.

(** ** More on the profile store *)

Lemma path_eqb_eq (a b : list string) : FS.path_eqb a b = true <-> a = b.
Proof.
  unfold FS.path_eqb. destruct (list_eq_dec string_dec a b); split;
    congruence.
Qed.

Lemma lookup_store_other (p tgt : list string) (doc : json)
  (fl : list (list string * json)) :
  p <> tgt -> FS.lookup p (FS.store tgt doc fl) = FS.lookup p fl.
Proof.
  intros Hneq. induction fl as [|[p' c'] fl IH]; cbn [FS.store FS.lookup].
  - destruct (FS.path_eqb p tgt) eqn:E; [|reflexivity].
    now apply path_eqb_eq in E.
  - destruct (FS.path_eqb tgt p') eqn:E; cbn [FS.lookup].
    + apply path_eqb_eq in E. subst p'.
      destruct (FS.path_eqb p tgt) eqn:E'; [|reflexivity].
      now apply path_eqb_eq in E'.
    + now rewrite IH.
Qed.

(** When the kernel resolves a path, it resolves it to where the lexical
    resolution leads. *)
Lemma walk_resolve (fs : FS.t) (comps : list string) :
  forall cur tgt : list string,
    FS.walk fs cur comps = Ret tgt -> tgt = resolve_from cur comps.
Proof.
  induction comps as [|c comps IH]; intros cur tgt Hw.
  - cbn in *. now inversion Hw.
  - cbn [FS.walk resolve_from] in *.
    destruct comps as [|c' comps]; [now inversion Hw|].
    destruct (FS.is_dir fs _); [now apply IH|].
    destruct (FS.is_file fs _); discriminate.
Qed.

Lemma locate_resolve (fs : FS.t) (p : Path) (tgt : list string) :
  FS.locate fs p = Ret tgt -> tgt = resolve (FS.cwd fs) p.
Proof.
  unfold FS.locate, resolve.
  destruct (has_char Ascii.zero (str_of_path p)); [discriminate|].
  destruct (root p); apply walk_resolve.
Qed.

(** What a successful write leaves behind. *)
Lemma write_shape (fs fs' : FS.t) (p : Path) (doc : json) :
  FS.write fs p doc = Ret fs' ->
  exists tgt,
    FS.locate fs p = Ret tgt
    /\ FS.is_dir fs tgt = false
    /\ FS.is_dir fs (removelast tgt) = true
    /\ fs' = FS.Build (FS.cwd fs) (FS.dirs fs)
                      (FS.store tgt doc (FS.files fs)).
Proof.
  unfold FS.write.
  destruct (FS.locate fs p) as [tgt|e]; cbn [bind]; [|discriminate].
  destruct (FS.is_dir fs tgt) eqn:Hd; [discriminate|].
  destruct (FS.is_dir fs (removelast tgt)) eqn:Hp; cbn [negb];
    [|discriminate].
  intros Hw. inversion Hw. exists tgt. now repeat split.
Qed.

(** Reading at [p] after a write elsewhere. *)
Lemma exists_read_after_other_write (fs fs' : FS.t) (pw p : Path)
  (doc : json) :
  FS.write fs pw doc = Ret fs' ->
  resolve (FS.cwd fs) p <> resolve (FS.cwd fs) pw ->
  FS.exists_ fs' p = FS.exists_ fs p
  /\ (FS.exists_ fs p = true -> FS.read fs' p = FS.read fs p).
Proof.
  intros Hw Hneq.
  destruct (write_shape _ _ _ _ Hw) as (tw & Hlw & _ & _ & ->).
  apply locate_resolve in Hlw. subst tw.
  set (fs' := FS.Build _ _ _).
  assert (Hdir : forall q, FS.is_dir fs' q = FS.is_dir fs q) by reflexivity.
  destruct (FS.locate fs p) as [t|e] eqn:Hl.
  - assert (Hl' : FS.locate fs' p = Ret t)
      by (apply (locate_same_dirs fs); [reflexivity | reflexivity | exact Hl]).
    assert (Ht : t <> resolve (FS.cwd fs) pw)
      by (apply locate_resolve in Hl; congruence).
    assert (Hfile : FS.lookup t (FS.files fs') = FS.lookup t (FS.files fs))
      by (apply lookup_store_other; exact Ht).
    unfold FS.exists_, FS.read, FS.is_file. rewrite Hl, Hl'. cbn [bind].
    rewrite Hdir, Hfile. split; reflexivity.
  - assert (Hl' : exists e', FS.locate fs' p = Raise e').
    { destruct (FS.locate fs' p) as [t|e'] eqn:Hl'; [|now exists e'].
      apply (locate_same_dirs fs' fs) in Hl'; [congruence | reflexivity..]. }
    destruct Hl' as [e' Hl'].
    unfold FS.exists_. rewrite Hl, Hl'. split; [reflexivity | discriminate].
Qed.

Lemma resolve_profile_path_plain (cwd : list string) (user_id : string) :
  has_char "/" user_id = false ->
  resolve cwd (_get_profile_path user_id)
  = (((cwd ++ ["data"]) ++ ["user_profiles"])
     ++ [(user_id ++ ".json")%string])%list.
Proof.
  intros Hs. destruct (file_name_component user_id Hs) as (_ & _ & Hdd).
  rewrite (profile_path_plain user_id Hs).
  unfold resolve. cbn [root parts resolve_from].
  change (String.eqb "data" "..") with false.
  change (String.eqb "user_profiles" "..") with false.
  now rewrite Hdd.
Qed.


Section StoreProperties.
Context `{DatetimeLib}.

(** X11.  Users do not disturb each other: for two different user ids
    without ["/"], saving the profile of one leaves what [_load_profile]
    returns for the other unchanged. *)
Theorem save_leaves_other_users_alone (fs fs' : FS.t) (p : UserProfile)
  (other : string) (now : datetime) :
  has_char "/" (user_id p) = false ->
  has_char "/" other = false ->
  other <> user_id p ->
  _save_profile fs p = Ret fs' ->
  _load_profile fs' other now = _load_profile fs other now.
Proof.
  intros Hp Ho Hneq Hsave. unfold _save_profile in Hsave.
  assert (Hres : resolve (FS.cwd fs) (_get_profile_path other)
                 <> resolve (FS.cwd fs) (_get_profile_path (user_id p))).
  { rewrite !resolve_profile_path_plain by assumption. intros Heq.
    apply app_inj_tail in Heq as [_ Heq].
    apply append_inj_l in Heq. contradiction. }
  destruct (exists_read_after_other_write _ _ _ _ _ Hsave Hres)
    as [Hex Hread].
  unfold _load_profile. rewrite Hex.
  destruct (FS.exists_ fs (_get_profile_path other)) eqn:E; [|reflexivity].
  now rewrite (Hread eq_refl).
Qed.


End StoreProperties.

Lemma save_leaves_other_users_alone_witness :
  exists fs',
    _save_profile demo_fs demo_profile = Ret fs'
    /\ @_load_profile text_datetime fs' "bob" "2024-02-01 00:00:00"
       = @_load_profile text_datetime demo_fs "bob" "2024-02-01 00:00:00".
Proof.
  eexists. split; [reflexivity|].
  apply (@save_leaves_other_users_alone text_datetime demo_fs _
           demo_profile "bob" "2024-02-01 00:00:00");
    try reflexivity.
  discriminate.
Defined.


(** [mkdir] only adds directories, and only where no file is. *)
Lemma mkdir_from_shape (comps : list string) :
  forall (fs fs' : FS.t) (cur : list string),
    FS.mkdir_from fs cur comps = Ret fs' ->
    FS.cwd fs' = FS.cwd fs
    /\ FS.files fs' = FS.files fs
    /\ (forall q, FS.is_dir fs q = true -> FS.is_dir fs' q = true)
    /\ (forall q, FS.is_dir fs' q = true ->
                  FS.is_dir fs q = true \/ FS.is_file fs q = false).
Proof.
  induction comps as [|c comps IH]; intros fs fs' cur Hmk.
  - cbn in Hmk. inversion Hmk; subst. repeat split; auto.
  - cbn [FS.mkdir_from] in Hmk.
    set (nxt := if String.eqb c ".." then removelast cur
                else (cur ++ [c])%list) in *.
    destruct (FS.is_file fs nxt) eqn:Hfile; [discriminate|].
    destruct (FS.is_dir fs nxt) eqn:Hdir.
    + now apply IH in Hmk.
    + apply IH in Hmk as (Hc & Hf & Hup & Hdown).
      cbn [FS.cwd FS.files] in Hc, Hf.
      split; [exact Hc|]. split; [exact Hf|]. split.
      * intros q Hq. apply Hup. now apply is_dir_added.
      * intros q Hq. apply Hdown in Hq as [Hq|Hq].
        -- unfold FS.is_dir in Hq |- *. destruct q as [|x q]; [now left|].
           cbn [FS.dirs existsb] in Hq.
           apply orb_prop in Hq as [Hq|Hq]; [|now left].
           apply path_eqb_eq in Hq. right. now rewrite Hq.
        -- now right.
Qed.

Lemma walk_more_dirs (fs fs' : FS.t) (comps : list string) :
  (forall q, FS.is_dir fs q = true -> FS.is_dir fs' q = true) ->
  forall cur tgt : list string,
    FS.walk fs cur comps = Ret tgt -> FS.walk fs' cur comps = Ret tgt.
Proof.
  intros Hup. induction comps as [|c comps IH]; intros cur tgt Hw;
    [exact Hw|].
  cbn [FS.walk] in *. destruct comps as [|c' comps]; [exact Hw|].
  destruct (FS.is_dir fs _) eqn:Hd.
  - rewrite (Hup _ Hd). now apply IH.
  - destruct (FS.is_file fs _); discriminate.
Qed.

Lemma init_shape (fs0 fs : FS.t) :
  init fs0 = Ret fs ->
  FS.cwd fs = FS.cwd fs0
  /\ FS.files fs = FS.files fs0
  /\ (forall q, FS.is_dir fs0 q = true -> FS.is_dir fs q = true)
  /\ (forall q, FS.is_dir fs q = true ->
                FS.is_dir fs0 q = true \/ FS.is_file fs0 q = false).
Proof.
  unfold init, FS.mkdir_p.
  destruct (has_char Ascii.zero (str_of_path storage_path)); [discriminate|].
  destruct (root storage_path); apply mkdir_from_shape.
Qed.

Lemma read_after_init (fs0 fs : FS.t) (p : Path) (doc : json) :
  init fs0 = Ret fs ->
  FS.read fs0 p = Ret doc ->
  FS.read fs p = Ret doc /\ FS.exists_ fs p = true.
Proof.
  intros Hinit Hread.
  destruct (init_shape fs0 fs Hinit) as (Hc & Hf & Hup & Hdown).
  unfold FS.read in Hread.
  destruct (FS.locate fs0 p) as [tgt|e] eqn:Hl; cbn [bind] in Hread;
    [|discriminate].
  destruct (FS.is_dir fs0 tgt) eqn:Hd; [discriminate|].
  destruct (FS.lookup tgt (FS.files fs0)) as [doc'|] eqn:Hlk;
    [|discriminate].
  inversion Hread; subst doc'. clear Hread.
  assert (Hl' : FS.locate fs p = Ret tgt).
  { unfold FS.locate in *. rewrite Hc.
    destruct (has_char Ascii.zero (str_of_path p)); [discriminate|].
    destruct (root p); now apply (walk_more_dirs fs0). }
  assert (Hd' : FS.is_dir fs tgt = false).
  { destruct (FS.is_dir fs tgt) eqn:E; [|reflexivity].
    apply Hdown in E as [E|E]; [congruence|].
    unfold FS.is_file in E. now rewrite Hlk in E. }
  unfold FS.read, FS.exists_, FS.is_file.
  rewrite Hl'. cbn [bind]. rewrite Hd', Hf, Hlk. now split.
Qed.

Lemma init_twice (fs0 fs : FS.t) : init fs0 = Ret fs -> init fs = Ret fs.
Proof.
  intros Hinit.
  destruct (init_storage_exists fs0 fs Hinit) as (Hcwd & Hd1 & Hd2).
  destruct (init_shape fs0 fs Hinit) as (_ & Hf & _ & _).
  revert Hinit. unfold init, FS.mkdir_p.
  change (has_char Ascii.zero (str_of_path storage_path)) with false.
  change (root storage_path) with Relative.
  change (parts storage_path) with ["data"; "user_profiles"].
  cbn [FS.mkdir_from].
  change (String.eqb "data" "..") with false.
  change (String.eqb "user_profiles" "..") with false. cbv iota.
  rewrite Hcwd, Hd1.
  unfold FS.is_file at 3 4. rewrite Hf.
  fold (FS.is_file fs0 (FS.cwd fs0 ++ ["data"])%list).
  destruct (FS.is_file fs0 (FS.cwd fs0 ++ ["data"])%list); [discriminate|].
  rewrite Hd2.
  fold (FS.is_file fs0 ((FS.cwd fs0 ++ ["data"]) ++ ["user_profiles"])%list).
  destruct (FS.is_dir fs0 (FS.cwd fs0 ++ ["data"])%list).
  - destruct (FS.is_file fs0 _); [discriminate | reflexivity].
  - unfold FS.is_file at 1. cbn [FS.files].
    fold (FS.is_file fs0
            ((FS.cwd fs0 ++ ["data"]) ++ ["user_profiles"])%list).
    destruct (FS.is_file fs0 _); [discriminate | reflexivity].
Qed.

Section InitProperties.
Context `{DatetimeLib}.

(** X13.  Constructing the manager again loses nothing:
    [KnowledgeProfileManager.__init__] leaves every stored file as it is,
    a second [__init__] changes nothing at all, and every profile that
    [_load_profile] returned from its file before is returned unchanged
    afterwards. *)
Theorem init_keeps_stored_profiles (fs0 fs : FS.t) :
  init fs0 = Ret fs ->
  FS.files fs = FS.files fs0
  /\ init fs = Ret fs
  /\ (forall (user_id : string) (now : datetime) (prof : UserProfile),
         FS.exists_ fs0 (_get_profile_path user_id) = true ->
         _load_profile fs0 user_id now = Ret prof ->
         _load_profile fs user_id now = Ret prof).
Proof.
  intros Hinit.
  destruct (init_shape fs0 fs Hinit) as (_ & Hf & _ & _).
  split; [exact Hf|]. split; [now apply (init_twice fs0)|].
  intros user_id now prof Hex Hload.
  unfold _load_profile in *. rewrite Hex in Hload.
  destruct (FS.read fs0 (_get_profile_path user_id)) as [doc|e] eqn:Hread;
    cbn [bind] in Hload; [|discriminate].
  destruct (read_after_init fs0 fs _ doc Hinit Hread) as [Hread' Hex'].
  now rewrite Hex', Hread'.
Qed.

End InitProperties.

Lemma init_keeps_stored_profiles_witness :
  FS.files stored_fs = FS.files stored_fs
  /\ init stored_fs = Ret stored_fs
  /\ (forall (user_id : string) (now : @datetime text_datetime)
             (prof : @UserProfile text_datetime),
         FS.exists_ stored_fs (_get_profile_path user_id) = true ->
         _load_profile stored_fs user_id now = Ret prof ->
         _load_profile stored_fs user_id now = Ret prof).
Proof.
  apply (@init_keeps_stored_profiles text_datetime stored_fs stored_fs).
  reflexivity.
Defined.

(** ** The tool entry point of the profile manager *)

(** Which exceptions the arithmetic can raise. *)
Lemma to_float_raise (x : SpecFloat.spec_float) (e : exn) :
  to_float x = Raise e -> e = OverflowError.
Proof. destruct x; cbn [to_float]; intros Hr; now inversion Hr. Qed.

Lemma as_float_raise (x : num) (e : exn) :
  as_float x = Raise e -> e = OverflowError.
Proof.
  destruct x as [z|f]; cbn [as_float]; [|discriminate].
  apply to_float_raise.
Qed.







(** The order behind [>]: transitive, and total away from NaN. *)
Lemma xcompare_gt_trans (a b c : xreal) :
  xcompare a b = Gt -> xcompare b c = Gt -> xcompare a c = Gt.
Proof.
  destruct a as [|p|], b as [|q|], c as [|r|]; cbn [xcompare];
    try reflexivity; try discriminate.
  rewrite <- !Qgt_alt. intros H1 H2. now apply (Qlt_trans _ q).
Qed.

Lemma xcompare_gt_below (m b x : xreal) :
  xcompare m b = Gt -> xcompare x b <> Gt -> xcompare m x = Gt.
Proof.
  destruct m as [|p|], b as [|q|], x as [|r|]; cbn [xcompare];
    try reflexivity; try discriminate; try (intros; congruence).
  intros H1 H2. apply Qgt_alt in H1. apply Qle_alt in H2. apply Qgt_alt.
  now apply (Qle_lt_trans _ q).
Qed.

Lemma gt_trans (x y z : num) :
  gt x y = true -> gt y z = true -> gt x z = true.
Proof.
  unfold gt, compare.
  destruct (xvalue x) as [a|], (xvalue y) as [b|], (xvalue z) as [c|];
    try discriminate.
  destruct (xcompare a b) eqn:Hab; try discriminate.
  destruct (xcompare b c) eqn:Hbc; try discriminate.
  now rewrite (xcompare_gt_trans a b c Hab Hbc).
Qed.

Lemma gt_below (m b x : num) :
  gt m b = true -> gt x b = false -> xvalue x <> None -> gt m x = true.
Proof.
  unfold gt, compare.
  destruct (xvalue m) as [a|], (xvalue b) as [c|], (xvalue x) as [d|];
    try discriminate; try contradiction.
  destruct (xcompare a c) eqn:Hac; try discriminate.
  intros _ Hdc _.
  rewrite (xcompare_gt_below a c d Hac); [reflexivity|].
  intros Hgt. now rewrite Hgt in Hdc.
Qed.

Lemma gt_not_nan (x y : num) : gt x y = true -> xvalue x <> None.
Proof.
  unfold gt, compare. destruct (xvalue x); [discriminate|].
  discriminate.
Qed.

Section ToolProperties.
Context `{TextLib}.

(** [max_from] returns the first entry of maximal [avg_score]: no later
    entry is greater, every earlier entry that is a number is smaller. *)
Lemma max_from_first_max (rest : list (string * SkillData.t)) :
  forall best : string * SkillData.t,
    exists pre post,
      (best :: rest = pre ++ max_from best rest :: post)%list
      /\ Forall (fun x => gt (avg_of (max_from best rest)) (avg_of x) = true
                          \/ xvalue (avg_of x) = None) pre
      /\ Forall (fun x => gt (avg_of x) (avg_of (max_from best rest)) = false)
                post
      /\ (pre = []
          \/ gt (avg_of (max_from best rest)) (avg_of best) = true).
Proof.
  induction rest as [|x rest IH]; intros best.
  - exists [], []. cbn [max_from app].
    split; [reflexivity|]. split; [constructor|].
    split; [constructor | now left].
  - cbn [max_from]. fold (avg_of best). fold (avg_of x).
    destruct (gt (avg_of x) (avg_of best)) eqn:Hgt.
    + destruct (IH x) as (pre & post & Heq & Hpre & Hpost & Hfirst).
      generalize dependent (max_from x rest).
      intros m Heq Hpre Hpost Hfirst.
      assert (Hmb : gt (avg_of m) (avg_of best) = true).
      { destruct Hfirst as [->|Hmx].
        - cbn [app] in Heq. injection Heq as Hx _. now rewrite <- Hx.
        - now apply (gt_trans _ (avg_of x)). }
      exists (best :: pre), post. cbn [app]. rewrite <- Heq.
      split; [reflexivity|]. split; [|split; [exact Hpost | now right]].
      constructor; [now left | exact Hpre].
    + destruct (IH best) as (pre & post & Heq & Hpre & Hpost & Hfirst).
      generalize dependent (max_from best rest).
      intros m Heq Hpre Hpost Hfirst.
      destruct pre as [|y pre]; cbn [app] in Heq; injection Heq as Hb Hr.
      * exists [], (x :: post). cbn [app]. subst m post.
        split; [reflexivity|]. split; [constructor|].
        split; [|now left].
        constructor; [exact Hgt | exact Hpost].
      * subst y. destruct Hfirst as [Hnil|Hmb]; [discriminate|].
        inversion Hpre as [|? ? Hbest Hpre']; subst.
        exists (best :: x :: pre), post. cbn [app].
        split; [reflexivity|]. split; [|split; [exact Hpost | now right]].
        constructor; [now left|]. constructor; [|exact Hpre'].
        destruct (xvalue (avg_of x)) eqn:Hx; [left | now right].
        apply (gt_below _ (avg_of best)); [exact Hmb | exact Hgt|].
        now rewrite Hx.
Qed.



(** Which exceptions the parts of [_run] can raise. *)
Lemma format_num_raise (x : num) (e : exn) :
  format_num x = Raise e -> e = OverflowError.
Proof.
  unfold format_num. destruct (as_float x) eqn:Hx; cbn [bind];
    [discriminate|].
  intros Hr; inversion Hr; subst. now apply as_float_raise in Hx.
Qed.

Lemma format_num_float (f : float) : format_num (Float f) = Ret (format_1f f).
Proof. reflexivity. Qed.


Lemma format_summary_raise (p : UserProfile) (e : exn) :
  _format_summary p = Raise e -> e = OverflowError.
Proof.
  unfold _format_summary. destruct (best_skill (skills p)); [|discriminate].
  destruct (format_num _) eqn:Hf; cbn [bind]; [discriminate|].
  intros Hr; inversion Hr; subst. now apply format_num_raise in Hf.
Qed.












(** X17.  The summary names the best skill: for a profile with at least
    one skill, [_format_summary] picks as best skill the first entry, in
    insertion order, whose [avg_score] no other entry exceeds: no entry
    after it is greater, and every entry before it is smaller or a NaN.
    The text reports the number of skills, the counters and that entry;
    formatting its average raises only when it is an [int] too large for
    a [float]. *)
Theorem summary_names_first_best_skill (profile : UserProfile) :
  skills profile <> [] ->
  exists pre k sd post,
    skills profile = (pre ++ (k, sd) :: post)%list
    /\ Forall (fun x => gt (SkillData.avg_score sd) (avg_of x) = true
                        \/ xvalue (avg_of x) = None) pre
    /\ Forall (fun x => gt (avg_of x) (SkillData.avg_score sd) = false) post
    /\ _format_summary profile
       = (avg <- format_num (SkillData.avg_score sd) ;;
          Ret ("Progress Summary:" ++ nl
               ++ "        Skills in progress: "
               ++ str_int (Z.of_nat (length (skills profile))) ++ nl
               ++ "        Total modules completed: "
               ++ str_int (total_modules_completed profile) ++ nl
               ++ "        Overall average: "
               ++ format_1f (overall_avg_score profile) ++ "%" ++ nl
               ++ "        Best skill: " ++ k ++ " (" ++ avg ++ "%)"))
    /\ (forall e, _format_summary profile = Raise e -> e = OverflowError)
    /\ (is_float (SkillData.avg_score sd) ->
        exists text, _format_summary profile = Ret text).
Proof.
  intros Hne.
  assert (Hraise : forall e, _format_summary profile = Raise e ->
                             e = OverflowError)
    by (intros e; apply format_summary_raise).
  unfold _format_summary in *.
  destruct (skills profile) as [|first rest] eqn:Hsk; [contradiction|].
  cbn [best_skill] in *.
  destruct (max_from_first_max rest first)
    as (pre & post & Heq & Hpre & Hpost & _).
  destruct (max_from first rest) as [k sd] eqn:Hmax.
  exists pre, k, sd, post. cbn [fst snd] in *.
  split; [exact Heq|]. split; [exact Hpre|]. split; [exact Hpost|].
  split; [reflexivity|]. split; [exact Hraise|].
  intros Hfloat. destruct (SkillData.avg_score sd) as [z|f];
    [contradiction|].
  eexists. reflexivity.
Qed.

End ToolProperties.



Lemma summary_names_first_best_skill_witness :
  exists pre k sd post,
    skills demo_profile = (pre ++ (k, sd) :: post)%list
    /\ Forall (fun x => gt (SkillData.avg_score sd) (avg_of x) = true
                        \/ xvalue (avg_of x) = None) pre
    /\ Forall (fun x => gt (avg_of x) (SkillData.avg_score sd) = false) post
    /\ @_format_summary text_datetime demo_text demo_profile
       = (avg <- @format_num text_datetime demo_text
                   (SkillData.avg_score sd) ;;
          Ret ("Progress Summary:" ++ nl
               ++ "        Skills in progress: "
               ++ str_int (Z.of_nat (length (skills demo_profile))) ++ nl
               ++ "        Total modules completed: "
               ++ str_int (total_modules_completed demo_profile) ++ nl
               ++ "        Overall average: "
               ++ @format_1f text_datetime demo_text
                    (overall_avg_score demo_profile) ++ "%" ++ nl
               ++ "        Best skill: " ++ k ++ " (" ++ avg ++ "%)"))
    /\ (forall e,
          @_format_summary text_datetime demo_text demo_profile = Raise e ->
          e = OverflowError)
    /\ (is_float (SkillData.avg_score sd) ->
        exists text,
          @_format_summary text_datetime demo_text demo_profile = Ret text).
Proof.
  apply (@summary_names_first_best_skill text_datetime demo_text
           demo_profile).
  discriminate.
Defined.

(** The texts for the example profile, with the example renderer. *)
Example format_summary_demo :
  @_format_summary text_datetime demo_text demo_profile
  = Ret ("Progress Summary:" ++ nl
         ++ "        Skills in progress: 1" ++ nl
         ++ "        Total modules completed: 2" ++ nl
         ++ "        Overall average: 85.0%" ++ nl
         ++ "        Best skill: python (85.0%)").
Proof. vm_compute. reflexivity. Qed.

(** The best skill among numbers and a NaN: the NaN is never greater,
    and nothing is greater than a NaN that comes first. *)
Example best_skill_with_nan :
  option_map fst
    (best_skill [("a", SkillData.Build [] (Float 70));
                 ("b", SkillData.Build [] (Float nan));
                 ("c", SkillData.Build [] (Float 90))])
  = Some "c"
  /\ option_map fst
       (best_skill [("a", SkillData.Build [] (Float nan));
                    ("b", SkillData.Build [] (Float 90))])
     = Some "a".
Proof. split; vm_compute; reflexivity. Qed.

(** An update whose message cannot be formatted: the stored profile
    holds the score 10^400, the update brings -10^400, the averages are
    0.0 and the profile is saved; formatting the score for the message
    raises, and the caller gets the error text. *)
Example run_update_saved_but_error_text :
  exists fs' : FS.t,
    @_run text_datetime demo_text huge_fs "update" "alice"
      (Some "python") (Some "Core") (Some (Int (- 10 ^ 400)))
      "2024-01-03 09:00:00" "2024-01-03T10:00:00" "2024-01-03 10:00:01"
    = Ret ("Error managing knowledge profile: OverflowError", fs')
    /\ fs' <> huge_fs
    /\ option_map (@total_modules_completed text_datetime)
         (match @_load_profile text_datetime fs' "alice"
                  "2024-02-01 00:00:00" with
          | Ret q => Some q
          | Raise _ => None
          end)
       = Some 2.
Proof.
  eexists. split; [vm_compute; reflexivity|].
  split; [|vm_compute; reflexivity].
  intros Heq. apply (f_equal FS.files) in Heq.
  vm_compute in Heq. discriminate.
Qed.

(** ** The resource search tool *)

Import ResourceSearch.

Lemma curated_value (entries : list (string * string * string)) :
  curated entries
  = Ret (map (fun e : string * string * string =>
                let '(ti, u, d) := e in
                ResourceLink.Build ti u (Some d) 1%Q) entries).
Proof.
  induction entries as [|[[ti u] d] rest IH]; [reflexivity|].
  unfold curated in *. cbn [mapM map]. rewrite IH. reflexivity.
Qed.

Lemma list_ascii_app (a b : string) :
  list_ascii_of_string (a ++ b)
  = (list_ascii_of_string a ++ list_ascii_of_string b)%list.
Proof. induction a as [|c a IH]; cbn; [reflexivity|now rewrite IH]. Qed.

Lemma string_app_assoc (a b c : string) : (a ++ b) ++ c = a ++ b ++ c.
Proof. induction a as [|x a IH]; cbn; [reflexivity|now rewrite IH]. Qed.

Lemma no_blank_app (a b : string) :
  no_blank a -> no_blank b -> no_blank (a ++ b).
Proof.
  unfold no_blank. intros Ha Hb. rewrite list_ascii_app.
  intros Hin. apply in_app_or in Hin. tauto.
Qed.

Lemma no_blank_replace (by_ s : string) :
  no_blank by_ -> no_blank (replace_blank by_ s).
Proof.
  intros Hby. induction s as [|c s IH]; [intros []|].
  cbn [replace_blank]. apply no_blank_app; [|exact IH].
  destruct (Ascii.eqb c " ") eqn:E; [exact Hby|].
  intros [Hc|[]]. subst c. discriminate.
Qed.

Lemma no_blank_closed (s : string) :
  forallb (fun c => negb (Ascii.eqb c " ")) (list_ascii_of_string s) = true ->
  no_blank s.
Proof.
  unfold no_blank. intros Hf Hin.
  rewrite forallb_forall in Hf. specialize (Hf _ Hin). discriminate.
Qed.

Ltac blank_free :=
  repeat first
    [ apply no_blank_replace
    | apply no_blank_closed; reflexivity
    | apply no_blank_app ].

Ltac curated_link_ok :=
  unfold curated_link; cbn [ResourceLink.relevance_score ResourceLink.valid
    ResourceLink.description ResourceLink.url];
  split; [reflexivity|]; split; [reflexivity|]; split; [reflexivity|];
  split; [reflexivity|]; blank_free.

Ltac fallback_branches query :=
  unfold _get_fallback_resources;
  destruct (contains "python" (lower query));
    [|destruct (contains "machine learning" (lower query)
                || contains "ml" (lower query));
      [|destruct (contains "javascript" (lower query)
                  || contains "js" (lower query))]];
    rewrite curated_value; cbn [map].

Lemma fallback_resources_three (query : string) :
  exists a b c : ResourceLink.t,
    _get_fallback_resources query = Ret [a; b; c].
Proof. fallback_branches query; do 3 eexists; reflexivity. Qed.

(** X18.  The curated fallback never fails and never comes back empty:
    for every query [_get_fallback_resources] returns exactly three
    links, each valid with relevance 1, with a description that is not
    empty, and with an https address that holds no blank, also when
    the query itself has blanks. *)
Theorem fallback_resources_shape (query : string) :
  exists a b c : ResourceLink.t,
    _get_fallback_resources query = Ret [a; b; c]
    /\ curated_link a /\ curated_link b /\ curated_link c.
Proof.
  fallback_branches query;
    do 3 eexists; (split; [reflexivity|]);
    (split; [|split]); curated_link_ok.
Qed.

Lemma lower_app (a b : string) : lower (a ++ b) = lower a ++ lower b.
Proof. induction a as [|c a IH]; cbn; [reflexivity|now rewrite IH]. Qed.

Lemma starts_with_app (k s : string) : starts_with k (k ++ s) = true.
Proof.
  induction k as [|c k IH]; [reflexivity|].
  cbn. now rewrite Ascii.eqb_refl, IH.
Qed.

Lemma contains_app_r (k p s : string) :
  contains k s = true -> contains k (p ++ s) = true.
Proof.
  intros Hs. induction p as [|c p IH]; [exact Hs|].
  cbn [append contains]. rewrite IH. apply orb_true_r.
Qed.

Lemma contains_inside (k pre post : string) :
  contains k (pre ++ k ++ post) = true.
Proof.
  apply contains_app_r.
  destruct (k ++ post) eqn:E; cbn [contains];
    rewrite <- E, starts_with_app; reflexivity.
Qed.

Lemma contains_lower_inside (k pre kw post : string) :
  lower kw = k -> contains k (lower (pre ++ kw ++ post)) = true.
Proof.
  intros <-. rewrite !lower_app. apply contains_inside.
Qed.

(** X19.  Python wins, in any spelling and at any place: a query that
    holds the word python anywhere, in whatever mix of upper and lower
    case, gets the Python list of [_get_fallback_resources], whatever
    else the query mentions. *)
Theorem fallback_python_anywhere (pre kw post : string) :
  lower kw = "python" ->
  _get_fallback_resources (pre ++ kw ++ post)
  = _get_fallback_resources "python".
Proof.
  intros Hkw. unfold _get_fallback_resources.
  rewrite (contains_lower_inside "python" pre kw post Hkw).
  reflexivity.
Qed.

Lemma fallback_python_anywhere_witness :
  _get_fallback_resources "HTML and PyThOn for beginners"
  = _get_fallback_resources "python".
Proof.
  apply (fallback_python_anywhere "HTML and " "PyThOn" " for beginners").
  reflexivity.
Defined.

(** X20.  The short keywords match inside other words.  In a query
    without python, the letters ml anywhere (in any case, as in HTML)
    select the machine-learning list; the letters js anywhere (as in
    JSON) select the JavaScript list when the query has neither
    "machine learning" nor ml. *)
Theorem fallback_short_keywords (pre kw post : string) :
  contains "python" (lower (pre ++ kw ++ post)) = false ->
  (lower kw = "ml" ->
   _get_fallback_resources (pre ++ kw ++ post)
   = _get_fallback_resources "machine learning")
  /\ (lower kw = "js" ->
      contains "machine learning" (lower (pre ++ kw ++ post)) = false ->
      contains "ml" (lower (pre ++ kw ++ post)) = false ->
      _get_fallback_resources (pre ++ kw ++ post)
      = _get_fallback_resources "javascript").
Proof.
  intros Hpy. split.
  - intros Hkw. unfold _get_fallback_resources. rewrite Hpy.
    rewrite (contains_lower_inside "ml" pre kw post Hkw), orb_true_r.
    reflexivity.
  - intros Hkw Hml1 Hml2. unfold _get_fallback_resources.
    rewrite Hpy, Hml1, Hml2.
    rewrite (contains_lower_inside "js" pre kw post Hkw), orb_true_r.
    reflexivity.
Qed.

Lemma fallback_short_keywords_witness :
  _get_fallback_resources "HTML basics"
  = _get_fallback_resources "machine learning"
  /\ _get_fallback_resources "Parsing JSON files"
     = _get_fallback_resources "javascript".
Proof.
  split.
  - apply (proj1 (fallback_short_keywords "HT" "ML" " basics" eq_refl)).
    reflexivity.
  - apply (proj2 (fallback_short_keywords "Parsing " "JS" "ON files"
                    eq_refl));
      reflexivity.
Defined.

Lemma take_length (n : nat) (s : string) :
  (String.length (take n s) <= n)%nat.
Proof.
  revert s. induction n as [|n IH]; intros s; [cbn; lia|].
  destruct s as [|c s]; cbn; [lia|]. specialize (IH s). lia.
Qed.

Lemma starts_with_take (n : nat) (s : string) :
  starts_with (take n s) s = true.
Proof.
  revert s. induction n as [|n IH]; intros s; [reflexivity|].
  destruct s as [|c s]; [reflexivity|].
  cbn. now rewrite Ascii.eqb_refl, IH.
Qed.

Lemma take_length_min (n : nat) (s : string) :
  String.length (take n s) = Nat.min n (String.length s).
Proof.
  revert s. induction n as [|n IH]; intros s; [reflexivity|].
  destruct s as [|c s]; [reflexivity|].
  cbn [take String.length]. rewrite IH. reflexivity.
Qed.

Lemma ddg_links_value (results : list (Dict.t string)) :
  exists links : list ResourceLink.t,
    mapM ddg_link results = Ret links
    /\ Forall2 ddg_link_of results links.
Proof.
  induction results as [|r rest [links [Hl Hf]]].
  - exists []. split; [reflexivity|constructor].
  - eexists. cbn [mapM]. rewrite Hl. unfold ddg_link at 1.
    unfold ResourceLink.mk, validated. cbn [failed_fields].
    split; [reflexivity|]. constructor; [|exact Hf].
    split; [reflexivity|]. split; [reflexivity|].
    cbn [ResourceLink.title ResourceLink.url ResourceLink.description].
    unfold get_default.
    split; [reflexivity|].
    split; [now destruct (Dict.get "href" r), (Dict.get "link" r)|].
    eexists. eexists. split; [reflexivity|]. split; [reflexivity|].
    split; [apply take_length_min | apply starts_with_take].
Qed.

(** X21.  When the [ddgs] package answers, [_search_with_duckduckgo]
    gives one link per result, in order, and building them never fails:
    each link is valid with relevance 0.7, carries the title of the
    result (or "Untitled") and its "href" (or its "link", or the empty
    text), and its description is the first 200 characters of the
    result's body: the whole body when it is shorter, the empty text
    when there is none. *)
Theorem duckduckgo_links (results : list (Dict.t string)) (query : string) :
  exists links : list ResourceLink.t,
    _search_with_duckduckgo (Installed (Got results)) query
    = Got (Ret links)
    /\ Forall2 ddg_link_of results links.
Proof.
  destruct (ddg_links_value results) as [links [Hl Hf]].
  exists links. cbn [_search_with_duckduckgo]. rewrite Hl. auto.
Qed.

(** A description is cut at 200 characters, not dropped. *)
Example duckduckgo_link_demo :
  _search_with_duckduckgo
    (Installed (Got [[("title", "Guide"); ("link", "https://example.org");
                      ("body", "Part 1")]]))
    "python"
  = Got (Ret [ResourceLink.Build "Guide" "https://example.org"
                (Some "Part 1") (7 # 10)%Q]).
Proof. reflexivity. Qed.




Section SearchTool.
Context `{TextLib}.

Lemma run_value (use_tavily : bool)
  (http : outcome (option (list TavilyResult.t))) (pkg : ddgs_package)
  (query : string) (max_results : Z) (now : datetime)
  (links : list ResourceLink.t) :
  (if use_tavily then _search_with_tavily http max_results
   else _search_with_duckduckgo pkg query)
  = Got (Ret links) ->
  ResourceSearch._run use_tavily http pkg query max_results now
  = Ret (if resources_ok links
         then _format_results (Build_ResourceSearchResult query links now)
         else "Error searching for resources: "
              ++ str_exn (ValidationError ["resources"])).
Proof.
  intros Hs. unfold ResourceSearch._run. rewrite Hs. cbn [bind].
  unfold mk_ResourceSearchResult, validated.
  cbn [failed_fields filter map snd fst negb].
  destruct (resources_ok links); reflexivity.
Qed.

(** X23.  More than five links are an error, not a longer list: when
    the chosen backend hands back more than five links, [_run] returns
    the error text of the failed [ResourceSearchResult] validation and
    shows none of them, although [max_results] may be as large as 10. *)
Theorem run_caps_results_at_five (use_tavily : bool)
  (http : outcome (option (list TavilyResult.t))) (pkg : ddgs_package)
  (query : string) (max_results : Z) (now : datetime)
  (links : list ResourceLink.t) :
  (if use_tavily then _search_with_tavily http max_results
   else _search_with_duckduckgo pkg query)
  = Got (Ret links) ->
  (5 < length links)%nat ->
  ResourceSearch._run use_tavily http pkg query max_results now
  = Ret ("Error searching for resources: "
         ++ str_exn (ValidationError ["resources"])).
Proof.
  intros Hs Hlen.
  rewrite (run_value _ _ _ _ _ _ _ Hs). unfold resources_ok.
  destruct (length links <=? 5)%nat eqn:E;
    [apply Nat.leb_le in E; lia|reflexivity].
Qed.

(** X24.  Without a Tavily key the search always answers with a text:
    whatever the state of the [ddgs] package, [_run] raises nothing;
    and when the package is not installed the answer lists the three
    curated links for the query. *)
Theorem search_without_tavily_always_answers
  (http : outcome (option (list TavilyResult.t))) (pkg : ddgs_package)
  (query : string) (max_results : Z) (now : datetime) :
  (exists text : string,
     ResourceSearch._run false http pkg query max_results now = Ret text)
  /\ (exists rest : string,
        ResourceSearch._run false http NotInstalled query max_results now
        = Ret ("Found 3 learning resources for: '" ++ query ++ "'"
               ++ nl ++ rest)).
Proof.
  destruct (fallback_resources_three query) as (a & b & c & Hf).
  split.
  - destruct pkg as [|[results|message]].
    + eexists. apply run_value. cbn [_search_with_duckduckgo].
      rewrite Hf. reflexivity.
    + destruct (ddg_links_value results) as [links [Hl _]].
      eexists. apply run_value. cbn [_search_with_duckduckgo].
      rewrite Hl. reflexivity.
    + eexists. reflexivity.
  - eexists. erewrite run_value;
      [|cbn [_search_with_duckduckgo]; rewrite Hf; reflexivity].
    cbn [resources_ok length Nat.leb]. unfold _format_results.
    cbn [Schemas.resources Schemas.query length Z.of_nat Pos.of_succ_nat
         Pos.succ app join flat_map].
    change (str_int 3) with "3". cbn [append].
    rewrite string_app_assoc. reflexivity.
Qed.

End SearchTool.

Lemma run_caps_results_at_five_witness :
  @ResourceSearch._run text_datetime demo_text false (Failed "unused")
    (Installed (Got demo_results)) "rocq" 6 "2024-01-01 09:00:00"
  = Ret "Error searching for resources: ValidationError".
Proof.
  eapply (@run_caps_results_at_five text_datetime demo_text false
            (Failed "unused") (Installed (Got demo_results)) "rocq" 6
            "2024-01-01 09:00:00").
  - vm_compute. reflexivity.
  - cbn. lia.
Defined.

(** The offline answer for a query with a blank, with the example
    renderer. *)
Example run_offline_demo :
  exists rest : string,
    @ResourceSearch._run text_datetime demo_text false (Failed "unused")
      NotInstalled "graph theory" 5 "2024-01-01 09:00:00"
    = Ret ("Found 3 learning resources for: 'graph theory'" ++ nl
           ++ "Search performed at: 2024-01-01 09:00:00" ++ nl
           ++ nl ++ repeat_str "=" 60 ++ nl ++ nl
           ++ "1. graph theory - Khan Academy" ++ nl
           ++ "   URL: https://www.khanacademy.org/search?page_search_query=graph+theory"
           ++ nl
           ++ "   Description: Free online courses and lessons" ++ nl
           ++ "   Relevance: *****" ++ nl ++ rest).
Proof. eexists. vm_compute. reflexivity. Qed.

Lemma tavily_link_value (r : TavilyResult.t) :
  tavily_link r
  = if score_in_range r
    then Ret (ResourceLink.Build
                (or_default (TavilyResult.title r) "Untitled")
                (or_default (TavilyResult.url r) "")
                (Some (take 200 (or_default (TavilyResult.content r) "")))
                (or_default (TavilyResult.score r) (1 # 2)%Q))
    else Raise (ValidationError ["relevance_score"]).
Proof.
  unfold tavily_link, ResourceLink.mk, validated, score_in_range.
  cbn [failed_fields filter map snd fst].
  destruct (TavilyResult.score r) as [x|]; cbn [or_default].
  - destruct (ResourceLink.relevance_score_ok x); reflexivity.
  - reflexivity.
Qed.

Lemma tavily_links_ok (l : list TavilyResult.t) :
  forallb score_in_range l = true ->
  exists links : list ResourceLink.t,
    mapM tavily_link l = Ret links
    /\ length links = length l
    /\ Forall short_described links.
Proof.
  induction l as [|r rest IH]; intros Hf.
  - exists []. repeat split. constructor.
  - cbn [forallb] in Hf. apply andb_true_iff in Hf as [Hr Hrest].
    destruct (IH Hrest) as (links & Hm & Hlen & Hd).
    eexists. cbn [mapM]. rewrite tavily_link_value, Hr, Hm.
    split; [reflexivity|]. split; [cbn; now rewrite Hlen|].
    constructor; [|exact Hd]. split.
    + unfold ResourceLink.valid. cbn [ResourceLink.relevance_score].
      unfold score_in_range in Hr.
      destruct (TavilyResult.score r); [exact Hr|reflexivity].
    + eexists. split; [reflexivity|apply take_length].
Qed.

Lemma tavily_links_bad (l : list TavilyResult.t) :
  forallb score_in_range l = false ->
  mapM tavily_link l = Raise (ValidationError ["relevance_score"]).
Proof.
  induction l as [|r rest IH]; intros Hf; [discriminate|].
  cbn [forallb] in Hf. cbn [mapM]. rewrite tavily_link_value.
  destruct (score_in_range r); [|reflexivity].
  rewrite (IH Hf). reflexivity.
Qed.

Lemma slice_to_length {A : Type} (n : Z) (l : list A) :
  0 <= n -> length (slice_to n l) = Nat.min (Z.to_nat n) (length l).
Proof.
  intros Hn. unfold slice_to.
  destruct (n <? 0) eqn:E; [apply Z.ltb_lt in E; lia|].
  apply length_firstn.
Qed.

Section TavilyTool.
Context `{TextLib}.

(** X25.  A Tavily search within the limit is never an error: for
    [max_results] from 0 to 5 and a response whose first [max_results]
    results carry no score outside 0..1, [_search_with_tavily] builds
    one valid link for each of the first [max_results] results (all of
    them if there are fewer), each described by at most 200
    characters, and [_run] returns their formatted list.  Results
    beyond [max_results] are not looked at. *)
Theorem tavily_search_within_limit (data : list TavilyResult.t)
  (pkg : ddgs_package) (query : string) (max_results : Z) (now : datetime) :
  0 <= max_results <= 5 ->
  forallb score_in_range (slice_to max_results data) = true ->
  exists links : list ResourceLink.t,
    _search_with_tavily (Got (Some data)) max_results = Got (Ret links)
    /\ length links = Nat.min (Z.to_nat max_results) (length data)
    /\ Forall short_described links
    /\ ResourceSearch._run true (Got (Some data)) pkg query max_results now
       = Ret (_format_results (Build_ResourceSearchResult query links now)).
Proof.
  intros Hmax Hscores.
  destruct (tavily_links_ok _ Hscores) as (links & Hm & Hlen & Hd).
  rewrite slice_to_length in Hlen by lia.
  exists links.
  assert (Hs : _search_with_tavily (Got (Some data)) max_results
               = Got (Ret links)).
  { cbn [_search_with_tavily or_default]. rewrite Hm. reflexivity. }
  split; [exact Hs|]. split; [exact Hlen|]. split; [exact Hd|].
  rewrite (run_value true (Got (Some data)) pkg query max_results now
             links Hs).
  unfold resources_ok.
  destruct (length links <=? 5)%nat eqn:E; [reflexivity|].
  apply Nat.leb_gt in E. lia.
Qed.

(** X26.  One bad score loses the whole search: if one of the first
    [max_results] results of a Tavily response has a score outside
    0..1, [_run] returns the error text of the failed [ResourceLink]
    validation and none of the other results. *)
Theorem tavily_bad_score_fails_search (data : list TavilyResult.t)
  (pkg : ddgs_package) (query : string) (max_results : Z) (now : datetime) :
  forallb score_in_range (slice_to max_results data) = false ->
  ResourceSearch._run true (Got (Some data)) pkg query max_results now
  = Ret ("Error searching for resources: "
         ++ str_exn (ValidationError ["relevance_score"])).
Proof.
  intros Hbad. unfold ResourceSearch._run.
  cbn [_search_with_tavily or_default].
  rewrite (tavily_links_bad _ Hbad). reflexivity.
Qed.

End TavilyTool.

Lemma tavily_search_within_limit_witness :
  exists links : list ResourceLink.t,
    _search_with_tavily (Got (Some (demo_tavily (1 # 2)))) 2
    = Got (Ret links)
    /\ length links = Nat.min (Z.to_nat 2) (length (demo_tavily (1 # 2)))
    /\ Forall short_described links
    /\ @ResourceSearch._run text_datetime demo_text true
         (Got (Some (demo_tavily (1 # 2)))) NotInstalled "rocq" 2
         "2024-01-01 09:00:00"
       = Ret (@_format_results text_datetime demo_text
                (@Build_ResourceSearchResult text_datetime "rocq" links
                   "2024-01-01 09:00:00")).
Proof.
  apply (@tavily_search_within_limit text_datetime demo_text
           (demo_tavily (1 # 2)) NotInstalled "rocq" 2
           "2024-01-01 09:00:00").
  - lia.
  - reflexivity.
Defined.

Lemma tavily_bad_score_fails_search_witness :
  @ResourceSearch._run text_datetime demo_text true
    (Got (Some (demo_tavily (3 # 2)))) NotInstalled "rocq" 5
    "2024-01-01 09:00:00"
  = Ret "Error searching for resources: ValidationError".
Proof.
  apply (@tavily_bad_score_fails_search text_datetime demo_text
           (demo_tavily (3 # 2)) NotInstalled "rocq" 5
           "2024-01-01 09:00:00").
  reflexivity.
Defined.

(* ------------------------------------------------------------------ *)
(** ** The tool trace of the application *)

Section TraceProperties.
Context `{TextLib}.

Lemma set_last_output_inputs (log : list TraceEntry.t) (o : string) :
  map TraceEntry.input (set_last_output log o) = map TraceEntry.input log.
Proof.
  induction log as [|e [|e' rest] IH]; [reflexivity|reflexivity|].
  change (set_last_output (e :: e' :: rest) o)
    with (e :: set_last_output (e' :: rest) o).
  cbn [map] in *. now rewrite IH.
Qed.

Lemma set_last_output_bounded (log : list TraceEntry.t) (o : string) :
  (String.length o <= 200)%nat ->
  Forall bounded_entry log -> Forall bounded_entry (set_last_output log o).
Proof.
  intros Ho. induction log as [|e [|e' rest] IH]; intros Hf.
  - constructor.
  - inversion Hf as [|? ? (Ht & Hi & _) _]; subst.
    constructor; [|constructor]. repeat split; assumption.
  - change (set_last_output (e :: e' :: rest) o)
      with (e :: set_last_output (e' :: rest) o).
    inversion Hf; subst. constructor; [assumption|]. apply IH. assumption.
Qed.

Lemma set_last_output_removelast (log : list TraceEntry.t) (o : string) :
  removelast (set_last_output log o) = removelast log.
Proof.
  induction log as [|e [|e' rest] IH]; [reflexivity|reflexivity|].
  change (set_last_output (e :: e' :: rest) o)
    with (e :: set_last_output (e' :: rest) o).
  change (removelast (e :: e' :: rest)) with (e :: removelast (e' :: rest)).
  rewrite <- IH.
  destruct (set_last_output (e' :: rest) o) eqn:E; [|reflexivity].
  destruct rest; discriminate.
Qed.

Lemma handle_inputs (log : list TraceEntry.t) (ev : tool_event) :
  map TraceEntry.input (handle log ev)
  = (map TraceEntry.input log ++ started_inputs [ev])%list.
Proof.
  destruct ev as [name input_text now|output_text]; cbn [handle].
  - unfold on_tool_start. rewrite map_app. reflexivity.
  - unfold on_tool_end. cbn [started_inputs flat_map]. rewrite app_nil_r.
    destruct log; [reflexivity|]. apply set_last_output_inputs.
Qed.

Lemma handle_bounded (log : list TraceEntry.t) (ev : tool_event) :
  Forall bounded_entry log -> Forall bounded_entry (handle log ev).
Proof.
  intros Hf. destruct ev as [name input_text now|output_text]; cbn [handle].
  - unfold on_tool_start. apply Forall_app. split; [assumption|].
    constructor; [|constructor].
    split; [reflexivity|]. split; [apply take_length|exact I].
  - unfold on_tool_end. destruct log; [assumption|].
    apply set_last_output_bounded; [apply take_length|assumption].
Qed.

Lemma fold_handle (evs : list tool_event) (log : list TraceEntry.t) :
  Forall bounded_entry log ->
  map TraceEntry.input (fold_left handle evs log)
  = (map TraceEntry.input log ++ started_inputs evs)%list
  /\ Forall bounded_entry (fold_left handle evs log).
Proof.
  revert log. induction evs as [|ev evs IH]; intros log Hf.
  - cbn. rewrite app_nil_r. auto.
  - cbn [fold_left].
    destruct (IH (handle log ev) (handle_bounded log ev Hf)) as [Hi Hb].
    split; [|exact Hb]. rewrite Hi, handle_inputs.
    rewrite <- app_assoc. f_equal.
    unfold started_inputs. cbn [flat_map]. rewrite app_nil_r. reflexivity.
Qed.

(** X27.  The trace of [StreamlitCallbackHandler] has one entry per
    started tool, in order: after any sequence of [on_tool_start] and
    [on_tool_end] calls on a new handler, the inputs in the log are the
    inputs of the starts cut to 200 characters; every entry is of type
    tool_start with input and output of at most 200 characters; and an
    [on_tool_end] changes no entry but the last (none on an empty
    log), so an end without a start is dropped. *)
Theorem trace_log_records_every_start (evs : list tool_event) :
  map TraceEntry.input (handle_all evs) = started_inputs evs
  /\ Forall bounded_entry (handle_all evs)
  /\ forall o : string,
       removelast (on_tool_end (handle_all evs) o)
       = removelast (handle_all evs).
Proof.
  destruct (fold_handle evs [] (Forall_nil _)) as [Hi Hb].
  split; [exact Hi|]. split; [exact Hb|].
  intros o. unfold on_tool_end.
  destruct (handle_all evs); [reflexivity|].
  apply set_last_output_removelast.
Qed.

End TraceProperties.
